(** * Exam-verification backend: record lookup, upsert and field update

    A shallow embedding of [backend/server.js]: the helper functions
    ([normalizeYesNo], [normalizeMobileNumber], [mapRowToStudent],
    [buildRowFromStudent], [getCurrentISTTimestamp], [parseIsoDate],
    [findStudentByMobile]) and the three route handlers
    ([GET /student], [POST /student], [POST /student/update]), followed by
    the properties of the specification that concern them.  Further parts
    of the program come after the vocabulary: the listing [GET /students],
    [getErrorMessage], the [origin] callback of the CORS middleware, and
    the form and the buttons of the page ([frontend/src/App.tsx]).

    Modelling conventions.
    - JavaScript strings are [string]s of 8-bit characters; [trim] removes
      the ASCII white space characters and [toLowerCase] folds [A-Z].
    - A JavaScript value is a [Js.Value].  Numbers are the integers (the
      JSON integer literals); an object or array that is only ever
      converted with [String(...)] is carried as that conversion.
    - A JavaScript object used as a record is a [gmap string Js.Value];
      reading an absent key gives [undefined].
    - The spreadsheet is the list of its data rows (sheet row 2 onwards,
      the configured range being [student_exam_data!A2:L]); every cell is
      text and the store keeps the text it is given.  Calls to the store
      succeed (credentials are valid, the sheet exists).
    - The system clock, the writes of other clients between two round
      trips to the store, and the host's [Date] parser form the
      environment [Env] of a request.
    - What the text of a timestamp means is said by [isTimestampOf], the
      Gregorian calendar and the decimal notation written down on their
      own; [istTimestamp], the embedding of [getCurrentISTTimestamp], is
      proved against it. *)

From Stdlib Require Import ZArith List String Ascii Lia DecimalString.
From stdpp Require Import base gmap strings list fin_maps.

Local Open Scope string_scope.

(** Objects keep their literal shape under [simpl]: the operations of
    [gmap] are rewritten with their lemmas, not unfolded. *)
#[local] Arguments insert : simpl never.
#[local] Arguments lookup : simpl never.
#[local] Arguments delete : simpl never.
#[local] Arguments union : simpl never.

(** ** JavaScript strings and values *)

Module Js.

Definition isDigit (c : ascii) : bool :=
  let n := nat_of_ascii c in (48 <=? n)%nat && (n <=? 57)%nat.

(** White space removed by [String.prototype.trim]: TAB, LF, VT, FF, CR
    and SPACE. *)
Definition isSpace (c : ascii) : bool :=
  let n := nat_of_ascii c in
  ((9 <=? n)%nat && (n <=? 13)%nat) || (n =? 32)%nat.

Definition isEmpty (s : string) : bool :=
  match s with EmptyString => true | String _ _ => false end.

(** [s.replace(/\D/g, '')] *)
Fixpoint stripNonDigits (s : string) : string :=
  match s with
  | EmptyString => EmptyString
  | String c r =>
      if isDigit c then String c (stripNonDigits r) else stripNonDigits r
  end.

Fixpoint trimStart (s : string) : string :=
  match s with
  | EmptyString => EmptyString
  | String c r => if isSpace c then trimStart r else s
  end.

Fixpoint trimEnd (s : string) : string :=
  match s with
  | EmptyString => EmptyString
  | String c r =>
      let r' := trimEnd r in
      if isSpace c && isEmpty r' then EmptyString else String c r'
  end.

(** [s.trim()] *)
Definition trim (s : string) : string := trimStart (trimEnd s).

Definition lowerChar (c : ascii) : ascii :=
  let n := nat_of_ascii c in
  if (65 <=? n)%nat && (n <=? 90)%nat then ascii_of_nat (n + 32) else c.

(** [s.toLowerCase()] *)
Fixpoint toLowerCase (s : string) : string :=
  match s with
  | EmptyString => EmptyString
  | String c r => String (lowerChar c) (toLowerCase r)
  end.

(** Every character of [s] satisfies [p]. *)
Fixpoint allChars (p : ascii -> bool) (s : string) : bool :=
  match s with
  | EmptyString => true
  | String c r => p c && allChars p r
  end.

(** [String(n)] for an integer [n]. *)
Definition numberToString (n : Z) : string :=
  NilZero.string_of_int (Z.to_int n).

(** [s.padStart(width, '0')] *)
Definition padStart0 (width : nat) (s : string) : string :=
  String.concat "" (replicate (width - String.length s) "0") ++ s.

Inductive Value : Type :=
| Undefined
| Null
| Bool (b : bool)
| Number (n : Z)
| Str (s : string)
| Object (repr : string).

Inductive Typeof := TUndefined | TObject | TBoolean | TNumber | TString.

Definition typeof (v : Value) : Typeof :=
  match v with
  | Undefined => TUndefined
  | Null => TObject
  | Bool _ => TBoolean
  | Number _ => TNumber
  | Str _ => TString
  | Object _ => TObject
  end.

(** [!!v] *)
Definition truthy (v : Value) : bool :=
  match v with
  | Undefined | Null => false
  | Bool b => b
  | Number n => negb (n =? 0)%Z
  | Str s => negb (isEmpty s)
  | Object _ => true
  end.

(** [String(v)], also [v.toString()] where [v] is neither [undefined]
    nor [null]. *)
Definition toStr (v : Value) : string :=
  match v with
  | Undefined => "undefined"
  | Null => "null"
  | Bool true => "true"
  | Bool false => "false"
  | Number n => numberToString n
  | Str s => s
  | Object repr => repr
  end.

(** [v ?? d] *)
Definition nullish (v d : Value) : Value :=
  match v with
  | Undefined | Null => d
  | _ => v
  end.

(** [v || d] *)
Definition orElse (v d : Value) : Value := if truthy v then v else d.

(** An object literal or a parsed JSON object. *)
Abbreviation Obj := (gmap string Value).

#[global] Instance Value_eq_dec : EqDecision Value.
Proof. solve_decision. Defined.

(** [a === b] on primitive values. *)
Definition strictEq (a b : Value) : bool := bool_decide (a = b).

(** [typeof v === 'undefined'] *)
Definition isUndefined (v : Value) : bool :=
  match typeof v with TUndefined => true | _ => false end.

(** The object literal [{ ...base, k1: v1, ..., kn: vn }]. *)
Definition assign (base : Obj) (props : list (string * Value)) : Obj :=
  foldl (fun o kv => <[kv.1 := kv.2]> o) base props.

(** [o[k]] / [o.k] *)
Definition get (o : Obj) (k : string) : Value :=
  match o !! k with
  | Some v => v
  | None => Undefined
  end.

End Js.

(** ** Pure helpers of [server.js] *)

(** The column layout A..L of a row. *)
Definition HEADERS : list string :=
  [ "Name"; "MobileNo"; "District"; "State"; "Paid"; "FeeAmount";
    "Attempted"; "RetakeAllowed"; "LastApprovedAt"; ""; ""; "CreatedAt" ].

Definition TWELVE_HOURS_MS : Z := (12 * 60 * 60 * 1000)%Z.

Definition sheetName : string := "student_exam_data".

(** A data row as the store returns it: its cells, possibly fewer than 12. *)
Abbreviation Row := (list string).
Abbreviation Sheet := (list (list string)).

(** [header && header.trim() !== ''] *)
Definition namedHeader (header : string) : bool :=
  negb (Js.isEmpty header) && negb (Js.isEmpty (Js.trim header)).

(** [row[index] ?? ''] *)
Definition cellOr (row : Row) (index : nat) : Js.Value :=
  Js.Str (default "" (row !! index)).

Definition mapRowToStudent (row : Row) (rowNumber : nat) : Js.Obj :=
  let data :=
    foldl
      (fun (acc : Js.Obj) '(index, header) =>
         if namedHeader header then <[header := cellOr row index]> acc
         else if (index =? 9)%nat then <["_columnJ" := cellOr row index]> acc
         else if (index =? 10)%nat then <["_columnK" := cellOr row index]> acc
         else acc)
      ∅ (imap pair HEADERS) in
  <["rowNumber" := Js.Number (Z.of_nat rowNumber)]> data.

Definition normalizeYesNo (value : Js.Value) : string :=
  match value with
  | Js.Bool b => if b then "Yes" else "No"
  | Js.Str s =>
      if String.eqb (Js.toLowerCase (Js.trim s)) "yes" then "Yes" else "No"
  | _ => "No"
  end.

(** What the handlers can throw. *)
Inductive Error : Type :=
| TrimNotAFunction (field : string)
| RowWidth (got : nat)
| UpdateWidth (got : nat)
| NewRowWidth (got : nat)
| AppendButExists (mobile : string) (rowNumber : Js.Value).

Inductive Outcome (A : Type) : Type :=
| Ok (a : A)
| Throw (e : Error).
Arguments Ok {A} a.
Arguments Throw {A} e.

(** The 12 values of a row, in [HEADERS] order. *)
Definition rowValues (student : Js.Obj) : list Js.Value :=
  imap
    (fun index header =>
       if negb (namedHeader header) then
         if (index =? 9)%nat then Js.nullish (Js.get student "_columnJ") (Js.Str "")
         else if (index =? 10)%nat then
           Js.nullish (Js.get student "_columnK") (Js.Str "")
         else Js.Str ""
       else
         match Js.get student header with
         | Js.Undefined | Js.Null => Js.Str ""
         | value => Js.Str (Js.trim (Js.toStr value))
         end)
    HEADERS.

Definition buildRowFromStudent (student : Js.Obj) : Outcome (list Js.Value) :=
  let row := rowValues student in
  if negb (length row =? length HEADERS)%nat then Throw (RowWidth (length row))
  else Ok row.

(** The range [`${sheetName}!A${rowNumber}:L${rowNumber}`] of one row. *)
Inductive Range : Type :=
| RowAL (sheet : string) (rowNumber : Js.Value).

Definition buildUpdateRange (rowNumber : Js.Value) : Range :=
  RowAL sheetName rowNumber.

(** [normalizeMobileNumber]: [''] for a falsy argument, else the digits of
    its [toString()]. *)
Definition normalizeMobileNumber (mobileNo : Js.Value) : string :=
  if negb (Js.truthy mobileNo) then ""
  else Js.stripNonDigits (Js.toStr mobileNo).

(** *** [getCurrentISTTimestamp]

    [Date]'s UTC getters, from a time value in milliseconds since the
    epoch: the day number is split into year, month and day of the
    proleptic Gregorian calendar. *)

Local Open Scope Z_scope.

Definition msPerDay : Z := 86400000.

Definition civilFromDays (days : Z) : Z * Z * Z :=
  let z := days + 719468 in
  let era := z / 146097 in
  let doe := z - era * 146097 in
  let yoe := (doe - doe / 1460 + doe / 36524 - doe / 146096) / 365 in
  let y := yoe + era * 400 in
  let doy := doe - (365 * yoe + yoe / 4 - yoe / 100) in
  let mp := (5 * doy + 2) / 153 in
  let d := doy - (153 * mp + 2) / 5 + 1 in
  let m := if mp <? 10 then mp + 3 else mp - 9 in
  (if m <=? 2 then y + 1 else y, m, d).

Definition getUTCFullYear (t : Z) : Z := (civilFromDays (t / msPerDay)).1.1.
(** [getUTCMonth() + 1] *)
Definition getUTCMonth1 (t : Z) : Z := (civilFromDays (t / msPerDay)).1.2.
Definition getUTCDate (t : Z) : Z := (civilFromDays (t / msPerDay)).2.
Definition getUTCHours (t : Z) : Z := (t mod msPerDay) / 3600000.
Definition getUTCMinutes (t : Z) : Z := (t mod 3600000) / 60000.
Definition getUTCSeconds (t : Z) : Z := (t mod 60000) / 1000.
Definition getUTCMilliseconds (t : Z) : Z := t mod 1000.

Definition pad (width : nat) (n : Z) : string :=
  Js.padStart0 width (Js.numberToString n).

(** The timestamp written for the instant [now] (milliseconds since the
    epoch): civil time at UTC+5:30 followed by the suffix [+05:30]. *)
Definition istTimestamp (now : Z) : string :=
  let istOffsetMs := 19800000 in
  let istTime := now + istOffsetMs in
  Js.numberToString (getUTCFullYear istTime) ++ "-" ++
  pad 2 (getUTCMonth1 istTime) ++ "-" ++
  pad 2 (getUTCDate istTime) ++ "T" ++
  pad 2 (getUTCHours istTime) ++ ":" ++
  pad 2 (getUTCMinutes istTime) ++ ":" ++
  pad 2 (getUTCSeconds istTime) ++ "." ++
  pad 3 (getUTCMilliseconds istTime) ++ "+05:30".

(** [Math.ceil(a / b)] for integers [a] and [b > 0]. *)
Definition ceilDiv (a b : Z) : Z := - ((- a) / b).

Local Close Scope Z_scope.

(** ** The store, the clock and the request monad *)

(** A call made to the spreadsheet API by a handler. *)
Inductive Call : Type :=
| ValuesGet
| ValuesUpdate (range : Range) (values : list Js.Value)
| ValuesAppend (values : list Js.Value).

(** The environment of a request: [clock n] is the [n]-th reading of the
    system clock, [others n] is what other clients do to the sheet just
    before the [n]-th round trip to the store, and [dateParse] is the
    parser of [new Date(string)] ([None] for an invalid date, else the
    time value in milliseconds). *)
Record Env : Type := {
  clock : nat -> Z;
  others : nat -> Sheet -> Sheet;
  dateParse : string -> option Z
}.

(** No other client writes while the request runs. *)
Definition sequential (env : Env) : Prop :=
  forall n s, others env n s = s.

Record World : Type := {
  sheet : Sheet;
  reads : nat;
  trips : nat;
  log : list Call
}.

(** The world after a round trip that leaves the sheet as [s]. *)
Definition tripped (c : Call) (s : Sheet) (w : World) : World :=
  {| sheet := s; reads := reads w; trips := S (trips w);
     log := (log w ++ [c])%list |}.

(** The world after a reading of the clock. *)
Definition ticked (w : World) : World :=
  {| sheet := sheet w; reads := S (reads w); trips := trips w; log := log w |}.

Definition M (A : Type) : Type := World -> Outcome A * World.

#[global] Instance M_ret : MRet M := fun A a w => (Ok a, w).

#[global] Instance M_bind : MBind M := fun A B f m w =>
  match m w with
  | (Ok a, w') => f a w'
  | (Throw e, w') => (Throw e, w')
  end.

Definition throw {A} (e : Error) : M A := fun w => (Throw e, w).

(** [try { body } catch (error) { handler }] *)
Definition tryCatch {A} (body : M A) (handler : Error -> M A) : M A :=
  fun w =>
    match body w with
    | (Ok a, w') => (Ok a, w')
    | (Throw e, w') => handler e w'
    end.

Definition lift {A} (o : Outcome A) : M A := fun w => (o, w).

(** The text a cell holds after a value is written to it. *)
Definition cellText (v : Js.Value) : string := Js.toStr v.

(** Writing [r] at index [i] of the data rows; rows between the end of the
    data and [i] are blank. *)
Definition setRow (i : nat) (r : Row) (s : Sheet) : Sheet :=
  if (i <? length s)%nat then <[i := r]> s
  else (s ++ replicate (i - length s) [] ++ [r])%list.

(** The effect of [values.update] on the data rows: row number [n] is the
    data row of index [n - 2]; a range outside the data rows leaves them
    as they are. *)
Definition applyUpdate (range : Range) (values : list Js.Value) (s : Sheet)
  : Sheet :=
  match range with
  | RowAL _ (Js.Number n) =>
      if (2 <=? n)%Z then setRow (Z.to_nat (n - 2)) (cellText <$> values) s
      else s
  | RowAL _ _ => s
  end.

Section Handlers.

Variable env : Env.

(** One round trip: the other clients' writes land first. *)
Definition roundTrip (c : Call) (effect : Sheet -> Sheet) : M Sheet :=
  fun w =>
    let s := effect (others env (trips w) (sheet w)) in
    (Ok s, tripped c s w).

(** [sheets.spreadsheets.values.get({ range: SHEET_RANGE })] *)
Definition valuesGet : M Sheet := roundTrip ValuesGet id.

(** [sheets.spreadsheets.values.update({ range, resource: { values: [values] } })] *)
Definition valuesUpdate (range : Range) (values : list Js.Value) : M unit :=
  _ ← roundTrip (ValuesUpdate range values) (applyUpdate range values);
  mret tt.

(** [sheets.spreadsheets.values.append({ range: SHEET_RANGE, resource: { values: [values] } })] *)
Definition valuesAppend (values : list Js.Value) : M unit :=
  _ ← roundTrip (ValuesAppend values) (fun s => (s ++ [cellText <$> values])%list);
  mret tt.

(** [Date.now()] / [new Date().getTime()] *)
Definition dateNow : M Z :=
  fun w => (Ok (clock env (reads w)), ticked w).

Definition getCurrentISTTimestamp : M string :=
  now ← dateNow;
  mret (istTimestamp now).

Definition parseIsoDate (value : Js.Value) : option Z :=
  match value with
  | Js.Str s => if Js.isEmpty s then None else dateParse env s
  | _ => None
  end.

(** [dataRows.findIndex(pred)] *)
Fixpoint findIndex {A} (pred : A -> bool) (l : list A) : option nat :=
  match l with
  | [] => None
  | x :: r => if pred x then Some 0%nat else S <$> findIndex pred r
  end.

(** The predicate of the scan: rows with fewer than two cells or a blank
    mobile number never match. *)
Definition rowMatches (searchMobile : string) (row : Row) : bool :=
  if (length row <? 2)%nat then false
  else
    let rowMobile :=
      normalizeMobileNumber (Js.Str (default "" (row !! 1%nat))) in
    if Js.isEmpty rowMobile then false
    else String.eqb rowMobile searchMobile.

(** The scan of [findStudentByMobile] over the rows just fetched. *)
Definition lookupRows (mobileNo : string) (rows : Sheet) : option Js.Obj :=
  match rows with
  | [] => None
  | _ =>
      let searchMobile := normalizeMobileNumber (Js.Str mobileNo) in
      let dataRows := rows in
      match findIndex (rowMatches searchMobile) dataRows with
      | None => None
      | Some index =>
          let rowNumber := (index + 2)%nat in
          Some (mapRowToStudent (default [] (dataRows !! index)) rowNumber)
      end
  end.

Definition findStudentByMobile (mobileNo : string) : M (option Js.Obj) :=
  rows ← valuesGet;
  mret (lookupRows mobileNo rows).

(** [v.trim()]: a [TypeError] unless [v] is a string. *)
Definition trimOf (field : string) (v : Js.Value) : M string :=
  match v with
  | Js.Str s => mret (Js.trim s)
  | _ => throw (TrimNotAFunction field)
  end.

(** *** Responses *)

Inductive Body : Type :=
| BodyStudent (student : Js.Obj)
| BodyCreated (student : Js.Obj)
| BodyUpdated (student : Js.Obj)
| BodyNotFound
| BodyError (error : string)
| BodyCooldown (remainingHours : Z).

Record Response : Type := { status : nat; body : Body }.

Definition respond (st : nat) (b : Body) : M Response :=
  mret {| status := st; body := b |}.

(** *** [GET /student] *)

Definition getStudent (mobileNo : option string) : M Response :=
  match mobileNo with
  | None => respond 400 (BodyError "mobileNo query parameter is required.")
  | Some mobileNo =>
      if Js.isEmpty mobileNo || Js.isEmpty (Js.trim mobileNo) then
        respond 400 (BodyError "mobileNo query parameter is required.")
      else
        tryCatch
          (student ← findStudentByMobile (Js.trim mobileNo);
           match student with
           | None => respond 404 BodyNotFound
           | Some student => respond 200 (BodyStudent student)
           end)
          (fun _ => respond 500 (BodyError "Failed to fetch student data"))
  end.

(** *** [POST /student] *)

Record StudentBody : Type := {
  Name : Js.Value;
  MobileNo : Js.Value;
  District : Js.Value;
  State : Js.Value;
  Paid : Js.Value;
  FeeAmount : Js.Value
}.

(** [FeeAmount === undefined || FeeAmount === null || FeeAmount === ''] *)
Definition feeMissing (v : Js.Value) : bool :=
  match v with
  | Js.Undefined | Js.Null => true
  | Js.Str s => Js.isEmpty s
  | _ => false
  end.

(** The update of the row found for the number, written three times in the
    handler (after the first lookup, after [finalCheck] and after
    [preAppendCheck]) with the same statements. *)
Definition updateExisting (req : StudentBody)
    (normalizedMobileNo normalizedPaid : string) (existing : Js.Obj)
  : M Response :=
  name ← trimOf "Name" (Name req);
  district ← trimOf "District" (District req);
  state ← trimOf "State" (State req);
  let updatedStudent :=
    Js.assign existing
      [ ("Name", Js.Str name);
        ("MobileNo", Js.Str normalizedMobileNo);
        ("District", Js.Str district);
        ("State", Js.Str state);
        ("Paid", Js.Str normalizedPaid);
        ("FeeAmount",
          if negb (feeMissing (FeeAmount req))
          then Js.Str (Js.trim (Js.toStr (FeeAmount req)))
          else Js.nullish (Js.get existing "FeeAmount") (Js.Str ""));
        ("CreatedAt", Js.nullish (Js.get existing "CreatedAt") (Js.Str ""));
        ("LastApprovedAt",
          Js.orElse (Js.get existing "LastApprovedAt") (Js.Str ""));
        ("_columnJ", Js.nullish (Js.get existing "_columnJ") (Js.Str ""));
        ("_columnK", Js.nullish (Js.get existing "_columnK") (Js.Str "")) ] in
  let sheetRow := Js.get existing "rowNumber" in
  let updateRange := buildUpdateRange sheetRow in
  updateValues ← lift (buildRowFromStudent updatedStudent);
  if negb (length updateValues =? 12)%nat then
    throw (UpdateWidth (length updateValues))
  else
    _ ← valuesUpdate updateRange updateValues;
    respond 200 (BodyUpdated updatedStudent).

Definition postStudent (req : StudentBody) : M Response :=
  if negb (Js.truthy (Name req)) || negb (Js.truthy (MobileNo req))
     || negb (Js.truthy (District req)) || negb (Js.truthy (State req))
     || Js.isUndefined (Paid req)
  then
    respond 400
      (BodyError "Name, MobileNo, District, State, and Paid are required.")
  else if feeMissing (FeeAmount req) then
    respond 400 (BodyError "FeeAmount is required.")
  else
    tryCatch
      (let normalizedMobileNo := normalizeMobileNumber (MobileNo req) in
       if Js.isEmpty normalizedMobileNo then
         respond 400 (BodyError "Invalid mobile number.")
       else
         existingStudent ← findStudentByMobile normalizedMobileNo;
         let normalizedPaid := normalizeYesNo (Paid req) in
         match existingStudent with
         | Some existingStudent =>
             updateExisting req normalizedMobileNo normalizedPaid
               existingStudent
         | None =>
         finalCheck ← findStudentByMobile normalizedMobileNo;
         match finalCheck with
         | Some finalCheck =>
             updateExisting req normalizedMobileNo normalizedPaid finalCheck
         | None =>
         name ← trimOf "Name" (Name req);
         district ← trimOf "District" (District req);
         state ← trimOf "State" (State req);
         lastApprovedAt ← getCurrentISTTimestamp;
         createdAt ← getCurrentISTTimestamp;
         let newStudent :=
           Js.assign ∅
             [ ("Name", Js.Str name);
               ("MobileNo", Js.Str normalizedMobileNo);
               ("District", Js.Str district);
               ("State", Js.Str state);
               ("Paid", Js.Str normalizedPaid);
               ("FeeAmount", Js.Str (Js.trim (Js.toStr (FeeAmount req))));
               ("Attempted", Js.Str "Yes");
               ("RetakeAllowed", Js.Str "No");
               ("LastApprovedAt", Js.Str lastApprovedAt);
               ("_columnJ", Js.Str "");
               ("_columnK", Js.Str "");
               ("CreatedAt", Js.Str createdAt) ] in
         preAppendCheck ← findStudentByMobile normalizedMobileNo;
         match preAppendCheck with
         | Some preAppendCheck =>
             updateExisting req normalizedMobileNo normalizedPaid
               preAppendCheck
         | None =>
         absoluteFinalCheck ← findStudentByMobile normalizedMobileNo;
         match absoluteFinalCheck with
         | Some absoluteFinalCheck =>
             throw (AppendButExists normalizedMobileNo
                      (Js.get absoluteFinalCheck "rowNumber"))
         | None =>
         newStudentRow ← lift (buildRowFromStudent newStudent);
         if negb (length newStudentRow =? 12)%nat then
           throw (NewRowWidth (length newStudentRow))
         else
           _ ← valuesAppend newStudentRow;
           respond 201 (BodyCreated newStudent)
         end end end end)
      (fun _ => respond 500 (BodyError "Failed to add student")).

(** *** [POST /student/update] *)

(** [if (typeof o[k] !== 'undefined') o[k] = normalizeYesNo(o[k])] *)
Definition normalizeField (k : string) (o : Js.Obj) : Js.Obj :=
  if negb (Js.isUndefined (Js.get o k))
  then <[k := Js.Str (normalizeYesNo (Js.get o k))]> o
  else o.

Definition isRetakeRequest (normalizedUpdates : Js.Obj) : bool :=
  negb (Js.isUndefined (Js.get normalizedUpdates "RetakeAllowed"))
  && Js.strictEq (Js.get normalizedUpdates "RetakeAllowed") (Js.Str "Yes").

Definition isAttemptApproval (normalizedUpdates student : Js.Obj) : bool :=
  negb (Js.isUndefined (Js.get normalizedUpdates "Attempted"))
  && Js.strictEq (Js.get normalizedUpdates "Attempted") (Js.Str "Yes")
  && negb (String.eqb (normalizeYesNo (Js.get student "Attempted")) "Yes").

(** The cooldown check: the hours still to wait when the retake is
    refused, [None] when the update may proceed. *)
Definition cooldown (retake : bool) (student : Js.Obj) : M (option Z) :=
  if retake then
    match parseIsoDate (Js.get student "LastApprovedAt") with
    | Some lastApprovedAt =>
        now ← dateNow;
        let timeSinceLastApproval := (now - lastApprovedAt)%Z in
        if (timeSinceLastApproval <? TWELVE_HOURS_MS)%Z then
          let remainingMs := (TWELVE_HOURS_MS - timeSinceLastApproval)%Z in
          mret (Some (ceilDiv remainingMs (60 * 60 * 1000)))
        else mret None
    | None => mret None
    end
  else mret None.

Definition postStudentUpdate (mobileNo : Js.Value) (updates : option Js.Obj)
  : M Response :=
  match updates with
  | None =>
      respond 400
        (BodyError "mobileNo and updates are required in the request body.")
  | Some updates =>
  if negb (Js.truthy mobileNo) then
    respond 400
      (BodyError "mobileNo and updates are required in the request body.")
  else
    tryCatch
      (let normalizedMobileNo := normalizeMobileNumber mobileNo in
       if Js.isEmpty normalizedMobileNo then
         respond 400 (BodyError "Invalid mobile number.")
       else
         student ← findStudentByMobile normalizedMobileNo;
         match student with
         | None => respond 404 BodyNotFound
         | Some student =>
         let normalizedUpdates :=
           normalizeField "RetakeAllowed"
             (normalizeField "Attempted" (normalizeField "Paid" updates)) in
         let retake := isRetakeRequest normalizedUpdates in
         let approval := isAttemptApproval normalizedUpdates student in
         refused ← cooldown retake student;
         match refused with
         | Some remainingHours => respond 409 (BodyCooldown remainingHours)
         | None =>
         let updatesWithoutCreatedAt := delete "CreatedAt" normalizedUpdates in
         let updatedStudent : Js.Obj :=
           <["MobileNo" := Js.Str normalizedMobileNo]>
             (updatesWithoutCreatedAt ∪ student) in
         let updatedStudent : Js.Obj :=
           if negb (Js.truthy (Js.get updatedStudent "_columnJ")) then
             <["_columnJ" := Js.nullish (Js.get student "_columnJ") (Js.Str "")]>
               updatedStudent
           else updatedStudent in
         let updatedStudent : Js.Obj :=
           if negb (Js.truthy (Js.get updatedStudent "_columnK")) then
             <["_columnK" := Js.nullish (Js.get student "_columnK") (Js.Str "")]>
               updatedStudent
           else updatedStudent in
         let updatedStudent : Js.Obj :=
           if Js.isUndefined (Js.get updatedStudent "FeeAmount")
              || Js.strictEq (Js.get updatedStudent "FeeAmount") Js.Null then
             <["FeeAmount" := Js.nullish (Js.get student "FeeAmount") (Js.Str "")]>
               updatedStudent
           else updatedStudent in
         updatedStudent ←
           (if retake || approval then
              timestamp ← getCurrentISTTimestamp;
              mret (<["LastApprovedAt" := Js.Str timestamp]> updatedStudent)
            else if Js.isUndefined (Js.get updatedStudent "LastApprovedAt") then
              mret (<["LastApprovedAt" :=
                        Js.nullish (Js.get student "LastApprovedAt") (Js.Str "")]>
                      updatedStudent)
            else mret updatedStudent);
         let updatedStudent : Js.Obj :=
           <["CreatedAt" := Js.nullish (Js.get student "CreatedAt") (Js.Str "")]>
             updatedStudent in
         let updatedStudent : Js.Obj :=
           if negb (Js.strictEq (Js.get updatedStudent "CreatedAt")
                      (Js.nullish (Js.get student "CreatedAt") (Js.Str "")))
           then
             <["CreatedAt" :=
                 Js.nullish (Js.get student "CreatedAt") (Js.Str "")]>
               updatedStudent
           else updatedStudent in
         let sheetRow := Js.get student "rowNumber" in
         let updateRange := buildUpdateRange sheetRow in
         updateValues ← lift (buildRowFromStudent updatedStudent);
         if negb (length updateValues =? 12)%nat then
           throw (UpdateWidth (length updateValues))
         else
           _ ← valuesUpdate updateRange updateValues;
           respond 200 (BodyStudent updatedStudent)
         end end)
      (fun _ => respond 500 (BodyError "Failed to update student"))
  end.

End Handlers.

(** ** Vocabulary of the properties *)

(** [b] is not empty and loses nothing to [trimEnd]. *)
Definition keptEnd (b : string) : Prop := Js.trimEnd b = b /\ b <> "".

Definition isString (v : Js.Value) : bool :=
  match v with Js.Str _ => true | _ => false end.

(** A body that passes the checks of [POST /student] and whose [Name],
    [District] and [State] are strings, as the form sends them. *)
Definition validBody (req : StudentBody) : bool :=
  Js.truthy (Name req) && isString (Name req)
  && Js.truthy (District req) && isString (District req)
  && Js.truthy (State req) && isString (State req)
  && negb (Js.isUndefined (Paid req))
  && negb (feeMissing (FeeAmount req))
  && negb (Js.isEmpty (normalizeMobileNumber (MobileNo req))).

(** The object [POST /student] builds over the row it found. *)
Definition upserted (req : StudentBody) (existing : Js.Obj) : Js.Obj :=
  Js.assign existing
    [ ("Name", Js.Str (Js.trim (Js.toStr (Name req))));
      ("MobileNo", Js.Str (normalizeMobileNumber (MobileNo req)));
      ("District", Js.Str (Js.trim (Js.toStr (District req))));
      ("State", Js.Str (Js.trim (Js.toStr (State req))));
      ("Paid", Js.Str (normalizeYesNo (Paid req)));
      ("FeeAmount",
        if negb (feeMissing (FeeAmount req))
        then Js.Str (Js.trim (Js.toStr (FeeAmount req)))
        else Js.nullish (Js.get existing "FeeAmount") (Js.Str ""));
      ("CreatedAt", Js.nullish (Js.get existing "CreatedAt") (Js.Str ""));
      ("LastApprovedAt",
        Js.orElse (Js.get existing "LastApprovedAt") (Js.Str ""));
      ("_columnJ", Js.nullish (Js.get existing "_columnJ") (Js.Str ""));
      ("_columnK", Js.nullish (Js.get existing "_columnK") (Js.Str "")) ].

(** The object [POST /student] appends for a new number; [t1] and [t2] are
    the two readings of the clock. *)
Definition created (req : StudentBody) (t1 t2 : Z) : Js.Obj :=
  Js.assign ∅
    [ ("Name", Js.Str (Js.trim (Js.toStr (Name req))));
      ("MobileNo", Js.Str (normalizeMobileNumber (MobileNo req)));
      ("District", Js.Str (Js.trim (Js.toStr (District req))));
      ("State", Js.Str (Js.trim (Js.toStr (State req))));
      ("Paid", Js.Str (normalizeYesNo (Paid req)));
      ("FeeAmount", Js.Str (Js.trim (Js.toStr (FeeAmount req))));
      ("Attempted", Js.Str "Yes");
      ("RetakeAllowed", Js.Str "No");
      ("LastApprovedAt", Js.Str (istTimestamp t1));
      ("_columnJ", Js.Str "");
      ("_columnK", Js.Str "");
      ("CreatedAt", Js.Str (istTimestamp t2)) ].

(** The updates of [POST /student/update] after their Yes/No fields are
    normalised. *)
Definition normalizedUpdatesOf (updates : Js.Obj) : Js.Obj :=
  normalizeField "RetakeAllowed"
    (normalizeField "Attempted" (normalizeField "Paid" updates)).

(** The update asks for a retake. *)
Definition retakeOf (updates : Js.Obj) : bool :=
  isRetakeRequest (normalizedUpdatesOf updates).

(** The update newly sets [Attempted]. *)
Definition approvalOf (updates student : Js.Obj) : bool :=
  isAttemptApproval (normalizedUpdatesOf updates) student.

(** The object [POST /student/update] builds: the updates merged over the
    record, [LastApprovedAt] set to [stamp] when the update is a retake or
    an approval, [CreatedAt] restored. *)
Definition updatedStudentOf (key : string) (updates student : Js.Obj)
    (stamp : option string) : Js.Obj :=
  let u : Js.Obj :=
    <["MobileNo" := Js.Str key]>
      (delete "CreatedAt" (normalizedUpdatesOf updates) ∪ student) in
  let u : Js.Obj :=
    if negb (Js.truthy (Js.get u "_columnJ")) then
      <["_columnJ" := Js.nullish (Js.get student "_columnJ") (Js.Str "")]> u
    else u in
  let u : Js.Obj :=
    if negb (Js.truthy (Js.get u "_columnK")) then
      <["_columnK" := Js.nullish (Js.get student "_columnK") (Js.Str "")]> u
    else u in
  let u : Js.Obj :=
    if Js.isUndefined (Js.get u "FeeAmount")
       || Js.strictEq (Js.get u "FeeAmount") Js.Null then
      <["FeeAmount" := Js.nullish (Js.get student "FeeAmount") (Js.Str "")]> u
    else u in
  let u : Js.Obj :=
    match stamp with
    | Some timestamp => <["LastApprovedAt" := Js.Str timestamp]> u
    | None =>
        if Js.isUndefined (Js.get u "LastApprovedAt") then
          <["LastApprovedAt" :=
              Js.nullish (Js.get student "LastApprovedAt") (Js.Str "")]> u
        else u
    end in
  let u : Js.Obj :=
    <["CreatedAt" := Js.nullish (Js.get student "CreatedAt") (Js.Str "")]> u in
  if negb (Js.strictEq (Js.get u "CreatedAt")
             (Js.nullish (Js.get student "CreatedAt") (Js.Str "")))
  then <["CreatedAt" := Js.nullish (Js.get student "CreatedAt") (Js.Str "")]> u
  else u.

(** The value a named column receives from an object. *)
Definition namedCell (student : Js.Obj) (header : string) : Js.Value :=
  match Js.get student header with
  | Js.Undefined | Js.Null => Js.Str ""
  | value => Js.Str (Js.trim (Js.toStr value))
  end.

(** The text a named column receives from an object. *)
Definition storedText (student : Js.Obj) (header : string) : string :=
  match Js.get student header with
  | Js.Undefined | Js.Null => ""
  | value => Js.trim (Js.toStr value)
  end.

(** The number of rows that a lookup of [key] can match. *)
Definition countRows (key : string) (s : Sheet) : nat :=
  length (List.filter (rowMatches key) s).

(** The world in which a request starts. *)
Definition start (s : Sheet) : World :=
  {| sheet := s; reads := 0; trips := 0; log := [] |}.

(** An environment without other clients. *)
Definition alone (clock : nat -> Z) (dateParse : string -> option Z) : Env :=
  {| clock := clock; others := fun _ s => s; dateParse := dateParse |}.

(** The status of an answer. *)
Definition statusOf (o : Outcome Response) : option nat :=
  match o with
  | Ok r => Some (status r)
  | Throw _ => None
  end.

(** The answer carries [updated: true]. *)
Definition isUpdated (o : Outcome Response) : bool :=
  match o with
  | Ok {| body := BodyUpdated _ |} => true
  | _ => false
  end.

(** The answer carries [created: true]. *)
Definition isCreated (o : Outcome Response) : bool :=
  match o with
  | Ok {| body := BodyCreated _ |} => true
  | _ => false
  end.

(** The field [header] of the record a lookup of [key] returns. *)
Definition storedField (key header : string) (s : Sheet) : option Js.Value :=
  (fun student => Js.get student header) <$> lookupRows key s.

(** *** Sample data *)

(** A record whose [CreatedAt] cell was typed with a leading blank. *)
Definition paddedRow : Row :=
  [ "Asha"; "9876543210"; "Pune"; "Maharashtra"; "Yes"; "500"; "Yes"; "No";
    "2024-01-05T10:00:00.000+05:30"; ""; "";
    " 2024-01-05T10:00:00.000+05:30" ].

(** A record as the handlers write it. *)
Definition plainRow : Row :=
  [ "Asha"; "9876543210"; "Pune"; "Maharashtra"; "Yes"; "500"; "Yes"; "No";
    "2024-01-05T10:00:00.000+05:30"; ""; "";
    "2024-01-05T10:00:00.000+05:30" ].

Definition sampleBody : StudentBody :=
  {| Name := Js.Str "A"; MobileNo := Js.Str "98765 43210";
     District := Js.Str "X"; State := Js.Str "Y";
     Paid := Js.Str "Yes"; FeeAmount := Js.Str "500" |}.

(** A clock that stands at 2024-01-05T12:00:00+05:30 and a parser that
    knows the one timestamp of the sample rows. *)
Definition sampleEnv : Env :=
  alone (fun _ => 1704436200000%Z)
        (fun s =>
           if String.eqb s "2024-01-05T10:00:00.000+05:30"
           then Some 1704429000000%Z else None).

(** A student registered by hand: no approval yet, and the row ends at its
    [Paid] cell. *)
Definition registeredRow : Row :=
  [ "Asha"; "9876543210"; "Pune"; "Maharashtra"; "No" ].

(** A record whose [LastApprovedAt] cell was typed with a leading blank. *)
Definition paddedApprovalRow : Row :=
  [ "Asha"; "9876543210"; "Pune"; "Maharashtra"; "Yes"; "500"; "Yes"; "No";
    " 2024-01-05T10:00:00.000+05:30"; ""; "";
    "2024-01-05T10:00:00.000+05:30" ].

(** The update is a retake request or newly sets [Attempted]: the
    condition under which the handler stamps [LastApprovedAt]. *)
Definition refreshes (updates student : Js.Obj) : bool :=
  String.eqb (normalizeYesNo (Js.get updates "RetakeAllowed")) "Yes"
  || (String.eqb (normalizeYesNo (Js.get updates "Attempted")) "Yes"
      && negb (String.eqb (normalizeYesNo (Js.get student "Attempted")) "Yes")).

(** Another client appends the record just before the handler's fourth
    round trip to the store. *)
Definition lateWriter : Env :=
  {| clock := fun _ => 1704436200000%Z;
     others := fun n s => if (n =? 3)%nat then (s ++ [plainRow])%list else s;
     dateParse := fun _ => None |}.

(** Exactly "Yes" or "No". *)
Definition yesNo (s : string) : Prop := s = "Yes" \/ s = "No".

(** The text of cell [k] of a row, blank when the row is shorter. *)
Definition cellAt (r : Row) (k : nat) : string := default "" (r !! k).

(** The Yes/No columns: [Paid], [Attempted] and [RetakeAllowed]. *)
Definition yesNoColumns : list (string * nat) :=
  [ ("Paid", 4%nat); ("Attempted", 6%nat); ("RetakeAllowed", 7%nat) ].

(** An object parsed from JSON: no key holds [undefined]. *)
Definition jsonObject (o : Js.Obj) : Prop :=
  forall k, o !! k <> Some Js.Undefined.


(** *** What a timestamp says

    The Gregorian calendar and the decimal notation, written down
    independently of [getCurrentISTTimestamp], to say what the text it
    returns means. *)

Local Open Scope Z_scope.

(** The character of the decimal digit [d]. *)
Definition digitChar (d : Z) : ascii :=
  match d with
  | 0 => "0" | 1 => "1" | 2 => "2" | 3 => "3" | 4 => "4"
  | 5 => "5" | 6 => "6" | 7 => "7" | 8 => "8" | _ => "9"
  end%char.

(** A number below 100 in two digits, a number below 1000 in three. *)
Definition twoDigits (n : Z) : string :=
  String (digitChar (n / 10)) (String (digitChar (n mod 10)) "").

Definition threeDigits (n : Z) : string :=
  String (digitChar (n / 100)) (twoDigits (n mod 100)).

(** An integer in decimal notation, as the Standard Library prints it. *)
Definition decimal (n : Z) : string := NilZero.string_of_int (Z.to_int n).

Definition leapYear (y : Z) : bool :=
  (y mod 4 =? 0) && (negb (y mod 100 =? 0) || (y mod 400 =? 0)).

(** The extra day of a leap year. *)
Definition leapDay (leap : bool) : Z := if leap then 1 else 0.

Definition daysInMonth (y m : Z) : Z :=
  if m =? 2 then (if leapYear y then 29 else 28)
  else if (m =? 4) || (m =? 6) || (m =? 9) || (m =? 11) then 30
  else 31.

(** The leap years among the years 1 to [y - 1]. *)
Definition leapYearsBefore (y : Z) : Z :=
  (y - 1) / 4 - (y - 1) / 100 + (y - 1) / 400.

(** The days from 1 January 1970 to 1 January of the year [y]. *)
Definition daysBeforeYear (y : Z) : Z :=
  365 * (y - 1970) + (leapYearsBefore y - leapYearsBefore 1970).

(** The days of the months of the year [y] that come before month [m]. *)
Definition daysBeforeMonth (y m : Z) : Z :=
  fold_right Z.add 0
    (List.map (fun k => daysInMonth y (Z.of_nat k))
       (List.seq 1 (Z.to_nat (m - 1)))).

(** The days from 1 January 1970 to the day [d] of month [m] of year [y]. *)
Definition dayNumber (y m d : Z) : Z :=
  daysBeforeYear y + daysBeforeMonth y m + (d - 1).

(** [text] is the ISO 8601 notation, at the offset +05:30 of Indian
    Standard Time, of the instant [now] (milliseconds since the epoch):
    the date and the time of day of a clock that is five and a half hours
    ahead of UTC, to the millisecond, followed by [+05:30]. *)
Definition isTimestampOf (text : string) (now : Z) : Prop :=
  exists y m d hh mm ss ms,
    (1 <= m <= 12 /\ 1 <= d <= daysInMonth y m /\
     0 <= hh < 24 /\ 0 <= mm < 60 /\ 0 <= ss < 60 /\ 0 <= ms < 1000) /\
    now + (5 * 60 + 30) * 60 * 1000
      = (((dayNumber y m d * 24 + hh) * 60 + mm) * 60 + ss) * 1000 + ms /\
    text = (decimal y ++ "-" ++ twoDigits m ++ "-" ++ twoDigits d ++ "T" ++
            twoDigits hh ++ ":" ++ twoDigits mm ++ ":" ++ twoDigits ss ++
            "." ++ threeDigits ms ++ "+05:30")%string.

Local Close Scope Z_scope.
(** *** Vocabulary of the further properties *)

(** The row written back for a row that is read and not modified. *)
Definition normalRow (row : Row) (n : nat) : Row :=
  cellText <$> rowValues (mapRowToStudent row n).

(** Column [k] has a header name (A to I, and L). *)
Definition namedColumn (k : nat) : bool :=
  match HEADERS !! k with
  | Some header => namedHeader header
  | None => false
  end.

(** [Name], [District] and [State] are strings. *)
Definition stringFields (req : StudentBody) : bool :=
  isString (Name req) && isString (District req) && isString (State req).

(** The first check of [POST /student]: a field is missing. *)
Definition missingField (req : StudentBody) : bool :=
  negb (Js.truthy (Name req)) || negb (Js.truthy (MobileNo req))
  || negb (Js.truthy (District req)) || negb (Js.truthy (State req))
  || Js.isUndefined (Paid req).


(** No two rows can be found under one number. *)
Definition uniqueKeys (s : Sheet) : Prop :=
  forall k, (countRows k s <= 1)%nat.

(** How a handler may leave the sheet [s] when no other client writes:
    untouched; or with the first row matching [key] replaced by a row that
    matches [key]; or, when no row matches [key], with such a row added at
    the end. *)
Definition sheetStep (key : string) (s s' : Sheet) : Prop :=
  s' = s
  \/ (exists i row newRow,
        findIndex (rowMatches key) s = Some i /\ s !! i = Some row /\
        rowMatches key newRow = true /\ s' = <[i := newRow]> s)
  \/ (exists newRow,
        findIndex (rowMatches key) s = None /\
        rowMatches key newRow = true /\ s' = (s ++ [newRow])%list).

(** The key under which a record holds column [k] of its row. *)
Definition columnKey (k : nat) : string :=
  match k with
  | 9 => "_columnJ"
  | 10 => "_columnK"
  | _ => default "" (HEADERS !! k)
  end.

(** ** Further parts of the program *)

(** *** [GET /students] *)

(** [row[i]], [undefined] beyond the end of the row. *)
Definition cell (row : Row) (i : nat) : Js.Value :=
  match row !! i with
  | Some c => Js.Str c
  | None => Js.Undefined
  end.

(** The filter of the listing:
    [row && row.length >= 2 && row[0] && row[1]]. *)
Definition listed (row : Row) : bool :=
  (2 <=? length row)%nat && Js.truthy (cell row 0) && Js.truthy (cell row 1).

(** [dataRows.filter(...).map((row, idx) => mapRowToStudent(row, idx + 1))];
    [startRow] is 0 for the range [A2:L]. *)
Definition listStudents (dataRows : Sheet) : list Js.Obj :=
  imap (fun idx row => mapRowToStudent row (idx + 1))
    (List.filter listed dataRows).

Inductive ListBody : Type :=
| BodyStudents (students : list Js.Obj)
| BodyListError (error : string).

Record ListResponse : Type := { listStatus : nat; listBody : ListBody }.

Definition getStudents (env : Env) : M ListResponse :=
  tryCatch
    (rows ← valuesGet env;
     if (length rows =? 0)%nat then
       mret {| listStatus := 200; listBody := BodyStudents [] |}
     else
       let dataRows := rows in
       mret {| listStatus := 200;
               listBody := BodyStudents (listStudents dataRows) |})
    (fun _ =>
       mret {| listStatus := 500;
               listBody := BodyListError "Failed to fetch students data" |}).

(** *** [getErrorMessage] *)

(** An error object: its [code] and its [message]. *)
Record JsError : Type := { code : Js.Value; message : Js.Value }.

Definition getErrorMessage (error : JsError) : Js.Value :=
  if Js.strictEq (code error) (Js.Str "INVALID_CREDENTIALS") then
    Js.Str "Google Sheets credentials are missing or invalid. Verify credentials.json and environment configuration."
  else if Js.strictEq (code error) (Js.Number 403) then
    Js.Str "Permission denied. Ensure the Google Sheet is shared with the service account email."
  else if Js.strictEq (code error) (Js.Number 404) then
    Js.Str "Google Sheet not found. Check the Sheet ID in your configuration."
  else if Js.strictEq (code error) (Js.Number 400) then
    Js.Str "Invalid request. Check the sheet range and data format."
  else if Js.truthy (message error) then message error
  else Js.Str "Unknown error occurred while accessing Google Sheets.".

(** *** The [origin] callback of the CORS middleware *)

Definition allowedOrigins : list string :=
  [ "https://exam-verification.vercel.app";
    "https://exam-verification.vercel.app/";
    "http://localhost:5173";
    "http://localhost:3000";
    "http://localhost:4001";
    "http://10.10.10.52:5173";
    "http://10.10.10.52:4001" ].

(** [s.endsWith('/')] *)
Fixpoint endsWithSlash (s : string) : bool :=
  match s with
  | EmptyString => false
  | String c EmptyString => Ascii.eqb c "/"
  | String _ r => endsWithSlash r
  end.

(** [s.slice(0, -1)] *)
Fixpoint sliceLast (s : string) : string :=
  match s with
  | EmptyString => EmptyString
  | String _ EmptyString => EmptyString
  | String c r => String c (sliceLast r)
  end.

(** [o.endsWith('/') ? o.slice(0, -1) : o] *)
Definition normalizedOrigin (o : string) : string :=
  if endsWithSlash o then sliceLast o else o.

(** [allowedOrigins.some(allowed => normalizedOrigin === normalizedAllowed)] *)
Definition isAllowed (origin : string) : bool :=
  existsb (fun allowed =>
             String.eqb (normalizedOrigin origin) (normalizedOrigin allowed))
    allowedOrigins.

(** What the callback answers ([callback(null, allowed)]) and the origin
    it logs as unlisted, if any. *)
Record CorsAnswer : Type := { allowed : bool; unlisted : option string }.

Definition corsOrigin (origin : option string) : CorsAnswer :=
  match origin with
  | None => {| allowed := true; unlisted := None |}
  | Some origin =>
      if Js.isEmpty origin then {| allowed := true; unlisted := None |}
      else if isAllowed origin then {| allowed := true; unlisted := None |}
      else {| allowed := true; unlisted := Some origin |}
  end.

(** *** The operator's page *)

(** The page of [src/frontend/src/App.tsx]. *)
Module App.

Record NewStudentFormState : Type := {
  formName : string;
  formMobileNo : string;
  formDistrict : string;
  formState : string;
  formPaid : string
}.

(** The body [handleAddStudent] posts to [/student], [None] when it stops
    at its own check; the payload has no [FeeAmount] key. *)
Definition handleAddStudent (newStudentForm : NewStudentFormState)
  : option StudentBody :=
  let trimmedPayload :=
    {| Name := Js.Str (Js.trim (formName newStudentForm));
       MobileNo := Js.Str (Js.trim (formMobileNo newStudentForm));
       District := Js.Str (Js.trim (formDistrict newStudentForm));
       State := Js.Str (Js.trim (formState newStudentForm));
       Paid := Js.Str "Yes";
       FeeAmount := Js.Undefined |} in
  if negb (Js.truthy (Name trimmedPayload))
     || negb (Js.truthy (MobileNo trimmedPayload))
     || negb (Js.truthy (District trimmedPayload))
     || negb (Js.truthy (State trimmedPayload))
  then None
  else Some trimmedPayload.

(** A button of the page: its [id] and the [updates] it sends (its label
    and its toast are left out). *)
Record Button : Type := {
  id : string;
  updates : Js.Obj
}.

(** The buttons shown for the student on the page. *)
Definition actionButtons (student : option Js.Obj) : list Button :=
  match student with
  | Some student =>
      snd <$>
        List.filter fst
          [ (Js.strictEq (Js.get student "Paid") (Js.Str "No")
             && Js.strictEq (Js.get student "Attempted") (Js.Str "No"),
             {| id := "approveUnpaid";
                updates := {[ "Paid" := Js.Str "Yes";
                              "Attempted" := Js.Str "Yes" ]} |});
            (Js.strictEq (Js.get student "Paid") (Js.Str "Yes")
             && Js.strictEq (Js.get student "Attempted") (Js.Str "No"),
             {| id := "approvePaid";
                updates := {[ "Attempted" := Js.Str "Yes" ]} |});
            (Js.strictEq (Js.get student "Attempted") (Js.Str "Yes"),
             {| id := "retake";
                updates := {[ "RetakeAllowed" := Js.Str "Yes" ]} |}) ]
  | None => []
  end.

(** The request [handleAction] sends for a button: the [MobileNo] of the
    student on the page and the button's updates. *)
Definition handleAction (student : Js.Obj) (button : Button)
  : Js.Value * option Js.Obj :=
  (Js.get student "MobileNo", Some (updates button)).

End App.

(** The page with a fee field ([src/unnamed/part_002]): its form has a
    [FeeAmount] and its payload carries it. *)
Module FeePage.

Record NewStudentFormState : Type := {
  formName : string;
  formMobileNo : string;
  formDistrict : string;
  formState : string;
  formPaid : string;
  formFeeAmount : string
}.

Definition handleAddStudent (newStudentForm : NewStudentFormState)
  : option StudentBody :=
  let trimmedPayload :=
    {| Name := Js.Str (Js.trim (formName newStudentForm));
       MobileNo := Js.Str (Js.trim (formMobileNo newStudentForm));
       District := Js.Str (Js.trim (formDistrict newStudentForm));
       State := Js.Str (Js.trim (formState newStudentForm));
       Paid := Js.Str "Yes";
       FeeAmount := Js.Str (Js.trim (formFeeAmount newStudentForm)) |} in
  if negb (Js.truthy (Name trimmedPayload))
     || negb (Js.truthy (MobileNo trimmedPayload))
     || negb (Js.truthy (District trimmedPayload))
     || negb (Js.truthy (State trimmedPayload))
     || negb (Js.truthy (FeeAmount trimmedPayload))
  then None
  else Some trimmedPayload.

End FeePage.

(** ** Strings *)

Section StringFacts.

Lemma stripNonDigits_filter (s : string) :
  Js.stripNonDigits s =
  string_of_list_ascii (List.filter Js.isDigit (list_ascii_of_string s)).
Proof.
  induction s as [|c r IH]; simpl; [reflexivity|].
  destruct (Js.isDigit c); simpl; rewrite IH; reflexivity.
Qed.

Lemma stripNonDigits_all (s : string) :
  Js.allChars Js.isDigit (Js.stripNonDigits s) = true.
Proof.
  induction s as [|c r IH]; simpl; [reflexivity|].
  destruct (Js.isDigit c) eqn:E; simpl; [rewrite E|]; exact IH.
Qed.

Lemma stripNonDigits_fixed (s : string) :
  Js.allChars Js.isDigit s = true -> Js.stripNonDigits s = s.
Proof.
  induction s as [|c r IH]; simpl; [reflexivity|].
  intros [Hc Hr]%andb_true_iff. rewrite Hc, IH; auto.
Qed.

Lemma stripNonDigits_idem (s : string) :
  Js.stripNonDigits (Js.stripNonDigits s) = Js.stripNonDigits s.
Proof. apply stripNonDigits_fixed, stripNonDigits_all. Qed.

Lemma digit_not_space (c : ascii) : Js.isDigit c = true -> Js.isSpace c = false.
Proof.
  unfold Js.isDigit, Js.isSpace. intros [H1 H2]%andb_true_iff.
  apply Nat.leb_le in H1. apply Nat.leb_le in H2.
  apply orb_false_iff. split.
  - apply andb_false_iff. right. apply Nat.leb_gt. lia.
  - apply Nat.eqb_neq. lia.
Qed.

Lemma isEmpty_true (s : string) : Js.isEmpty s = true <-> s = "".
Proof. destruct s; simpl; split; congruence. Qed.

Lemma isEmpty_false (s : string) : Js.isEmpty s = false <-> s <> "".
Proof. destruct s; simpl; split; congruence. Qed.

Lemma trimEnd_nospace (s : string) :
  Js.allChars (fun c => negb (Js.isSpace c)) s = true -> Js.trimEnd s = s.
Proof.
  induction s as [|c r IH]; simpl; [reflexivity|].
  intros [Hc Hr]%andb_true_iff. rewrite (IH Hr).
  apply negb_true_iff in Hc. rewrite Hc. reflexivity.
Qed.

(** A string that ends in a character other than white space. *)
Lemma trimEnd_last (s : string) (c : ascii) :
  Js.isSpace c = false -> Js.trimEnd (s ++ String c "") = s ++ String c "".
Proof.
  intros Hc. induction s as [|a r IH]; simpl.
  - rewrite Hc. reflexivity.
  - rewrite IH. destruct r; simpl; rewrite andb_false_r; reflexivity.
Qed.

Lemma trimStart_first (c : ascii) (r : string) :
  Js.isSpace c = false -> Js.trimStart (String c r) = String c r.
Proof. intros Hc. simpl. rewrite Hc. reflexivity. Qed.

Lemma allChars_impl (p q : ascii -> bool) (s : string) :
  (forall c, p c = true -> q c = true) ->
  Js.allChars p s = true -> Js.allChars q s = true.
Proof.
  intros Hpq. induction s as [|c r IH]; simpl; [reflexivity|].
  intros [Hc Hr]%andb_true_iff. rewrite (Hpq _ Hc), (IH Hr). reflexivity.
Qed.

Lemma trim_digits (s : string) :
  Js.allChars Js.isDigit s = true -> Js.trim s = s.
Proof.
  intros H. unfold Js.trim. rewrite trimEnd_nospace.
  - destruct s as [|c r]; [reflexivity|]. apply trimStart_first.
    simpl in H. apply andb_true_iff in H as [H _]. by apply digit_not_space.
  - eapply allChars_impl; [|exact H]. intros c Hc.
    by rewrite (digit_not_space _ Hc).
Qed.

End StringFacts.

Section TimestampFacts.

Lemma append_nonempty (a b : string) : b <> "" -> a ++ b <> "".
Proof. destruct a; simpl; [auto | discriminate]. Qed.

Lemma keptEnd_app (a b : string) : keptEnd b -> keptEnd (a ++ b).
Proof.
  intros [Hb Hne]. split; [|by apply append_nonempty].
  induction a as [|c r IH]; simpl; [exact Hb|].
  rewrite IH. apply (append_nonempty r) in Hne.
  apply isEmpty_false in Hne. rewrite Hne, andb_false_r. reflexivity.
Qed.

Lemma numberToString_first (n : Z) :
  exists c r, Js.numberToString n = String c r /\ Js.isSpace c = false.
Proof.
  unfold Js.numberToString, NilZero.string_of_int.
  destruct (Z.to_int n) as [u|u].
  - destruct u; simpl; eauto.
  - simpl. eauto.
Qed.

Lemma trim_istTimestamp (now : Z) : Js.trim (istTimestamp now) = istTimestamp now.
Proof.
  unfold Js.trim, istTimestamp.
  assert (Hend : forall b, keptEnd b -> Js.trimEnd b = b) by (by intros b [? _]).
  rewrite Hend.
  - destruct (numberToString_first (getUTCFullYear (now + 19800000)))
      as (c & r & -> & Hc).
    simpl. rewrite Hc. reflexivity.
  - repeat apply keptEnd_app. split; [reflexivity | discriminate].
Qed.

End TimestampFacts.

(** ** Objects and rows *)

Section ObjectFacts.

Lemma get_insert (o : Js.Obj) (k k' : string) (v : Js.Value) :
  Js.get (<[k := v]> o) k' = if decide (k = k') then v else Js.get o k'.
Proof.
  unfold Js.get. rewrite lookup_insert. destruct (decide (k = k')); reflexivity.
Qed.

Lemma get_empty (k : string) : Js.get ∅ k = Js.Undefined.
Proof. unfold Js.get. rewrite lookup_empty. reflexivity. Qed.

(** The object a row is mapped to, written as a literal. *)
Lemma mapRowToStudent_eq (row : Row) (n : nat) :
  mapRowToStudent row n =
  <["rowNumber" := Js.Number (Z.of_nat n)]>
    (<["CreatedAt" := cellOr row 11]>
    (<["_columnK" := cellOr row 10]>
    (<["_columnJ" := cellOr row 9]>
    (<["LastApprovedAt" := cellOr row 8]>
    (<["RetakeAllowed" := cellOr row 7]>
    (<["Attempted" := cellOr row 6]>
    (<["FeeAmount" := cellOr row 5]>
    (<["Paid" := cellOr row 4]>
    (<["State" := cellOr row 3]>
    (<["District" := cellOr row 2]>
    (<["MobileNo" := cellOr row 1]>
    (<["Name" := cellOr row 0]> ∅)))))))))))).
Proof. reflexivity. Qed.

(** The twelve values of a row, one by one. *)
Lemma rowValues_eq (student : Js.Obj) :
  rowValues student =
  [ namedCell student "Name"; namedCell student "MobileNo";
    namedCell student "District"; namedCell student "State";
    namedCell student "Paid"; namedCell student "FeeAmount";
    namedCell student "Attempted"; namedCell student "RetakeAllowed";
    namedCell student "LastApprovedAt";
    Js.nullish (Js.get student "_columnJ") (Js.Str "");
    Js.nullish (Js.get student "_columnK") (Js.Str "");
    namedCell student "CreatedAt" ].
Proof. reflexivity. Qed.

Lemma cellText_namedCell (student : Js.Obj) (header : string) :
  cellText (namedCell student header) = storedText student header.
Proof.
  unfold namedCell, storedText. destruct (Js.get student header); reflexivity.
Qed.

End ObjectFacts.

(** ** Running the request monad *)

Section Runs.

Variable env : Env.

Lemma bind_run {A B} (m : M A) (f : A -> M B) (w : World) :
  (m ≫= f) w =
  match m w with
  | (Ok a, w') => f a w'
  | (Throw e, w') => (Throw e, w')
  end.
Proof. reflexivity. Qed.

Lemma findStudentByMobile_run (key : string) (w : World) :
  findStudentByMobile env key w =
  let s := others env (trips w) (sheet w) in
  (Ok (lookupRows key s), tripped ValuesGet s w).
Proof. reflexivity. Qed.

Lemma rowValues_length (student : Js.Obj) : length (rowValues student) = 12%nat.
Proof. reflexivity. Qed.

Lemma buildRowFromStudent_ok (student : Js.Obj) :
  buildRowFromStudent student = Ok (rowValues student).
Proof. reflexivity. Qed.

End Runs.


(** ** Scanning and rewriting the rows *)

Section RowFacts.

Context {A : Type}.
Implicit Types (p : A -> bool) (l : list A).

Lemma findIndex_Some p l i :
  findIndex p l = Some i ->
  exists x, l !! i = Some x /\ p x = true.
Proof.
  revert i. induction l as [|y r IH]; intros i; simpl; [discriminate|].
  destruct (p y) eqn:Hy.
  - intros [= <-]. eauto.
  - destruct (findIndex p r) as [j|]; simpl; [|discriminate].
    intros [= <-]. apply (IH j). reflexivity.
Qed.

Lemma findIndex_insert p l i (x : A) :
  findIndex p l = Some i -> p x = true ->
  findIndex p (<[i := x]> l) = Some i.
Proof.
  revert i. induction l as [|y r IH]; intros i; simpl; [discriminate|].
  destruct (p y) eqn:Hy.
  - intros [= <-] Hx. simpl. rewrite Hx. reflexivity.
  - destruct (findIndex p r) as [j|] eqn:Hj; simpl; [|discriminate].
    intros [= <-] Hx. simpl. rewrite Hy, (IH j); auto.
Qed.

Lemma findIndex_snoc p l (x : A) :
  findIndex p l = None -> p x = true ->
  findIndex p (l ++ [x]) = Some (length l).
Proof.
  induction l as [|y r IH]; simpl; intros Hn Hx.
  - rewrite Hx. reflexivity.
  - destruct (p y); [discriminate|].
    destruct (findIndex p r); [discriminate|].
    rewrite IH; auto.
Qed.

Lemma filter_insert_length p l i (x y : A) :
  l !! i = Some x -> p y = p x ->
  length (List.filter p (<[i := y]> l)) = length (List.filter p l).
Proof.
  revert i. induction l as [|z r IH]; intros i; [discriminate|].
  destruct i as [|i]; simpl.
  - intros [= ->] ->. destruct (p x); reflexivity.
  - intros Hx Hy. destruct (p z); simpl; rewrite (IH i); auto.
Qed.

Lemma filter_snoc_length p l (x : A) :
  length (List.filter p (l ++ [x])) =
  (length (List.filter p l) + if p x then 1 else 0)%nat.
Proof.
  rewrite List.filter_app, length_app. simpl. destruct (p x); reflexivity.
Qed.

End RowFacts.

Section LookupFacts.

Lemma normalizeMobileNumber_Str (s : string) :
  normalizeMobileNumber (Js.Str s) = Js.stripNonDigits s.
Proof.
  unfold normalizeMobileNumber. destruct s; reflexivity.
Qed.

Lemma normalizeMobileNumber_digits (v : Js.Value) :
  Js.allChars Js.isDigit (normalizeMobileNumber v) = true.
Proof.
  unfold normalizeMobileNumber. destruct (Js.truthy v); simpl;
    [apply stripNonDigits_all | reflexivity].
Qed.

(** A normalised number is its own normal form. *)
Lemma normalizeMobileNumber_key (v : Js.Value) :
  normalizeMobileNumber (Js.Str (normalizeMobileNumber v)) =
  normalizeMobileNumber v.
Proof.
  rewrite normalizeMobileNumber_Str.
  apply stripNonDigits_fixed, normalizeMobileNumber_digits.
Qed.

Lemma lookupRows_inv (key : string) (s : Sheet) (student : Js.Obj) :
  lookupRows key s = Some student ->
  exists i row,
    findIndex (rowMatches (normalizeMobileNumber (Js.Str key))) s = Some i /\
    s !! i = Some row /\
    rowMatches (normalizeMobileNumber (Js.Str key)) row = true /\
    student = mapRowToStudent row (i + 2).
Proof.
  unfold lookupRows. destruct s as [|r0 rest]; [discriminate|].
  destruct (findIndex _ _) as [i|] eqn:Hi; [|discriminate].
  destruct (findIndex_Some _ _ _ Hi) as (row & Hrow & Hp).
  intros [= <-]. exists i, row. rewrite Hrow. auto.
Qed.

Lemma lookupRows_found (key : string) (s : Sheet) i row :
  findIndex (rowMatches (normalizeMobileNumber (Js.Str key))) s = Some i ->
  s !! i = Some row ->
  lookupRows key s = Some (mapRowToStudent row (i + 2)).
Proof.
  intros Hi Hrow. unfold lookupRows.
  destruct s as [|r0 rest]; [discriminate|].
  rewrite Hi, Hrow. reflexivity.
Qed.

Lemma lookupRows_None (key : string) (s : Sheet) :
  lookupRows key s = None ->
  findIndex (rowMatches (normalizeMobileNumber (Js.Str key))) s = None.
Proof.
  unfold lookupRows. destruct s as [|r0 rest]; [reflexivity|].
  destruct (findIndex _ _); [discriminate | reflexivity].
Qed.

(** A lookup never matches an empty search key. *)
Lemma rowMatches_nonempty (k : string) (row : Row) :
  rowMatches k row = true -> Js.isEmpty k = false.
Proof.
  unfold rowMatches. destruct (length row <? 2)%nat; [discriminate|].
  cbv zeta. destruct (Js.isEmpty (normalizeMobileNumber _)) eqn:E;
    [discriminate|].
  intros H%String.eqb_eq. rewrite <- H. exact E.
Qed.

Lemma lookupRows_nonempty (v : Js.Value) (s : Sheet) (student : Js.Obj) :
  lookupRows (normalizeMobileNumber v) s = Some student ->
  Js.isEmpty (normalizeMobileNumber v) = false.
Proof.
  intros (i & row & _ & _ & Hm & _)%lookupRows_inv.
  rewrite normalizeMobileNumber_key in Hm.
  eapply rowMatches_nonempty, Hm.
Qed.

(** The row written from an object whose [MobileNo] is the key matches
    the key. *)
Lemma rowMatches_written (key : string) (student : Js.Obj) :
  Js.get student "MobileNo" = Js.Str key ->
  Js.allChars Js.isDigit key = true -> Js.isEmpty key = false ->
  rowMatches key (cellText <$> rowValues student) = true.
Proof.
  intros Hg Hd Hne. unfold rowMatches. simpl.
  rewrite Hg. simpl. rewrite (trim_digits _ Hd).
  rewrite normalizeMobileNumber_Str, (stripNonDigits_fixed _ Hd), Hne.
  apply String.eqb_refl.
Qed.

Lemma get_rowNumber (row : Row) (n : nat) :
  Js.get (mapRowToStudent row n) "rowNumber" = Js.Number (Z.of_nat n).
Proof. unfold mapRowToStudent. rewrite get_insert. reflexivity. Qed.

Lemma applyUpdate_found (i : nat) (values : list Js.Value) (s : Sheet) row
    (existing : Js.Obj) :
  existing = mapRowToStudent row (i + 2) ->
  s !! i = Some row ->
  applyUpdate (buildUpdateRange (Js.get existing "rowNumber")) values s =
  <[i := cellText <$> values]> s.
Proof.
  intros -> Hrow. rewrite get_rowNumber. unfold buildUpdateRange, applyUpdate.
  assert (Hlt : (i < length s)%nat) by (eapply lookup_lt_Some; eauto).
  destruct (Z.leb_spec 2 (Z.of_nat (i + 2))); [|lia].
  replace (Z.to_nat (Z.of_nat (i + 2) - 2)) with i by lia.
  unfold setRow. destruct (Nat.ltb_spec i (length s)); [reflexivity | lia].
Qed.

End LookupFacts.

(** ** Fields of the objects the handlers build *)

Section FieldFacts.

Lemma get_lookup (o : Js.Obj) (k : string) (v : Js.Value) :
  o !! k = Some v -> Js.get o k = v.
Proof. unfold Js.get. intros ->. reflexivity. Qed.

Lemma get_cond_insert (c : bool) (k' k : string) (v : Js.Value) (u : Js.Obj) :
  k' <> k -> Js.get (if c then <[k' := v]> u else u) k = Js.get u k.
Proof.
  intros Hne. destruct c; [|reflexivity].
  rewrite get_insert. destruct (decide (k' = k)); [contradiction | reflexivity].
Qed.

Lemma get_union (m1 m2 : Js.Obj) (k : string) :
  Js.get (m1 ∪ m2) k =
  match m1 !! k with Some v => v | None => Js.get m2 k end.
Proof.
  unfold Js.get. rewrite lookup_union.
  destruct (m1 !! k), (m2 !! k); reflexivity.
Qed.

Lemma lookup_normalizeField (k k' : string) (o : Js.Obj) :
  normalizeField k o !! k' =
  if decide (k = k') then
    if Js.isUndefined (Js.get o k) then o !! k
    else Some (Js.Str (normalizeYesNo (Js.get o k)))
  else o !! k'.
Proof.
  unfold normalizeField. destruct (Js.isUndefined (Js.get o k)); simpl.
  - destruct (decide (k = k')); subst; reflexivity.
  - rewrite lookup_insert. reflexivity.
Qed.

Lemma get_normalizeField (k k' : string) (o : Js.Obj) :
  Js.get (normalizeField k o) k' =
  if decide (k = k') then
    if Js.isUndefined (Js.get o k) then Js.get o k
    else Js.Str (normalizeYesNo (Js.get o k))
  else Js.get o k'.
Proof.
  unfold Js.get at 1. rewrite lookup_normalizeField.
  destruct (decide (k = k')); [|reflexivity].
  destruct (Js.isUndefined (Js.get o k)); reflexivity.
Qed.

Lemma normalizeYesNo_cases (v : Js.Value) :
  normalizeYesNo v = "Yes" \/ normalizeYesNo v = "No".
Proof.
  destruct v as [| |[]| |s|]; simpl; auto.
  destruct (String.eqb _ _); auto.
Qed.

Lemma strictEq_Str (a b : string) :
  Js.strictEq (Js.Str a) (Js.Str b) = String.eqb a b.
Proof.
  unfold Js.strictEq. destruct (String.eqb_spec a b) as [->|Hne].
  - apply bool_decide_eq_true. reflexivity.
  - apply bool_decide_eq_false. congruence.
Qed.

(** A field of the normalised updates that is one of the Yes/No fields. *)
Lemma get_normalizedUpdatesOf (updates : Js.Obj) (k : string) :
  k = "Paid" \/ k = "Attempted" \/ k = "RetakeAllowed" ->
  Js.get (normalizedUpdatesOf updates) k =
  if Js.isUndefined (Js.get updates k) then Js.get updates k
  else Js.Str (normalizeYesNo (Js.get updates k)).
Proof.
  unfold normalizedUpdatesOf.
  intros [->|[->| ->]]; rewrite !get_normalizeField; reflexivity.
Qed.

Lemma get_normalizedUpdatesOf_other (updates : Js.Obj) (k : string) :
  k <> "Paid" -> k <> "Attempted" -> k <> "RetakeAllowed" ->
  normalizedUpdatesOf updates !! k = updates !! k.
Proof.
  intros H1 H2 H3. unfold normalizedUpdatesOf.
  rewrite !lookup_normalizeField.
  repeat (destruct (decide _); [congruence|]). reflexivity.
Qed.

Lemma yesNo_flag (updates : Js.Obj) (k : string) :
  k = "Paid" \/ k = "Attempted" \/ k = "RetakeAllowed" ->
  negb (Js.isUndefined (Js.get (normalizedUpdatesOf updates) k))
  && Js.strictEq (Js.get (normalizedUpdatesOf updates) k) (Js.Str "Yes")
  = String.eqb (normalizeYesNo (Js.get updates k)) "Yes".
Proof.
  intros Hk. rewrite (get_normalizedUpdatesOf _ _ Hk).
  destruct (Js.get updates k) as [| |b| |s|] eqn:E; simpl;
    try rewrite strictEq_Str; reflexivity.
Qed.

Lemma retakeOf_spec (updates : Js.Obj) :
  retakeOf updates =
  String.eqb (normalizeYesNo (Js.get updates "RetakeAllowed")) "Yes".
Proof. unfold retakeOf, isRetakeRequest. apply yesNo_flag. auto. Qed.

Lemma approvalOf_spec (updates student : Js.Obj) :
  approvalOf updates student =
  String.eqb (normalizeYesNo (Js.get updates "Attempted")) "Yes"
  && negb (String.eqb (normalizeYesNo (Js.get student "Attempted")) "Yes").
Proof.
  unfold approvalOf, isAttemptApproval. rewrite yesNo_flag by auto.
  reflexivity.
Qed.

(** What a lookup reads from a row of the sheet. *)
Lemma get_mapRow (row : Row) (n : nat) (header : string) (index : nat) :
  HEADERS !! index = Some header -> namedHeader header = true ->
  Js.get (mapRowToStudent row n) header = cellOr row index.
Proof.
  intros Hh Hn. rewrite mapRowToStudent_eq.
  do 12 (destruct index as [|index];
         [injection Hh as <-; try discriminate Hn;
          rewrite !get_insert; reflexivity|]).
  discriminate Hh.
Qed.

(** The cell a named column receives. *)
Lemma written_cell (student : Js.Obj) (header : string) (index : nat) :
  HEADERS !! index = Some header -> namedHeader header = true ->
  (cellText <$> rowValues student) !! index = Some (storedText student header).
Proof.
  intros Hh Hn. rewrite rowValues_eq.
  do 12 (destruct index as [|index];
         [injection Hh as <-; try discriminate Hn;
          cbn [fmap list_fmap]; rewrite !cellText_namedCell;
          reflexivity|]).
  discriminate Hh.
Qed.

(** What a lookup reads back from the row written for an object. *)
Lemma get_written (student : Js.Obj) (n : nat) (header : string) (index : nat) :
  HEADERS !! index = Some header -> namedHeader header = true ->
  Js.get (mapRowToStudent (cellText <$> rowValues student) n) header =
  Js.Str (storedText student header).
Proof.
  intros Hh Hn. rewrite (get_mapRow _ _ _ _ Hh Hn). unfold cellOr.
  rewrite (written_cell _ _ _ Hh Hn). reflexivity.
Qed.

End FieldFacts.

Section HandlerRuns.

Variable env : Env.

Lemma validBody_inv req :
  validBody req = true ->
  Js.truthy (Name req) = true /\ isString (Name req) = true /\
  Js.truthy (District req) = true /\ isString (District req) = true /\
  Js.truthy (State req) = true /\ isString (State req) = true /\
  Js.isUndefined (Paid req) = false /\ feeMissing (FeeAmount req) = false /\
  Js.isEmpty (normalizeMobileNumber (MobileNo req)) = false /\
  Js.truthy (MobileNo req) = true.
Proof.
  unfold validBody. rewrite !andb_true_iff, !negb_true_iff.
  intros ((((((((?&?)&?)&?)&?)&?)&?)&?)&Hm). repeat split; try assumption.
  unfold normalizeMobileNumber in Hm.
  destruct (Js.truthy (MobileNo req)); [reflexivity | discriminate].
Qed.

Lemma updateExisting_run req existing w :
  isString (Name req) = true -> isString (District req) = true ->
  isString (State req) = true ->
  updateExisting env req (normalizeMobileNumber (MobileNo req))
    (normalizeYesNo (Paid req)) existing w =
  let updated := upserted req existing in
  let range := buildUpdateRange (Js.get existing "rowNumber") in
  (Ok {| status := 200; body := BodyUpdated updated |},
   tripped (ValuesUpdate range (rowValues updated))
     (applyUpdate range (rowValues updated) (others env (trips w) (sheet w)))
     w).
Proof.
  destruct req as [n m d st p f]; simpl.
  destruct n; try discriminate. destruct d; try discriminate.
  destruct st; try discriminate. intros _ _ _.
  reflexivity.
Qed.

Lemma getCurrentISTTimestamp_run (w : World) :
  getCurrentISTTimestamp env w =
  (Ok (istTimestamp (clock env (reads w))), ticked w).
Proof. reflexivity. Qed.

Lemma trimOf_run (field : string) (v : Js.Value) (w : World) :
  isString v = true -> trimOf field v w = (Ok (Js.trim (Js.toStr v)), w).
Proof. destruct v; try discriminate. reflexivity. Qed.

(** [POST /student] up to the first lookup. *)
Lemma postStudent_first req w :
  validBody req = true ->
  let key := normalizeMobileNumber (MobileNo req) in
  let s1 := others env (trips w) (sheet w) in
  let w1 := tripped ValuesGet s1 w in
  postStudent env req w =
  match lookupRows key s1 with
  | Some existing =>
      updateExisting env req key (normalizeYesNo (Paid req)) existing w1
  | None =>
      let s2 := others env (trips w1) s1 in
      let w2 := tripped ValuesGet s2 w1 in
      match lookupRows key s2 with
      | Some existing =>
          updateExisting env req key (normalizeYesNo (Paid req)) existing w2
      | None =>
          let w2' := ticked (ticked w2) in
          let s3 := others env (trips w2) s2 in
          let w3 := tripped ValuesGet s3 w2' in
          match lookupRows key s3 with
          | Some existing =>
              updateExisting env req key (normalizeYesNo (Paid req)) existing
                w3
          | None =>
              let s4 := others env (trips w3) s3 in
              let w4 := tripped ValuesGet s4 w3 in
              match lookupRows key s4 with
              | Some existing =>
                  (Ok {| status := 500;
                         body := BodyError "Failed to add student" |}, w4)
              | None =>
                  let new :=
                    created req (clock env (reads w2))
                      (clock env (S (reads w2))) in
                  (Ok {| status := 201; body := BodyCreated new |},
                   tripped (ValuesAppend (rowValues new))
                     (others env (trips w4) s4 ++ [cellText <$> rowValues new])%list
                     w4)
              end
          end
      end
  end.
Proof.
  intros Hv. cbv zeta. set (key := normalizeMobileNumber (MobileNo req)).
  cbn [sheet trips reads tripped ticked].
  match goal with |- _ = ?r => set (rhs := r) end.
  pose proof (validBody_inv _ Hv) as (Hn&Hns&Hd&Hds&Hs&Hss&Hp&Hf&Hm&Hmt).
  unfold postStudent. rewrite Hn, Hd, Hs, Hp, Hf, Hmt.
  cbn [negb orb]. unfold tryCatch. rewrite Hm.
  rewrite bind_run, findStudentByMobile_run. cbv zeta. fold key.
  destruct (lookupRows key _) as [e1|].
  { subst rhs. rewrite !updateExisting_run by assumption. reflexivity. }
  rewrite bind_run, findStudentByMobile_run. cbv zeta.
  cbn [sheet trips reads tripped ticked].
  destruct (lookupRows key _) as [e2|].
  { subst rhs. rewrite !updateExisting_run by assumption. reflexivity. }
  repeat (rewrite bind_run;
          rewrite ?getCurrentISTTimestamp_run, ?trimOf_run by assumption;
          cbv beta iota).
  rewrite findStudentByMobile_run. cbv zeta.
  cbn [sheet trips reads tripped ticked].
  destruct (lookupRows key _) as [e3|].
  { subst rhs. rewrite !updateExisting_run by assumption. reflexivity. }
  rewrite bind_run, findStudentByMobile_run. cbv zeta.
  cbn [sheet trips reads tripped ticked].
  destruct (lookupRows key _) as [e4|]; [reflexivity|].
  rewrite bind_run. unfold lift. rewrite buildRowFromStudent_ok.
  rewrite rowValues_length. cbn [Nat.eqb negb].
  unfold valuesAppend. rewrite !bind_run. unfold roundTrip, respond.
  cbn [sheet trips reads tripped ticked mret M_ret].
  subst rhs. unfold created, Js.assign. cbn [foldl fst snd].
  reflexivity.
Qed.

Lemma cooldown_run (retake : bool) (student : Js.Obj) (w : World) :
  cooldown env retake student w =
  match retake, parseIsoDate env (Js.get student "LastApprovedAt") with
  | true, Some lastApprovedAt =>
      let since := (clock env (reads w) - lastApprovedAt)%Z in
      (Ok (if (since <? TWELVE_HOURS_MS)%Z
           then Some (ceilDiv (TWELVE_HOURS_MS - since) 3600000)
           else None),
       ticked w)
  | _, _ => (Ok None, w)
  end.
Proof.
  unfold cooldown. destruct retake; [|reflexivity].
  destruct (parseIsoDate _ _); [|reflexivity].
  rewrite bind_run. simpl. destruct (_ <? _)%Z; reflexivity.
Qed.

(** [POST /student/update] on a record that the lookup finds. *)
Lemma postStudentUpdate_found mobileNo updates student w :
  let key := normalizeMobileNumber mobileNo in
  let s1 := others env (trips w) (sheet w) in
  let w1 := tripped ValuesGet s1 w in
  lookupRows key s1 = Some student ->
  Js.isEmpty key = false ->
  postStudentUpdate env mobileNo (Some updates) w =
  let retake := retakeOf updates in
  let approval := approvalOf updates student in
  match cooldown env retake student w1 with
  | (Ok (Some remainingHours), w2) =>
      (Ok {| status := 409; body := BodyCooldown remainingHours |}, w2)
  | (Ok None, w2) =>
      let stamp :=
        if retake || approval
        then Some (istTimestamp (clock env (reads w2))) else None in
      let w3 := if retake || approval then ticked w2 else w2 in
      let updated := updatedStudentOf key updates student stamp in
      let range := buildUpdateRange (Js.get student "rowNumber") in
      (Ok {| status := 200; body := BodyStudent updated |},
       tripped (ValuesUpdate range (rowValues updated))
         (applyUpdate range (rowValues updated)
            (others env (trips w3) (sheet w3)))
         w3)
  | (Throw e, w2) =>
      (Ok {| status := 500; body := BodyError "Failed to update student" |},
       w2)
  end.
Proof.
  intros key s1 w1 Hl Hk.
  assert (Hmt : Js.truthy mobileNo = true).
  { subst key. unfold normalizeMobileNumber in Hk.
    destruct (Js.truthy mobileNo); [reflexivity | discriminate]. }
  unfold postStudentUpdate. rewrite Hmt. cbn [negb].
  unfold tryCatch. fold key. rewrite Hk.
  rewrite bind_run, findStudentByMobile_run. cbv zeta. fold s1. rewrite Hl.
  fold w1. rewrite bind_run.
  change (isRetakeRequest _) with (retakeOf updates).
  change (isAttemptApproval _ student) with (approvalOf updates student).
  destruct (cooldown env (retakeOf updates) student w1) as [[[h|]|e] w2];
    [reflexivity| |reflexivity].
  unfold updatedStudentOf. cbv zeta.
  change (normalizeField "RetakeAllowed" _) with (normalizedUpdatesOf updates).
  destruct (retakeOf updates || approvalOf updates student) eqn:E.
  - rewrite !bind_run, getCurrentISTTimestamp_run. cbn [mret M_ret].
    unfold lift. rewrite buildRowFromStudent_ok. rewrite bind_run.
    rewrite rowValues_length. cbn [Nat.eqb negb].
    unfold valuesUpdate, roundTrip, respond. rewrite !bind_run.
    cbn [mret M_ret]. reflexivity.
  - match goal with |- context [Js.isUndefined (Js.get ?u "LastApprovedAt")] =>
      destruct (Js.isUndefined (Js.get u "LastApprovedAt")) end.
    + rewrite !bind_run. cbn [mret M_ret].
    unfold lift. rewrite buildRowFromStudent_ok. rewrite bind_run.
    rewrite rowValues_length. cbn [Nat.eqb negb].
    unfold valuesUpdate, roundTrip, respond. rewrite !bind_run.
    cbn [mret M_ret]. reflexivity.
    + rewrite !bind_run. cbn [mret M_ret].
    unfold lift. rewrite buildRowFromStudent_ok. rewrite bind_run.
    rewrite rowValues_length. cbn [Nat.eqb negb].
    unfold valuesUpdate, roundTrip, respond. rewrite !bind_run.
    cbn [mret M_ret]. reflexivity.
Qed.

End HandlerRuns.

(** ** Fields of the object [POST /student/update] builds *)

Section UpdateFacts.

Variables (key : string) (updates student : Js.Obj) (stamp : option string).

Lemma get_insert_ne (o : Js.Obj) (k k' : string) (v : Js.Value) :
  k <> k' -> Js.get (<[k := v]> o) k' = Js.get o k'.
Proof.
  intros Hne. rewrite get_insert.
  destruct (decide (k = k')); [contradiction | reflexivity].
Qed.

Lemma get_insert_eq (o : Js.Obj) (k : string) (v : Js.Value) :
  Js.get (<[k := v]> o) k = v.
Proof.
  rewrite get_insert. destruct (decide (k = k)); [reflexivity | contradiction].
Qed.

Lemma get_merged (k : string) :
  k <> "CreatedAt" ->
  Js.get (delete "CreatedAt" (normalizedUpdatesOf updates) ∪ student) k =
  match normalizedUpdatesOf updates !! k with
  | Some v => v
  | None => Js.get student k
  end.
Proof.
  intros Hne. rewrite get_union, lookup_delete_ne by congruence. reflexivity.
Qed.

Ltac peel :=
  repeat first
    [ rewrite get_cond_insert by congruence
    | rewrite get_insert_ne by congruence ].

Lemma get_updated_other (k : string) :
  k <> "MobileNo" -> k <> "_columnJ" -> k <> "_columnK" ->
  k <> "FeeAmount" -> k <> "LastApprovedAt" -> k <> "CreatedAt" ->
  Js.get (updatedStudentOf key updates student stamp) k =
  match normalizedUpdatesOf updates !! k with
  | Some v => v
  | None => Js.get student k
  end.
Proof.
  intros H1 H2 H3 H4 H5 H6. unfold updatedStudentOf. cbv zeta.
  destruct stamp; peel; by apply get_merged.
Qed.

Lemma get_updated_MobileNo :
  Js.get (updatedStudentOf key updates student stamp) "MobileNo" = Js.Str key.
Proof.
  unfold updatedStudentOf. cbv zeta.
  destruct stamp; peel; apply get_insert_eq.
Qed.

Lemma get_updated_CreatedAt :
  Js.get (updatedStudentOf key updates student stamp) "CreatedAt" =
  Js.nullish (Js.get student "CreatedAt") (Js.Str "").
Proof.
  unfold updatedStudentOf. cbv zeta.
  match goal with |- Js.get (if ?c then _ else _) _ = _ => destruct c end;
    apply get_insert_eq.
Qed.

Lemma get_updated_stamped (timestamp : string) :
  stamp = Some timestamp ->
  Js.get (updatedStudentOf key updates student stamp) "LastApprovedAt" =
  Js.Str timestamp.
Proof.
  intros ->. unfold updatedStudentOf. cbv zeta. peel. apply get_insert_eq.
Qed.

Lemma get_updated_unstamped (previous : string) :
  stamp = None ->
  updates !! "LastApprovedAt" = None ->
  Js.get student "LastApprovedAt" = Js.Str previous ->
  Js.get (updatedStudentOf key updates student stamp) "LastApprovedAt" =
  Js.Str previous.
Proof.
  intros -> Hu Hs. unfold updatedStudentOf. cbv zeta. peel.
  assert (Hm : Js.get (delete "CreatedAt" (normalizedUpdatesOf updates)
                         ∪ student) "LastApprovedAt" = Js.Str previous).
  { rewrite get_merged by congruence.
    rewrite get_normalizedUpdatesOf_other by congruence. rewrite Hu. exact Hs. }
  match goal with |- Js.get (if ?c then _ else _) _ = _ => destruct c end.
  - rewrite get_insert_eq, Hs. reflexivity.
  - peel. exact Hm.
Qed.

End UpdateFacts.

(** ** The calendar of [getCurrentISTTimestamp] *)

Section Calendar.

Local Open Scope Z_scope.

Lemma leapYear_spec (y : Z) :
  leapDay (leapYear y) = (y / 4 - (y - 1) / 4) - (y / 100 - (y - 1) / 100)
                         + (y / 400 - (y - 1) / 400).
Proof.
  unfold leapYear, leapDay.
  destruct (Z.eqb_spec (y mod 4) 0), (Z.eqb_spec (y mod 100) 0),
    (Z.eqb_spec (y mod 400) 0); cbn [andb orb negb];
    Z.div_mod_to_equations; lia.
Qed.

(** The calendar repeats every 400 years. *)
Lemma leapYear_era (y era : Z) : leapYear (y + era * 400) = leapYear y.
Proof.
  unfold leapYear.
  replace ((y + era * 400) mod 4) with (y mod 4)
    by (Z.div_mod_to_equations; lia).
  replace ((y + era * 400) mod 100) with (y mod 100)
    by (Z.div_mod_to_equations; lia).
  replace ((y + era * 400) mod 400) with (y mod 400)
    by (Z.div_mod_to_equations; lia).
  reflexivity.
Qed.

(** The year of the era and the day of the year that [civilFromDays]
    computes from a day of the era; its years start on 1 March. *)
Lemma year_of_doe (doe : Z) :
  0 <= doe <= 146096 ->
  let yoe := (doe - doe / 1460 + doe / 36524 - doe / 146096) / 365 in
  let doy := doe - (365 * yoe + yoe / 4 - yoe / 100) in
  0 <= yoe <= 399 /\ 0 <= doy <= 364 + leapDay (leapYear (yoe + 1)).
Proof.
  intros H yoe doy.
  pose proof (leapYear_spec (yoe + 1)) as Hl.
  replace (yoe + 1 - 1) with yoe in Hl by lia.
  rewrite Hl. clear Hl. unfold doy, yoe. Z.div_mod_to_equations. lia.
Qed.

Lemma daysBeforeMonth_table (y m : Z) :
  1 <= m <= 12 ->
  daysBeforeMonth y m =
  (if m <=? 2 then 31 * (m - 1)
   else (153 * (m - 3) + 2) / 5 + 59 + leapDay (leapYear y)).
Proof.
  intros Hm.
  assert (Hc : m = 1 \/ m = 2 \/ m = 3 \/ m = 4 \/ m = 5 \/ m = 6 \/ m = 7
               \/ m = 8 \/ m = 9 \/ m = 10 \/ m = 11 \/ m = 12) by lia.
  unfold daysBeforeMonth, daysInMonth. set (l := leapYear y).
  repeat destruct Hc as [-> | Hc]; try subst m; destruct l; reflexivity.
Qed.

Lemma daysBeforeYear_succ (y : Z) :
  daysBeforeYear (y + 1) = daysBeforeYear y + 365 + leapDay (leapYear y).
Proof.
  rewrite leapYear_spec. unfold daysBeforeYear, leapYearsBefore.
  replace (y + 1 - 1) with y by lia. lia.
Qed.

(** The day number of 1 March of the year [yoe + era * 400]. *)
Lemma march_first (yoe era : Z) :
  0 <= yoe <= 399 ->
  daysBeforeYear (yoe + era * 400) + 59 + leapDay (leapYear (yoe + era * 400))
  = era * 146097 + (365 * yoe + yoe / 4 - yoe / 100) - 719468.
Proof.
  intros Hy. rewrite leapYear_spec. unfold daysBeforeYear, leapYearsBefore.
  change ((1970 - 1) / 4) with 492. change ((1970 - 1) / 100) with 19.
  change ((1970 - 1) / 400) with 4.
  Z.div_mod_to_equations. lia.
Qed.

(** [civilFromDays] returns the date of the Gregorian calendar that lies
    [days] days after 1 January 1970. *)
Lemma civilFromDays_correct (days : Z) :
  let '(y, m, d) := civilFromDays days in
  1 <= m <= 12 /\ 1 <= d <= daysInMonth y m /\ dayNumber y m d = days.
Proof.
  unfold civilFromDays. cbv zeta.
  set (z := days + 719468). set (era := z / 146097).
  set (doe := z - era * 146097).
  assert (Hdoe : 0 <= doe <= 146096)
    by (unfold doe, era; Z.div_mod_to_equations; lia).
  destruct (year_of_doe doe Hdoe) as [Hyoe Hdoy].
  set (yoe := (doe - doe / 1460 + doe / 36524 - doe / 146096) / 365) in *.
  set (doy := doe - (365 * yoe + yoe / 4 - yoe / 100)) in *.
  set (mp := (5 * doy + 2) / 153).
  assert (Hl : 0 <= leapDay (leapYear (yoe + 1)) <= 1)
    by (unfold leapDay; destruct (leapYear _); lia).
  assert (Hmp : 0 <= mp <= 11) by (unfold mp; Z.div_mod_to_equations; lia).
  pose proof (march_first yoe era Hyoe) as Hmarch.
  assert (Hdays : days = era * 146097 + (365 * yoe + yoe / 4 - yoe / 100)
                         - 719468 + doy) by (unfold doy, doe, z; lia).
  destruct (Z.ltb_spec mp 10) as [Hlt|Hge].
  - (* March to December of the year yoe + era * 400 *)
    destruct (Z.leb_spec (mp + 3) 2) as [?|_]; [lia|].
    split; [lia|].
    unfold dayNumber. rewrite daysBeforeMonth_table by lia.
    destruct (Z.leb_spec (mp + 3) 2) as [?|_]; [lia|].
    replace (mp + 3 - 3) with mp by lia.
    split; [|lia].
    assert (Hc : mp = 0 \/ mp = 1 \/ mp = 2 \/ mp = 3 \/ mp = 4 \/ mp = 5
                 \/ mp = 6 \/ mp = 7 \/ mp = 8 \/ mp = 9) by lia.
    unfold mp in Hc |- *.
    repeat destruct Hc as [Hc | Hc]; rewrite Hc;
      match goal with
      | |- context [daysInMonth ?year ?month] =>
          let days := eval vm_compute in (daysInMonth 1 month) in
          change (daysInMonth year month) with days
      end;
      Z.div_mod_to_equations; lia.
  - (* January and February of the year after *)
    destruct (Z.leb_spec (mp - 9) 2) as [_|?]; [|lia].
    split; [lia|].
    unfold dayNumber. rewrite daysBeforeMonth_table by lia.
    destruct (Z.leb_spec (mp - 9) 2) as [_|?]; [|lia].
    rewrite daysBeforeYear_succ.
    replace (yoe + era * 400 + 1) with ((yoe + 1) + era * 400) by lia.
    split; [|unfold mp in *; Z.div_mod_to_equations; lia].
    assert (Hc : mp = 10 \/ mp = 11) by lia.
    unfold mp in Hc |- *.
    destruct Hc as [Hc | Hc]; rewrite Hc.
    + change (daysInMonth (yoe + 1 + era * 400) (10 - 9)) with 31.
      Z.div_mod_to_equations; lia.
    + change (daysInMonth (yoe + 1 + era * 400) (11 - 9))
        with (if leapYear (yoe + 1 + era * 400) then 29 else 28).
      rewrite leapYear_era.
      unfold leapDay in Hdoy. destruct (leapYear (yoe + 1));
        Z.div_mod_to_equations; lia.
Qed.

(** A check of all the numbers below [k]. *)
Lemma forall_below (p : Z -> bool) (k : nat) :
  forallb p (List.map Z.of_nat (List.seq 0 k)) = true ->
  forall n, 0 <= n < Z.of_nat k -> p n = true.
Proof.
  intros Hall n Hn. rewrite forallb_forall in Hall. apply Hall.
  rewrite <- (Z2Nat.id n) by lia. apply List.in_map. apply List.in_seq. lia.
Qed.

Lemma pad_two (n : Z) : 0 <= n < 100 -> pad 2 n = twoDigits n.
Proof.
  intros Hn. apply String.eqb_eq.
  apply (forall_below (fun n => String.eqb (pad 2 n) (twoDigits n)) 100);
    [vm_compute; reflexivity | exact Hn].
Qed.

Lemma pad_three (n : Z) : 0 <= n < 1000 -> pad 3 n = threeDigits n.
Proof.
  intros Hn. apply String.eqb_eq.
  apply (forall_below (fun n => String.eqb (pad 3 n) (threeDigits n)) 1000);
    [vm_compute; reflexivity | exact Hn].
Qed.

(** The text [getCurrentISTTimestamp] returns for a reading [now] of the
    clock is the ISO 8601 notation of [now] at the offset +05:30. *)
Lemma istTimestamp_says (now : Z) : isTimestampOf (istTimestamp now) now.
Proof.
  unfold istTimestamp. cbv zeta. set (t := now + 19800000).
  pose proof (civilFromDays_correct (t / msPerDay)) as Hcivil.
  unfold getUTCFullYear, getUTCMonth1, getUTCDate.
  destruct (civilFromDays (t / msPerDay)) as [[y m] d].
  destruct Hcivil as (Hm & Hd & Hday). cbn [fst snd].
  assert (Hd31 : daysInMonth y m <= 31).
  { unfold daysInMonth.
    destruct (m =? 2); [destruct (leapYear y); lia|].
    destruct (_ || _); lia. }
  exists y, m, d, (getUTCHours t), (getUTCMinutes t), (getUTCSeconds t),
    (getUTCMilliseconds t).
  unfold getUTCHours, getUTCMinutes, getUTCSeconds, getUTCMilliseconds,
    msPerDay in *.
  split; [|split].
  - repeat split; try lia; Z.div_mod_to_equations; lia.
  - rewrite Hday. fold t. Z.div_mod_to_equations. lia.
  - rewrite !pad_two, pad_three
      by (try lia; Z.div_mod_to_equations; lia).
    reflexivity.
Qed.

Lemma daysBeforeYear_mono (a b : Z) :
  a <= b -> daysBeforeYear a <= daysBeforeYear b.
Proof.
  intros Hab. unfold daysBeforeYear, leapYearsBefore.
  Z.div_mod_to_equations. lia.
Qed.

Lemma daysInMonth_cases (y m : Z) :
  1 <= m <= 12 ->
  daysInMonth y m =
  (if m =? 2 then 28 + leapDay (leapYear y)
   else 30 + (m + m / 8) mod 2).
Proof.
  intros Hm.
  assert (Hc : m = 1 \/ m = 2 \/ m = 3 \/ m = 4 \/ m = 5 \/ m = 6 \/ m = 7
               \/ m = 8 \/ m = 9 \/ m = 10 \/ m = 11 \/ m = 12) by lia.
  unfold daysInMonth, leapDay.
  repeat destruct Hc as [-> | Hc]; try subst m; destruct (leapYear y);
    reflexivity.
Qed.

(** The day of a month lies after the months before it and before the
    months after it. *)
Lemma daysBeforeMonth_next (y m m' : Z) :
  1 <= m <= 12 -> 1 <= m' <= 12 -> m < m' ->
  daysBeforeMonth y m + daysInMonth y m <= daysBeforeMonth y m'.
Proof.
  intros Hm Hm' Hlt.
  rewrite !daysBeforeMonth_table, daysInMonth_cases by lia.
  assert (Hl : 0 <= leapDay (leapYear y) <= 1)
    by (unfold leapDay; destruct (leapYear y); lia).
  destruct (Z.leb_spec m 2), (Z.leb_spec m' 2), (Z.eqb_spec m 2);
    Z.div_mod_to_equations; lia.
Qed.

Lemma daysBeforeMonth_year (y m : Z) :
  1 <= m <= 12 ->
  0 <= daysBeforeMonth y m /\
  daysBeforeMonth y m + daysInMonth y m <= 365 + leapDay (leapYear y).
Proof.
  intros Hm.
  rewrite !daysBeforeMonth_table, daysInMonth_cases by lia.
  assert (Hl : 0 <= leapDay (leapYear y) <= 1)
    by (unfold leapDay; destruct (leapYear y); lia).
  destruct (Z.leb_spec m 2), (Z.eqb_spec m 2);
    Z.div_mod_to_equations; lia.
Qed.

(** Two dates of the calendar with the same day number are the same. *)
Lemma dayNumber_inj (y m d y' m' d' : Z) :
  1 <= m <= 12 -> 1 <= d <= daysInMonth y m ->
  1 <= m' <= 12 -> 1 <= d' <= daysInMonth y' m' ->
  dayNumber y m d = dayNumber y' m' d' ->
  y = y' /\ m = m' /\ d = d'.
Proof.
  intros Hm Hd Hm' Hd' Heq. unfold dayNumber in Heq.
  pose proof (daysBeforeMonth_year y m Hm) as Hy.
  pose proof (daysBeforeMonth_year y' m' Hm') as Hy'.
  pose proof (daysBeforeYear_succ y) as Hs.
  pose proof (daysBeforeYear_succ y') as Hs'.
  assert (y = y') as <-.
  { destruct (Z.lt_trichotomy y y') as [Hlt|[?|Hgt]]; [|assumption|].
    - pose proof (daysBeforeYear_mono (y + 1) y' ltac:(lia)). lia.
    - pose proof (daysBeforeYear_mono (y' + 1) y ltac:(lia)). lia. }
  split; [reflexivity|].
  assert (m = m') as <-.
  { destruct (Z.lt_trichotomy m m') as [Hlt|[?|Hgt]]; [|assumption|].
    - pose proof (daysBeforeMonth_next y m m' Hm Hm' Hlt). lia.
    - pose proof (daysBeforeMonth_next y m' m Hm' Hm Hgt). lia. }
  split; [reflexivity | lia].
Qed.

(** An instant has one timestamp. *)
Lemma isTimestampOf_unique (text text' : string) (now : Z) :
  isTimestampOf text now -> isTimestampOf text' now -> text = text'.
Proof.
  intros (y & m & d & hh & mm & ss & ms & (Hm & Hd & Hhh & Hmm & Hss & Hms)
          & Hnow & ->)
         (y' & m' & d' & hh' & mm' & ss' & ms'
          & (Hm' & Hd' & Hhh' & Hmm' & Hss' & Hms') & Hnow' & ->).
  rewrite Hnow in Hnow'.
  assert (Hday : dayNumber y m d = dayNumber y' m' d') by lia.
  destruct (dayNumber_inj _ _ _ _ _ _ Hm Hd Hm' Hd' Hday) as (<- & <- & <-).
  assert (hh = hh') as <- by lia. assert (mm = mm') as <- by lia.
  assert (ss = ss') as <- by lia. assert (ms = ms') as <- by lia.
  reflexivity.
Qed.

End Calendar.

(** ** Properties of the specification *)

Section Upsert.

Variable env : Env.
Hypothesis Hseq : sequential env.

Lemma updateExisting_status req key paid existing w :
  (exists updated,
      (updateExisting env req key paid existing w).1 =
      Ok {| status := 200; body := BodyUpdated updated |})
  \/ (exists e, (updateExisting env req key paid existing w).1 = Throw e).
Proof.
  unfold updateExisting.
  destruct (Name req); simpl; eauto.
  destruct (District req); simpl; eauto.
  destruct (State req); simpl; eauto.
Qed.

(** Under sequential access [201] answers only a number that no row holds. *)
Lemma postStudent_created_fresh req w new :
  (postStudent env req w).1 = Ok {| status := 201; body := BodyCreated new |} ->
  lookupRows (normalizeMobileNumber (MobileNo req)) (sheet w) = None.
Proof.
  unfold postStudent.
  destruct (_ || _); [discriminate|].
  destruct (feeMissing _); [discriminate|].
  unfold tryCatch.
  destruct (Js.isEmpty _); [discriminate|].
  rewrite bind_run, findStudentByMobile_run. simpl. rewrite Hseq.
  destruct (lookupRows _ _) as [e|]; [|reflexivity].
  destruct (updateExisting_status req (normalizeMobileNumber (MobileNo req))
              (normalizeYesNo (Paid req)) e
              (tripped ValuesGet (sheet w) w)) as [[u Hu]|[err Hu]];
    destruct (updateExisting _ _ _ _ _ _) as [o w']; simpl in Hu; subst o;
    discriminate.
Qed.

Lemma get_upserted req existing :
  Js.get (upserted req existing) "MobileNo"
    = Js.Str (normalizeMobileNumber (MobileNo req)) /\
  Js.get (upserted req existing) "CreatedAt"
    = Js.nullish (Js.get existing "CreatedAt") (Js.Str "") /\
  Js.get (upserted req existing) "Paid" = Js.Str (normalizeYesNo (Paid req)) /\
  Js.get (upserted req existing) "Attempted" = Js.get existing "Attempted" /\
  Js.get (upserted req existing) "RetakeAllowed"
    = Js.get existing "RetakeAllowed".
Proof.
  unfold upserted, Js.assign. simpl. rewrite !get_insert. simpl.
  repeat split; reflexivity.
Qed.

Lemma upsert_existing_run req w existing :
  validBody req = true ->
  let key := normalizeMobileNumber (MobileNo req) in
  lookupRows key (sheet w) = Some existing ->
  exists i row,
    findIndex (rowMatches key) (sheet w) = Some i /\
    sheet w !! i = Some row /\
    existing = mapRowToStudent row (i + 2) /\
    postStudent env req w =
    (Ok {| status := 200; body := BodyUpdated (upserted req existing) |},
     tripped
       (ValuesUpdate (buildUpdateRange (Js.get existing "rowNumber"))
          (rowValues (upserted req existing)))
       (<[i := cellText <$> rowValues (upserted req existing)]> (sheet w))
       (tripped ValuesGet (sheet w) w)).
Proof.
  intros Hv key Hl.
  destruct (lookupRows_inv _ _ _ Hl) as (i & row & Hi & Hrow & _ & He).
  unfold key in Hi. rewrite normalizeMobileNumber_key in Hi.
  exists i, row. repeat split; try assumption.
  rewrite (postStudent_first env req w Hv). cbv zeta. rewrite Hseq.
  fold key. rewrite Hl.
  pose proof (validBody_inv _ Hv) as (_&Hns&_&Hds&_&Hss&_).
  rewrite updateExisting_run by assumption. cbv zeta.
  cbn [sheet trips tripped]. rewrite Hseq.
  rewrite (applyUpdate_found i _ _ row existing He Hrow). reflexivity.
Qed.

End Upsert.

(** C1: the code breaks the claim where a [CreatedAt] cell carries
    surrounding white space.  For every [POST /student] call with a valid
    body, under sequential access, whose normalised MobileNo is found in
    the sheet, the claim holds up to the stored [CreatedAt]: the answer is
    200 with [updated: true]; the handler makes one read and one [update]
    of the row at its row number and no [append]; the sheet keeps its
    length and the number of rows for the number; and 201 with
    [created: true] is answered only when no row held the number.  But the
    [CreatedAt] that is stored is the text found passed through [trim]:
    it is the [CreatedAt] found if and only if that text has no
    surrounding white space. *)
Theorem upsert_createdAt_trimmed (env : Env) (req : StudentBody) (w : World) :
  sequential env ->
  let key := normalizeMobileNumber (MobileNo req) in
  let result := postStudent env req w in
  (validBody req = true ->
   forall existing, lookupRows key (sheet w) = Some existing ->
   exists i row updated after,
     findIndex (rowMatches key) (sheet w) = Some i /\
     sheet w !! i = Some row /\
     existing = mapRowToStudent row (i + 2) /\
     result.1 = Ok {| status := 200; body := BodyUpdated updated |} /\
     log result.2 =
       (log w ++
        [ValuesGet;
         ValuesUpdate (buildUpdateRange (Js.get existing "rowNumber"))
           (rowValues updated)])%list /\
     sheet result.2 = <[i := cellText <$> rowValues updated]> (sheet w) /\
     length (sheet result.2) = length (sheet w) /\
     countRows key (sheet result.2) = countRows key (sheet w) /\
     Js.get updated "CreatedAt" = Js.get existing "CreatedAt" /\
     Js.get existing "CreatedAt" = Js.Str (default "" (row !! 11%nat)) /\
     lookupRows key (sheet result.2) = Some after /\
     Js.get after "rowNumber" = Js.get existing "rowNumber" /\
     Js.get after "CreatedAt" = Js.Str (Js.trim (default "" (row !! 11%nat))) /\
     (Js.get after "CreatedAt" = Js.get existing "CreatedAt" <->
      Js.trim (default "" (row !! 11%nat)) = default "" (row !! 11%nat)))
  /\
  (forall new,
     result.1 = Ok {| status := 201; body := BodyCreated new |} ->
     lookupRows key (sheet w) = None).
Proof.
  intros Hseq key result. split.
  - intros Hv existing Hl.
    destruct (upsert_existing_run env Hseq req w existing Hv Hl)
      as (i & row & Hi & Hrow & He & Hrun).
    set (updated := upserted req existing) in *.
    set (newRow := cellText <$> rowValues updated) in *.
    pose proof (get_upserted req existing) as (Hmob & Hcreated & _).
    assert (Hexisting : Js.get existing "CreatedAt"
                        = Js.Str (default "" (row !! 11%nat))).
    { rewrite He. apply (get_mapRow row (i + 2) "CreatedAt" 11); reflexivity. }
    assert (Hkey : Js.isEmpty key = false)
      by (eapply lookupRows_nonempty; exact Hl).
    assert (Hmatch : rowMatches key newRow = true).
    { apply rowMatches_written; [exact Hmob| |exact Hkey].
      apply normalizeMobileNumber_digits. }
    assert (Hold : rowMatches key row = true).
    { destruct (findIndex_Some _ _ _ Hi) as (x & Hx & Hp).
      rewrite Hrow in Hx. injection Hx as <-. exact Hp. }
    assert (Hstored : Js.get (mapRowToStudent newRow (i + 2)) "CreatedAt"
                      = Js.Str (Js.trim (default "" (row !! 11%nat)))).
    { subst newRow.
      rewrite (get_written updated (i + 2) "CreatedAt" 11) by reflexivity.
      unfold storedText. fold updated in Hcreated.
      rewrite Hcreated, Hexisting. reflexivity. }
    exists i, row, updated, (mapRowToStudent newRow (i + 2)).
    subst result. rewrite Hrun. cbn [fst snd sheet log tripped].
    repeat split; try assumption.
    + rewrite <- app_assoc. reflexivity.
    + apply length_insert.
    + unfold countRows. apply (filter_insert_length _ _ _ row);
        [exact Hrow | rewrite Hmatch, Hold; reflexivity].
    + fold updated in Hcreated. rewrite Hcreated, Hexisting. reflexivity.
    + apply lookupRows_found.
      * unfold key. rewrite normalizeMobileNumber_key.
        apply findIndex_insert; assumption.
      * apply list_lookup_insert_eq. eapply lookup_lt_Some; eauto.
    + rewrite He, !get_rowNumber. reflexivity.
    + rewrite Hstored, Hexisting. intros [= H]. exact H.
    + rewrite Hstored, Hexisting. intros ->. reflexivity.
  - intros new Hnew. eapply postStudent_created_fresh; eauto.
Qed.

Lemma upsert_createdAt_trimmed_witness :
  let result := postStudent sampleEnv sampleBody (start [paddedRow]) in
  sequential sampleEnv /\
  validBody sampleBody = true /\
  lookupRows "9876543210" [paddedRow] = Some (mapRowToStudent paddedRow 2) /\
  Js.get (mapRowToStudent paddedRow 2) "CreatedAt"
    = Js.Str " 2024-01-05T10:00:00.000+05:30" /\
  exists updated after,
    result.1 = Ok {| status := 200; body := BodyUpdated updated |} /\
    length (sheet result.2) = 1%nat /\
    lookupRows "9876543210" (sheet result.2) = Some after /\
    Js.get after "CreatedAt" = Js.Str "2024-01-05T10:00:00.000+05:30" /\
    Js.get after "CreatedAt"
      <> Js.get (mapRowToStudent paddedRow 2) "CreatedAt".
Proof.
  intros result.
  assert (Hs : sequential sampleEnv) by (intros n s; reflexivity).
  assert (Hv : validBody sampleBody = true) by reflexivity.
  assert (Hl : lookupRows (normalizeMobileNumber (MobileNo sampleBody))
                 (sheet (start [paddedRow]))
               = Some (mapRowToStudent paddedRow 2)) by reflexivity.
  assert (Hc : Js.get (mapRowToStudent paddedRow 2) "CreatedAt"
               = Js.Str " 2024-01-05T10:00:00.000+05:30")
    by (apply (get_mapRow paddedRow 2 "CreatedAt" 11); reflexivity).
  split; [exact Hs|]. split; [exact Hv|]. split; [exact Hl|].
  split; [exact Hc|].
  destruct (proj1 (upsert_createdAt_trimmed sampleEnv sampleBody
                     (start [paddedRow]) Hs) Hv _ Hl)
    as (i & row & updated & after & H1 & H2 & _ & H4 & _ & _ & H7 & _ & _ & _
        & H11 & _ & H13 & H14).
  assert (Hi : i = 0%nat)
    by (change (Some 0%nat = Some i) in H1; congruence).
  subst i. change (Some paddedRow = Some row) in H2. injection H2 as <-.
  exists updated, after.
  split; [exact H4|]. split; [exact H7|]. split; [exact H11|].
  split; [exact H13|].
  intros Heq. apply H14 in Heq. discriminate Heq.
Defined.

Section Create.

Variable env : Env.
Hypothesis Hseq : sequential env.

Lemma get_created req t1 t2 :
  Js.get (created req t1 t2) "MobileNo"
    = Js.Str (normalizeMobileNumber (MobileNo req)) /\
  Js.get (created req t1 t2) "Paid" = Js.Str (normalizeYesNo (Paid req)) /\
  Js.get (created req t1 t2) "Attempted" = Js.Str "Yes" /\
  Js.get (created req t1 t2) "RetakeAllowed" = Js.Str "No" /\
  Js.get (created req t1 t2) "LastApprovedAt" = Js.Str (istTimestamp t1) /\
  Js.get (created req t1 t2) "CreatedAt" = Js.Str (istTimestamp t2).
Proof.
  unfold created, Js.assign. cbn [foldl fst snd]. rewrite !get_insert.
  repeat split; reflexivity.
Qed.

(** [POST /student] for a number that no row holds, without other
    clients: four reads, two readings of the clock, one [append]. *)
Lemma create_run req w :
  validBody req = true ->
  lookupRows (normalizeMobileNumber (MobileNo req)) (sheet w) = None ->
  let new := created req (clock env (reads w)) (clock env (S (reads w))) in
  (postStudent env req w).1 = Ok {| status := 201; body := BodyCreated new |}
  /\ sheet (postStudent env req w).2
     = (sheet w ++ [cellText <$> rowValues new])%list
  /\ log (postStudent env req w).2
     = (log w ++ [ValuesGet; ValuesGet; ValuesGet; ValuesGet;
                  ValuesAppend (rowValues new)])%list
  /\ reads (postStudent env req w).2 = S (S (reads w)).
Proof.
  intros Hv Hl new.
  rewrite (postStudent_first env req w Hv). cbv zeta.
  cbn [sheet trips reads tripped ticked]. rewrite !Hseq, Hl.
  cbn [fst snd sheet log reads tripped ticked]. fold new.
  repeat split. rewrite <- !app_assoc. reflexivity.
Qed.

Lemma storedText_Str (student : Js.Obj) (header x : string) :
  Js.get student header = Js.Str x -> storedText student header = Js.trim x.
Proof. unfold storedText. intros ->. reflexivity. Qed.

(** The lookup that follows an [append] of the row written for [new]. *)
Lemma lookup_appended (key : string) (new : Js.Obj) (s : Sheet) :
  lookupRows key s = None ->
  Js.get new "MobileNo" = Js.Str key ->
  Js.allChars Js.isDigit key = true -> Js.isEmpty key = false ->
  lookupRows key (s ++ [cellText <$> rowValues new]) =
  Some (mapRowToStudent (cellText <$> rowValues new) (length s + 2)).
Proof.
  intros Hl Hg Hd Hne.
  assert (Hk : normalizeMobileNumber (Js.Str key) = key).
  { rewrite normalizeMobileNumber_Str. by apply stripNonDigits_fixed. }
  apply lookupRows_found.
  - rewrite Hk. apply findIndex_snoc.
    + apply lookupRows_None in Hl. rewrite Hk in Hl. exact Hl.
    + by apply rowMatches_written.
  - rewrite lookup_app_r by lia. rewrite Nat.sub_diag. reflexivity.
Qed.

End Create.




(** C7: on a string, [normalizeMobileNumber] keeps exactly the digits, in
    their order; normalising twice is normalising once; and creating a
    student with MobileNo "98765 43210" stores "9876543210". *)
Theorem normalizeMobileNumber_strips :
  (forall s : string,
      normalizeMobileNumber (Js.Str s) =
      string_of_list_ascii
        (List.filter Js.isDigit (list_ascii_of_string s))) /\
  (forall s : string,
      normalizeMobileNumber (Js.Str (normalizeMobileNumber (Js.Str s))) =
      normalizeMobileNumber (Js.Str s)) /\
  (forall (clock : nat -> Z) (dateParse : string -> option Z),
      let w := postStudent (alone clock dateParse) sampleBody (start []) in
      statusOf w.1 = Some 201%nat /\
      storedField "9876543210" "MobileNo" (sheet w.2)
        = Some (Js.Str "9876543210")).
Proof.
  split; [|split].
  - intros s. rewrite normalizeMobileNumber_Str. apply stripNonDigits_filter.
  - intros s. apply normalizeMobileNumber_key.
  - intros clk parse w.
    assert (Hs : sequential (alone clk parse)) by (intros n s; reflexivity).
    destruct (create_run (alone clk parse) Hs sampleBody (start []) eq_refl
                eq_refl) as (Hout & Hsheet & _).
    subst w. rewrite Hout, Hsheet. split; [reflexivity|].
    change (sheet (start [])) with ([] : Sheet).
    set (new := created sampleBody _ _).
    assert (Hmob : Js.get new "MobileNo" = Js.Str "9876543210")
      by apply get_created.
    unfold storedField.
    rewrite (lookup_appended "9876543210" new [] eq_refl Hmob eq_refl eq_refl).
    cbn [fmap option_fmap option_map].
    rewrite (get_written new _ "MobileNo" 1) by reflexivity.
    rewrite (storedText_Str _ _ _ Hmob). reflexivity.
Qed.

Section Lookup.

Lemma isDigit_not_space (c : ascii) : Js.isSpace c = true -> Js.isDigit c = false.
Proof.
  intros Hs. destruct (Js.isDigit c) eqn:Hd; [|reflexivity].
  rewrite (digit_not_space _ Hd) in Hs. discriminate.
Qed.

Lemma stripNonDigits_trimStart (s : string) :
  Js.stripNonDigits (Js.trimStart s) = Js.stripNonDigits s.
Proof.
  induction s as [|c r IH]; [reflexivity|].
  cbn [Js.trimStart]. destruct (Js.isSpace c) eqn:Hs; [|reflexivity].
  rewrite IH. cbn [Js.stripNonDigits]. rewrite (isDigit_not_space _ Hs).
  reflexivity.
Qed.

Lemma stripNonDigits_trimEnd (s : string) :
  Js.stripNonDigits (Js.trimEnd s) = Js.stripNonDigits s.
Proof.
  induction s as [|c r IH]; [reflexivity|].
  cbn [Js.trimEnd].
  destruct (Js.isSpace c && Js.isEmpty (Js.trimEnd r)) eqn:E.
  - apply andb_true_iff in E as [Hs He]. apply isEmpty_true in He.
    rewrite He in IH. cbn [Js.stripNonDigits].
    rewrite (isDigit_not_space _ Hs). exact IH.
  - cbn [Js.stripNonDigits]. rewrite IH. reflexivity.
Qed.

(** White space around a number does not change its normal form. *)
Lemma stripNonDigits_trim (s : string) :
  Js.stripNonDigits (Js.trim s) = Js.stripNonDigits s.
Proof.
  unfold Js.trim. rewrite stripNonDigits_trimStart. apply stripNonDigits_trimEnd.
Qed.

Lemma findIndex_never {A} (p : A -> bool) (l : list A) :
  (forall x, p x = false) -> findIndex p l = None.
Proof.
  intros Hp. induction l as [|x r IH]; [reflexivity|].
  cbn [findIndex]. rewrite Hp, IH. reflexivity.
Qed.

(** No row matches a search key without digits. *)
Lemma lookupRows_digitless (mobileNo : string) (s : Sheet) :
  Js.stripNonDigits mobileNo = "" -> lookupRows mobileNo s = None.
Proof.
  intros Hd. unfold lookupRows. destruct s as [|r0 rest]; [reflexivity|].
  rewrite normalizeMobileNumber_Str, Hd.
  rewrite findIndex_never; [reflexivity|].
  intros row. destruct (rowMatches "" row) eqn:E; [|reflexivity].
  apply rowMatches_nonempty in E. discriminate.
Qed.

End Lookup.

(** C9 does not hold of the code: [GET /student] refuses only an absent,
    empty or blank [mobileNo]; a query that is not blank and has no digit
    (such as "abc") is looked up, matches no row, and is answered 404 with
    [found: false], where both [POST] handlers answer 400 "Invalid mobile
    number." *)
Theorem lookup_digitless_not_found (env : Env) (w : World) (mobileNo : string) :
  Js.isEmpty (Js.trim mobileNo) = false ->
  normalizeMobileNumber (Js.Str mobileNo) = "" ->
  let result := getStudent env (Some mobileNo) w in
  result.1 = Ok {| status := 404; body := BodyNotFound |} /\
  log result.2 = (log w ++ [ValuesGet])%list.
Proof.
  intros Hb Hd result. subst result. unfold getStudent.
  assert (Hne : Js.isEmpty mobileNo = false).
  { destruct mobileNo; [discriminate Hb | reflexivity]. }
  rewrite Hne, Hb. cbn [orb]. unfold tryCatch.
  rewrite bind_run, findStudentByMobile_run. cbv zeta.
  rewrite lookupRows_digitless.
  - split; reflexivity.
  - rewrite stripNonDigits_trim, <- normalizeMobileNumber_Str. exact Hd.
Qed.

Lemma lookup_digitless_not_found_witness :
  Js.isEmpty (Js.trim "abc") = false /\
  normalizeMobileNumber (Js.Str "abc") = "" /\
  (getStudent sampleEnv (Some "abc") (start [plainRow])).1
    = Ok {| status := 404; body := BodyNotFound |}.
Proof.
  split; [reflexivity|]. split; [reflexivity|].
  exact (proj1 (lookup_digitless_not_found sampleEnv (start [plainRow]) "abc"
                  eq_refl eq_refl)).
Defined.

Section Cooldown.

Local Open Scope Z_scope.

Lemma ceilDiv_bounds (a b : Z) :
  0 < b -> (ceilDiv a b - 1) * b < a <= ceilDiv a b * b.
Proof.
  intros Hb. unfold ceilDiv.
  pose proof (Z.div_mod (- a) b ltac:(lia)) as Hdm.
  pose proof (Z.mod_pos_bound (- a) b Hb) as Hm.
  nia.
Qed.

Lemma ceilDiv_range (a b n : Z) :
  0 < b -> 0 < a <= n * b -> 1 <= ceilDiv a b <= n.
Proof.
  intros Hb Ha. pose proof (ceilDiv_bounds a b Hb). nia.
Qed.

End Cooldown.

(** C3: for every [POST /student/update] call that sets [RetakeAllowed] to
    Yes on a record whose [LastApprovedAt] parses to an instant less than
    12 hours before the clock's reading, the answer is 409 with
    [remainingHours] the remaining time in hours rounded up, between 1 and
    12; the handler makes its one read of the sheet and no write, so the
    sheet is as it was read. *)
Theorem retake_within_cooldown (env : Env) (mobileNo : Js.Value)
    (updates student : Js.Obj) (w : World) (lastApprovedAt : Z) :
  let key := normalizeMobileNumber mobileNo in
  let s1 := others env (trips w) (sheet w) in
  let elapsed := (clock env (reads w) - lastApprovedAt)%Z in
  lookupRows key s1 = Some student ->
  normalizeYesNo (Js.get updates "RetakeAllowed") = "Yes" ->
  parseIsoDate env (Js.get student "LastApprovedAt") = Some lastApprovedAt ->
  (0 <= elapsed < TWELVE_HOURS_MS)%Z ->
  let result := postStudentUpdate env mobileNo (Some updates) w in
  exists remainingHours,
    result.1 = Ok {| status := 409; body := BodyCooldown remainingHours |} /\
    ((remainingHours - 1) * 3600000 < TWELVE_HOURS_MS - elapsed
       <= remainingHours * 3600000)%Z /\
    (1 <= remainingHours <= 12)%Z /\
    log result.2 = (log w ++ [ValuesGet])%list /\
    sheet result.2 = s1.
Proof.
  intros key s1 elapsed Hl Hyes Hparse Hel result.
  assert (Hk : Js.isEmpty key = false) by (eapply lookupRows_nonempty; eauto).
  subst result.
  rewrite (postStudentUpdate_found env mobileNo updates student w Hl Hk).
  cbv zeta. rewrite cooldown_run, retakeOf_spec, Hyes, Hparse.
  cbn [String.eqb Ascii.eqb Bool.eqb reads tripped].
  fold elapsed.
  destruct (Z.ltb_spec elapsed TWELVE_HOURS_MS) as [Hlt|Hge]; [|lia].
  exists (ceilDiv (TWELVE_HOURS_MS - elapsed) 3600000).
  split; [reflexivity|]. split; [apply ceilDiv_bounds; lia|].
  split; [|split; reflexivity].
  apply ceilDiv_range; [lia|]. unfold TWELVE_HOURS_MS in *. lia.
Qed.

Lemma retake_within_cooldown_witness :
  lookupRows "9876543210" [plainRow] = Some (mapRowToStudent plainRow 2) /\
  normalizeYesNo (Js.Bool true) = "Yes" /\
  (0 <= 1704436200000 - 1704429000000 < TWELVE_HOURS_MS)%Z /\
  exists remainingHours,
    (postStudentUpdate sampleEnv (Js.Str "9876543210")
       (Some {[ "RetakeAllowed" := Js.Bool true ]}) (start [plainRow])).1
      = Ok {| status := 409; body := BodyCooldown remainingHours |} /\
    (1 <= remainingHours <= 12)%Z.
Proof.
  assert (Hl : lookupRows (normalizeMobileNumber (Js.Str "9876543210"))
                 (others sampleEnv (trips (start [plainRow]))
                    (sheet (start [plainRow])))
               = Some (mapRowToStudent plainRow 2)) by reflexivity.
  assert (Hel : (0 <= clock sampleEnv (reads (start [plainRow]))
                      - 1704429000000 < TWELVE_HOURS_MS)%Z)
    by (vm_compute; split; [discriminate | reflexivity]).
  assert (Hyes : normalizeYesNo
                   (Js.get {[ "RetakeAllowed" := Js.Bool true ]}
                      "RetakeAllowed") = "Yes")
    by (vm_compute; reflexivity).
  assert (Hparse : parseIsoDate sampleEnv
                     (Js.get (mapRowToStudent plainRow 2) "LastApprovedAt")
                   = Some 1704429000000%Z)
    by (vm_compute; reflexivity).
  split; [exact Hl|]. split; [reflexivity|]. split; [exact Hel|].
  destruct (retake_within_cooldown sampleEnv (Js.Str "9876543210")
              {[ "RetakeAllowed" := Js.Bool true ]}
              (mapRowToStudent plainRow 2) (start [plainRow]) 1704429000000
              Hl Hyes Hparse Hel)
    as (h & H1 & _ & H3 & _).
  exists h. split; assumption.
Defined.

Section Update.

Variable env : Env.
Hypothesis Hseq : sequential env.

(** The cooldown check reads the clock at most once and leaves the sheet
    and the log alone. *)
Lemma cooldown_world (retake : bool) (student : Js.Obj) (w : World) :
  exists refused,
    (cooldown env retake student w).1 = Ok refused /\
    sheet (cooldown env retake student w).2 = sheet w /\
    trips (cooldown env retake student w).2 = trips w /\
    log (cooldown env retake student w).2 = log w /\
    (reads w <= reads (cooldown env retake student w).2 <= S (reads w))%nat.
Proof.
  rewrite cooldown_run.
  destruct retake; [destruct (parseIsoDate _ _)|]; cbv zeta; eexists;
    cbn [fst snd sheet trips log reads ticked];
    (repeat split; [reflexivity..|lia|lia]).
Qed.

(** The lookup that follows the rewriting of the row found for [key]. *)
Lemma lookup_rewritten (key : string) (student : Js.Obj) (s : Sheet) i row :
  findIndex (rowMatches key) s = Some i -> s !! i = Some row ->
  Js.get student "MobileNo" = Js.Str key ->
  Js.allChars Js.isDigit key = true -> Js.isEmpty key = false ->
  lookupRows key (<[i := cellText <$> rowValues student]> s) =
  Some (mapRowToStudent (cellText <$> rowValues student) (i + 2)).
Proof.
  intros Hi Hrow Hg Hd Hne.
  assert (Hk : normalizeMobileNumber (Js.Str key) = key).
  { rewrite normalizeMobileNumber_Str. by apply stripNonDigits_fixed. }
  apply lookupRows_found.
  - rewrite Hk. apply findIndex_insert; [exact Hi|].
    by apply rowMatches_written.
  - apply list_lookup_insert_eq. eapply lookup_lt_Some; eauto.
Qed.

(** [POST /student/update], without other clients, on a record that the
    lookup finds and the cooldown check lets through. *)
Lemma update_accepted mobileNo updates student w w2 :
  let key := normalizeMobileNumber mobileNo in
  lookupRows key (sheet w) = Some student ->
  cooldown env (retakeOf updates) student (tripped ValuesGet (sheet w) w)
    = (Ok None, w2) ->
  let refresh := retakeOf updates || approvalOf updates student in
  let stamp :=
    if refresh then Some (istTimestamp (clock env (reads w2))) else None in
  let updated := updatedStudentOf key updates student stamp in
  let newRow := cellText <$> rowValues updated in
  exists i row,
    findIndex (rowMatches key) (sheet w) = Some i /\
    sheet w !! i = Some row /\
    student = mapRowToStudent row (i + 2) /\
    postStudentUpdate env mobileNo (Some updates) w =
    (Ok {| status := 200; body := BodyStudent updated |},
     tripped
       (ValuesUpdate (buildUpdateRange (Js.get student "rowNumber"))
          (rowValues updated))
       (<[i := newRow]> (sheet w))
       (if refresh then ticked w2 else w2)) /\
    lookupRows key (<[i := newRow]> (sheet w)) =
    Some (mapRowToStudent newRow (i + 2)).
Proof.
  intros key Hl Hc refresh stamp updated newRow.
  destruct (lookupRows_inv _ _ _ Hl) as (i & row & Hi & Hrow & _ & He).
  unfold key in Hi. rewrite normalizeMobileNumber_key in Hi. fold key in Hi.
  assert (Hk : Js.isEmpty key = false) by (eapply lookupRows_nonempty; eauto).
  exists i, row. split; [exact Hi|]. split; [exact Hrow|]. split; [exact He|].
  split.
  - assert (Hl' : lookupRows key (others env (trips w) (sheet w)) = Some student)
      by (rewrite Hseq; exact Hl).
    rewrite (postStudentUpdate_found env mobileNo updates student w Hl' Hk).
    cbv zeta. rewrite !Hseq. rewrite Hc. cbv beta iota.
    assert (Hw2 : sheet w2 = sheet w).
    { destruct (cooldown_world (retakeOf updates) student
                  (tripped ValuesGet (sheet w) w)) as (r & _ & Hs & _).
      rewrite Hc in Hs. exact Hs. }
    fold key refresh. fold stamp. fold updated.
    destruct refresh; rewrite Hseq; cbn [sheet ticked]; rewrite Hw2;
      rewrite (applyUpdate_found i _ _ row student He Hrow); reflexivity.
  - apply (lookup_rewritten key updated (sheet w) i row Hi Hrow).
    + apply get_updated_MobileNo.
    + apply normalizeMobileNumber_digits.
    + exact Hk.
Qed.

(** The cooldown check lets a retake through when the last approval does
    not parse or is at least twelve hours old. *)
Lemma cooldown_over (student : Js.Obj) (w : World) :
  parseIsoDate env (Js.get student "LastApprovedAt") = None
  \/ (exists t, parseIsoDate env (Js.get student "LastApprovedAt") = Some t
                /\ (TWELVE_HOURS_MS <= clock env (reads w) - t)%Z) ->
  exists w2,
    cooldown env true student w = (Ok None, w2) /\
    (reads w <= reads w2)%nat.
Proof.
  rewrite cooldown_run. intros [->|(t & -> & Ht)].
  - exists w. split; [reflexivity | lia].
  - cbv zeta. destruct (Z.ltb_spec (clock env (reads w) - t) TWELVE_HOURS_MS);
      [lia|].
    exists (ticked w). split; [reflexivity | cbn; lia].
Qed.

End Update.

(** C4: for every [POST /student/update] call, under sequential access,
    that sets [RetakeAllowed] to Yes on a record whose [LastApprovedAt] is
    absent (or does not parse) or lies at least 12 hours before the clock's
    reading, the answer is 200; the row is rewritten in place; the stored
    record's [RetakeAllowed] is "Yes" and its [LastApprovedAt] is the
    current time: the ISO 8601 notation, at the offset +05:30, of the
    reading of the clock that the handler makes last, during the call. *)
Theorem retake_after_cooldown (env : Env) (mobileNo : Js.Value)
    (updates student : Js.Obj) (w : World) :
  sequential env ->
  let key := normalizeMobileNumber mobileNo in
  lookupRows key (sheet w) = Some student ->
  normalizeYesNo (Js.get updates "RetakeAllowed") = "Yes" ->
  parseIsoDate env (Js.get student "LastApprovedAt") = None
  \/ (exists t, parseIsoDate env (Js.get student "LastApprovedAt") = Some t
                /\ (TWELVE_HOURS_MS <= clock env (reads w) - t)%Z) ->
  let result := postStudentUpdate env mobileNo (Some updates) w in
  exists updated after n,
    result.1 = Ok {| status := 200; body := BodyStudent updated |} /\
    (reads w <= n)%nat /\ reads result.2 = S n /\
    length (sheet result.2) = length (sheet w) /\
    Js.get updated "RetakeAllowed" = Js.Str "Yes" /\
    Js.get updated "LastApprovedAt" = Js.Str (istTimestamp (clock env n)) /\
    lookupRows key (sheet result.2) = Some after /\
    Js.get after "rowNumber" = Js.get student "rowNumber" /\
    Js.get after "RetakeAllowed" = Js.Str "Yes" /\
    Js.get after "LastApprovedAt" = Js.Str (istTimestamp (clock env n)) /\
    isTimestampOf (istTimestamp (clock env n)) (clock env n).
Proof.
  intros Hseq key Hl Hyes Hover result.
  assert (Hretake : retakeOf updates = true).
  { rewrite retakeOf_spec, Hyes. reflexivity. }
  destruct (cooldown_over env student (tripped ValuesGet (sheet w) w) Hover)
    as (w2 & Hc & Hreads).
  rewrite <- Hretake in Hc.
  destruct (update_accepted env Hseq mobileNo updates student w w2 Hl Hc)
    as (i & row & Hi & Hrow & He & Hrun & Hafter).
  rewrite Hretake in Hrun, Hafter. cbn [orb] in Hrun, Hafter.
  set (stamp := Some (istTimestamp (clock env (reads w2)))) in *.
  set (updated := updatedStudentOf (normalizeMobileNumber mobileNo) updates
                    student stamp) in *.
  assert (Hra : Js.get updated "RetakeAllowed" = Js.Str "Yes").
  { unfold updated. rewrite get_updated_other by congruence.
    pose proof (yesNo_flag updates "RetakeAllowed" ltac:(auto)) as Hf.
    rewrite Hyes in Hf. apply andb_true_iff in Hf as [_ Hf].
    unfold Js.strictEq in Hf. apply bool_decide_eq_true in Hf.
    unfold Js.get in Hf.
    destruct (normalizedUpdatesOf updates !! "RetakeAllowed") as [v|];
      [exact Hf | discriminate Hf]. }
  assert (Hla : Js.get updated "LastApprovedAt"
                = Js.Str (istTimestamp (clock env (reads w2))))
    by (apply get_updated_stamped; reflexivity).
  exists updated,
    (mapRowToStudent (cellText <$> rowValues updated) (i + 2)), (reads w2).
  subst result. rewrite Hrun. cbn [fst snd sheet reads tripped ticked] in *.
  split; [reflexivity|]. split; [exact Hreads|]. split; [reflexivity|].
  split; [apply length_insert|]. split; [exact Hra|]. split; [exact Hla|].
  split; [exact Hafter|].
  split; [rewrite He, !get_rowNumber; reflexivity|].
  split; [|split].
  - rewrite (get_written updated _ "RetakeAllowed" 7) by reflexivity.
    rewrite (storedText_Str _ _ _ Hra). reflexivity.
  - rewrite (get_written updated _ "LastApprovedAt" 8) by reflexivity.
    rewrite (storedText_Str _ _ _ Hla), trim_istTimestamp. reflexivity.
  - apply istTimestamp_says.
Qed.

Lemma retake_after_cooldown_witness :
  sequential sampleEnv /\
  lookupRows "9876543210" [registeredRow]
    = Some (mapRowToStudent registeredRow 2) /\
  normalizeYesNo (Js.Str "Yes") = "Yes" /\
  parseIsoDate sampleEnv (Js.Str "") = None /\
  exists updated after n,
    (postStudentUpdate sampleEnv (Js.Str "9876543210")
       (Some {[ "RetakeAllowed" := Js.Str "Yes" ]}) (start [registeredRow])).1
      = Ok {| status := 200; body := BodyStudent updated |} /\
    lookupRows "9876543210"
      (sheet (postStudentUpdate sampleEnv (Js.Str "9876543210")
                (Some {[ "RetakeAllowed" := Js.Str "Yes" ]})
                (start [registeredRow])).2) = Some after /\
    Js.get after "RetakeAllowed" = Js.Str "Yes" /\
    Js.get after "LastApprovedAt" = Js.Str "2024-01-05T12:00:00.000+05:30" /\
    isTimestampOf "2024-01-05T12:00:00.000+05:30" (clock sampleEnv n).
Proof.
  assert (Hs : sequential sampleEnv) by (intros n s; reflexivity).
  assert (Hl : lookupRows (normalizeMobileNumber (Js.Str "9876543210"))
                 (sheet (start [registeredRow]))
               = Some (mapRowToStudent registeredRow 2)) by reflexivity.
  assert (Hyes : normalizeYesNo
                   (Js.get {[ "RetakeAllowed" := Js.Str "Yes" ]}
                      "RetakeAllowed") = "Yes")
    by (vm_compute; reflexivity).
  assert (Hp : parseIsoDate sampleEnv
                 (Js.get (mapRowToStudent registeredRow 2) "LastApprovedAt")
               = None) by (vm_compute; reflexivity).
  split; [exact Hs|]. split; [exact Hl|]. split; [reflexivity|].
  split; [reflexivity|].
  destruct (retake_after_cooldown sampleEnv (Js.Str "9876543210")
              {[ "RetakeAllowed" := Js.Str "Yes" ]}
              (mapRowToStudent registeredRow 2) (start [registeredRow])
              Hs Hl Hyes (or_introl Hp))
    as (updated & after & n & H1 & _ & _ & _ & _ & _ & H7 & _ & H9 & H10
        & H11).
  assert (Hstamp : istTimestamp (clock sampleEnv n)
                   = "2024-01-05T12:00:00.000+05:30")
    by (vm_compute; reflexivity).
  rewrite Hstamp in H10, H11.
  exists updated, after, n.
  split; [exact H1|]. split; [exact H7|]. split; [exact H9|].
  split; [exact H10 | exact H11].
Defined.

(** C2: the code breaks the claim where a [CreatedAt] cell carries
    surrounding white space.  For every [POST /student/update] call on an
    existing record, under sequential access, whatever the updates hold:
    either the call is refused with 409 and the sheet is untouched, or it
    is answered 200, the row found is rewritten in place and the
    [CreatedAt] of the answer is the one of the record found, a
    [CreatedAt] of the updates being dropped, as the claim says.  But the
    [CreatedAt] that is stored is that text (the empty string if the row
    has no such cell) passed through [trim]: it is the [CreatedAt] of the
    record found if and only if that text has no surrounding white
    space. *)
Theorem update_createdAt_trimmed (env : Env) (mobileNo : Js.Value)
    (updates student : Js.Obj) (w : World) :
  sequential env ->
  let key := normalizeMobileNumber mobileNo in
  lookupRows key (sheet w) = Some student ->
  let result := postStudentUpdate env mobileNo (Some updates) w in
  exists i row,
    sheet w !! i = Some row /\
    student = mapRowToStudent row (i + 2) /\
    Js.get student "CreatedAt" = Js.Str (default "" (row !! 11%nat)) /\
    ((exists remainingHours,
         result.1 = Ok {| status := 409; body := BodyCooldown remainingHours |}
         /\ sheet result.2 = sheet w)
     \/
     (exists updated after,
         result.1 = Ok {| status := 200; body := BodyStudent updated |} /\
         Js.get updated "CreatedAt" = Js.get student "CreatedAt" /\
         sheet result.2 = <[i := cellText <$> rowValues updated]> (sheet w) /\
         lookupRows key (sheet result.2) = Some after /\
         Js.get after "CreatedAt"
           = Js.Str (Js.trim (default "" (row !! 11%nat))) /\
         (Js.get after "CreatedAt" = Js.get student "CreatedAt" <->
          Js.trim (default "" (row !! 11%nat)) = default "" (row !! 11%nat)))).
Proof.
  intros Hseq key Hl result.
  destruct (lookupRows_inv _ _ _ Hl) as (i & row & _ & Hrow & _ & He).
  assert (Hcreated : Js.get student "CreatedAt"
                     = Js.Str (default "" (row !! 11%nat))).
  { rewrite He. apply (get_mapRow row (i + 2) "CreatedAt" 11); reflexivity. }
  exists i, row. split; [exact Hrow|]. split; [exact He|].
  split; [exact Hcreated|].
  assert (Hk : Js.isEmpty key = false) by (eapply lookupRows_nonempty; eauto).
  destruct (cooldown_world env (retakeOf updates) student
              (tripped ValuesGet (sheet w) w)) as (refused & Hr & Hs & _).
  destruct (cooldown env (retakeOf updates) student
              (tripped ValuesGet (sheet w) w)) as [o w2] eqn:Hc.
  cbn [fst snd] in Hr, Hs. subst o.
  destruct refused as [h|].
  - left. exists h. subst result.
    assert (Hl' : lookupRows key (others env (trips w) (sheet w)) = Some student)
      by (rewrite Hseq; exact Hl).
    rewrite (postStudentUpdate_found env mobileNo updates student w Hl' Hk).
    cbv zeta. rewrite Hseq, Hc. split; [reflexivity | exact Hs].
  - right.
    destruct (update_accepted env Hseq mobileNo updates student w w2 Hl Hc)
      as (i' & row' & _ & Hrow' & He' & Hrun & Hafter).
    assert (i' = i /\ row' = row) as [-> ->].
    { rewrite He in He'. rewrite !mapRowToStudent_eq in He'.
      assert (Hn : Js.get (mapRowToStudent row (i + 2)) "rowNumber"
                   = Js.get (mapRowToStudent row' (i' + 2)) "rowNumber")
        by (rewrite !mapRowToStudent_eq, He'; reflexivity).
      rewrite !get_rowNumber in Hn. injection Hn as Hn.
      assert (i' = i) as -> by lia. split; [reflexivity|]. congruence. }
    set (updated := updatedStudentOf _ _ _ _) in *.
    assert (Hu : Js.get updated "CreatedAt" = Js.get student "CreatedAt").
    { unfold updated. rewrite get_updated_CreatedAt, Hcreated. reflexivity. }
    assert (Hstored :
              Js.get (mapRowToStudent (cellText <$> rowValues updated) (i + 2))
                "CreatedAt"
              = Js.Str (Js.trim (default "" (row !! 11%nat)))).
    { rewrite (get_written updated _ "CreatedAt" 11) by reflexivity.
      rewrite Hcreated in Hu. rewrite (storedText_Str _ _ _ Hu).
      reflexivity. }
    exists updated, (mapRowToStudent (cellText <$> rowValues updated) (i + 2)).
    subst result. rewrite Hrun. cbn [fst snd sheet tripped].
    split; [reflexivity|]. split; [exact Hu|]. split; [reflexivity|].
    split; [exact Hafter|]. split; [exact Hstored|].
    rewrite Hstored, Hcreated. split; [intros [= H]; exact H|].
    intros ->. reflexivity.
Qed.

Lemma update_createdAt_trimmed_witness :
  let result :=
    postStudentUpdate sampleEnv (Js.Str "9876543210")
      (Some {[ "Paid" := Js.Str "Yes" ]}) (start [paddedRow]) in
  sequential sampleEnv /\
  lookupRows "9876543210" [paddedRow] = Some (mapRowToStudent paddedRow 2) /\
  Js.get (mapRowToStudent paddedRow 2) "CreatedAt"
    = Js.Str " 2024-01-05T10:00:00.000+05:30" /\
  statusOf result.1 = Some 200%nat /\
  exists after,
    lookupRows "9876543210" (sheet result.2) = Some after /\
    Js.get after "CreatedAt" = Js.Str "2024-01-05T10:00:00.000+05:30" /\
    Js.get after "CreatedAt"
      <> Js.get (mapRowToStudent paddedRow 2) "CreatedAt".
Proof.
  intros result.
  assert (Hs : sequential sampleEnv) by (intros n s; reflexivity).
  assert (Hl : lookupRows (normalizeMobileNumber (Js.Str "9876543210"))
                 (sheet (start [paddedRow]))
               = Some (mapRowToStudent paddedRow 2)) by reflexivity.
  assert (Hc : Js.get (mapRowToStudent paddedRow 2) "CreatedAt"
               = Js.Str " 2024-01-05T10:00:00.000+05:30")
    by (apply (get_mapRow paddedRow 2 "CreatedAt" 11); reflexivity).
  assert (Hst : statusOf result.1 = Some 200%nat) by (vm_compute; reflexivity).
  split; [exact Hs|]. split; [exact Hl|]. split; [exact Hc|].
  split; [exact Hst|].
  destruct (update_createdAt_trimmed sampleEnv (Js.Str "9876543210")
              {[ "Paid" := Js.Str "Yes" ]}
              (mapRowToStudent paddedRow 2) (start [paddedRow]) Hs Hl)
    as (i & row & Hrow & He & _
        & [(h & H1 & _)|(u & after & _ & _ & _ & H4 & H5 & H6)]).
  - exfalso. fold result in H1. rewrite H1 in Hst. discriminate Hst.
  - assert (Hn : Js.get (mapRowToStudent paddedRow 2) "rowNumber"
                 = Js.get (mapRowToStudent row (i + 2)) "rowNumber")
      by (rewrite He; reflexivity).
    rewrite !get_rowNumber in Hn. injection Hn as Hn.
    assert (i = 0%nat) as -> by lia.
    change (Some paddedRow = Some row) in Hrow. injection Hrow as <-.
    exists after. split; [exact H4|]. split; [exact H5|].
    intros Heq. apply H6 in Heq. discriminate Heq.
Defined.

(** C5, as the specification words it, fails where the updates carry a
    [LastApprovedAt] of their own: an update that sets [Attempted] on a
    record already attempted, so that nothing is refreshed, and that
    carries such a key is accepted, and the value it carries is stored:
    the field is not left at its value before the update. *)
Lemma lastApprovedAt_counterexample :
  let updates : Js.Obj :=
    {[ "Attempted" := Js.Bool true;
       "LastApprovedAt" := Js.Str "2000-01-01T00:00:00.000+05:30" ]} in
  let result :=
    postStudentUpdate sampleEnv (Js.Str "9876543210") (Some updates)
      (start [plainRow]) in
  storedField "9876543210" "Attempted" [plainRow] = Some (Js.Str "Yes") /\
  refreshes updates (mapRowToStudent plainRow 2) = false /\
  statusOf result.1 = Some 200%nat /\
  storedField "9876543210" "LastApprovedAt" [plainRow]
    = Some (Js.Str "2024-01-05T10:00:00.000+05:30") /\
  storedField "9876543210" "LastApprovedAt" (sheet result.2)
    = Some (Js.Str "2000-01-01T00:00:00.000+05:30") /\
  storedField "9876543210" "LastApprovedAt" (sheet result.2)
    <> storedField "9876543210" "LastApprovedAt" [plainRow].
Proof.
  vm_compute. repeat split; discriminate.
Qed.

(** C5 (amended): for every accepted [POST /student/update] call, under
    sequential access: if the update asks for a retake, or sets
    [Attempted] to Yes on a record whose [Attempted] does not already
    normalise to Yes, the stored [LastApprovedAt] is the current time,
    whatever the updates carry: the ISO 8601 notation, at the offset
    +05:30, of the reading of the clock that the handler makes last,
    during the call.  Otherwise the clock is not read, and when the
    updates carry no [LastApprovedAt] of their own, the stored
    [LastApprovedAt] is the text found, for a text without surrounding
    white space. *)
Theorem lastApprovedAt_refresh (env : Env) (mobileNo : Js.Value)
    (updates student : Js.Obj) (w : World) :
  sequential env ->
  let key := normalizeMobileNumber mobileNo in
  lookupRows key (sheet w) = Some student ->
  let result := postStudentUpdate env mobileNo (Some updates) w in
  statusOf result.1 = Some 200%nat ->
  exists after previous,
    Js.get student "LastApprovedAt" = Js.Str previous /\
    lookupRows key (sheet result.2) = Some after /\
    if refreshes updates student then
      exists n, (reads w <= n)%nat /\ reads result.2 = S n /\
                Js.get after "LastApprovedAt"
                  = Js.Str (istTimestamp (clock env n)) /\
                isTimestampOf (istTimestamp (clock env n)) (clock env n)
    else
      reads result.2 = reads w /\
      (updates !! "LastApprovedAt" = None -> Js.trim previous = previous ->
       Js.get after "LastApprovedAt" = Js.Str previous).
Proof.
  intros Hseq key Hl result Hst.
  destruct (lookupRows_inv _ _ _ Hl) as (i & row & _ & Hrow & _ & He).
  assert (Hprev : Js.get student "LastApprovedAt"
                  = Js.Str (default "" (row !! 8%nat))).
  { rewrite He. apply (get_mapRow row (i + 2) "LastApprovedAt" 8); reflexivity. }
  assert (Hk : Js.isEmpty key = false) by (eapply lookupRows_nonempty; eauto).
  assert (Hl' : lookupRows key (others env (trips w) (sheet w)) = Some student)
    by (rewrite Hseq; exact Hl).
  destruct (cooldown_world env (retakeOf updates) student
              (tripped ValuesGet (sheet w) w)) as (refused & Hr & _ & _ & _ & Hrd).
  destruct (cooldown env (retakeOf updates) student
              (tripped ValuesGet (sheet w) w)) as [o w2] eqn:Hc.
  cbn [fst snd reads tripped] in Hr, Hrd. subst o.
  destruct refused as [h|].
  { exfalso. subst result.
    rewrite (postStudentUpdate_found env mobileNo updates student w Hl' Hk)
      in Hst.
    cbv zeta in Hst. rewrite Hseq, Hc in Hst. discriminate Hst. }
  destruct (update_accepted env Hseq mobileNo updates student w w2 Hl Hc)
    as (i' & row' & _ & _ & _ & Hrun & Hafter).
  assert (Hrefresh : refreshes updates student
                     = retakeOf updates || approvalOf updates student).
  { unfold refreshes. rewrite retakeOf_spec, approvalOf_spec. reflexivity. }
  rewrite <- Hrefresh in Hrun, Hafter.
  exists (mapRowToStudent
            (cellText <$>
               rowValues
                 (updatedStudentOf key updates student
                    (if refreshes updates student
                     then Some (istTimestamp (clock env (reads w2)))
                     else None))) (i' + 2)),
    (default "" (row !! 8%nat)).
  split; [exact Hprev|].
  subst result. rewrite Hrun. cbn [fst snd sheet reads tripped].
  split; [exact Hafter|].
  rewrite (get_written _ _ "LastApprovedAt" 8) by reflexivity.
  destruct (refreshes updates student) eqn:Hf.
  - exists (reads w2). cbn [reads ticked]. split; [lia|]. split; [reflexivity|].
    split; [|apply istTimestamp_says].
    rewrite (storedText_Str _ _ (istTimestamp (clock env (reads w2))));
      [rewrite trim_istTimestamp; reflexivity|].
    apply get_updated_stamped. reflexivity.
  - split.
    + (* no retake, so the cooldown check did not read the clock *)
      assert (Hret : retakeOf updates = false).
      { symmetry in Hrefresh. apply orb_false_iff in Hrefresh as [Hf' _].
        exact Hf'. }
      rewrite Hret, cooldown_run in Hc. injection Hc as <-. reflexivity.
    + intros Hu Htrim.
      rewrite (storedText_Str _ _ (default "" (row !! 8%nat)));
        [rewrite Htrim; reflexivity|].
      by apply get_updated_unstamped.
Qed.

Lemma lastApprovedAt_refresh_witness :
  let kept :=
    postStudentUpdate sampleEnv (Js.Str "9876543210")
      (Some {[ "Attempted" := Js.Bool true ]}) (start [plainRow]) in
  let refreshed :=
    postStudentUpdate sampleEnv (Js.Str "9876543210")
      (Some {[ "Attempted" := Js.Bool true ]}) (start [registeredRow]) in
  sequential sampleEnv /\
  lookupRows "9876543210" [plainRow] = Some (mapRowToStudent plainRow 2) /\
  statusOf kept.1 = Some 200%nat /\
  refreshes {[ "Attempted" := Js.Bool true ]} (mapRowToStudent plainRow 2)
    = false /\
  (exists after,
      lookupRows "9876543210" (sheet kept.2) = Some after /\
      Js.get after "LastApprovedAt" = Js.Str "2024-01-05T10:00:00.000+05:30") /\
  lookupRows "9876543210" [registeredRow]
    = Some (mapRowToStudent registeredRow 2) /\
  statusOf refreshed.1 = Some 200%nat /\
  refreshes {[ "Attempted" := Js.Bool true ]}
    (mapRowToStudent registeredRow 2) = true /\
  (exists after,
      lookupRows "9876543210" (sheet refreshed.2) = Some after /\
      Js.get after "LastApprovedAt" = Js.Str "2024-01-05T12:00:00.000+05:30" /\
      isTimestampOf "2024-01-05T12:00:00.000+05:30" 1704436200000).
Proof.
  intros kept refreshed.
  assert (Hs : sequential sampleEnv) by (intros n s; reflexivity).
  assert (Hl : lookupRows (normalizeMobileNumber (Js.Str "9876543210"))
                 (sheet (start [plainRow]))
               = Some (mapRowToStudent plainRow 2)) by reflexivity.
  assert (Hl' : lookupRows (normalizeMobileNumber (Js.Str "9876543210"))
                  (sheet (start [registeredRow]))
                = Some (mapRowToStudent registeredRow 2)) by reflexivity.
  assert (Hu : ({[ "Attempted" := Js.Bool true ]} : Js.Obj)
                 !! "LastApprovedAt" = None) by (vm_compute; reflexivity).
  assert (Hst : statusOf kept.1 = Some 200%nat) by (vm_compute; reflexivity).
  assert (Hst' : statusOf refreshed.1 = Some 200%nat)
    by (vm_compute; reflexivity).
  assert (Hf : refreshes {[ "Attempted" := Js.Bool true ]}
                 (mapRowToStudent plainRow 2) = false)
    by (vm_compute; reflexivity).
  assert (Hf' : refreshes {[ "Attempted" := Js.Bool true ]}
                  (mapRowToStudent registeredRow 2) = true)
    by (vm_compute; reflexivity).
  split; [exact Hs|]. split; [exact Hl|]. split; [exact Hst|].
  split; [exact Hf|]. split.
  { destruct (lastApprovedAt_refresh sampleEnv (Js.Str "9876543210")
                {[ "Attempted" := Js.Bool true ]}
                (mapRowToStudent plainRow 2) (start [plainRow]) Hs Hl Hst)
      as (after & previous & H1 & H2 & H3).
    rewrite Hf in H3. destruct H3 as [_ H3].
    rewrite (get_mapRow plainRow 2 "LastApprovedAt" 8) in H1 by reflexivity.
    change (cellOr plainRow 8) with (Js.Str "2024-01-05T10:00:00.000+05:30")
      in H1.
    injection H1 as <-.
    exists after. split; [exact H2|]. exact (H3 Hu eq_refl). }
  split; [exact Hl'|]. split; [exact Hst'|]. split; [exact Hf'|].
  destruct (lastApprovedAt_refresh sampleEnv (Js.Str "9876543210")
              {[ "Attempted" := Js.Bool true ]}
              (mapRowToStudent registeredRow 2) (start [registeredRow])
              Hs Hl' Hst')
    as (after & previous & _ & H2 & H3).
  rewrite Hf' in H3. destruct H3 as (n & _ & _ & H4 & H5).
  assert (Hstamp : istTimestamp (clock sampleEnv n)
                   = "2024-01-05T12:00:00.000+05:30")
    by (vm_compute; reflexivity).
  rewrite Hstamp in H4, H5.
  exists after. split; [exact H2|]. split; [exact H4 | exact H5].
Defined.

(** C8, as the specification words it, fails at the last re-check: when
    the record appears just before it, the handler appends nothing and
    updates nothing, and answers 500. *)
Lemma recheck_counterexample :
  let w := postStudent lateWriter sampleBody (start []) in
  statusOf w.1 = Some 500%nat /\ isUpdated w.1 = false /\
  log w.2 = [ValuesGet; ValuesGet; ValuesGet; ValuesGet] /\
  sheet w.2 = [plainRow].
Proof.
  vm_compute. repeat split.
Qed.

(** C8 (amended): in a [POST /student] call with a valid body whose first
    lookup finds nothing, whatever other clients write in between: a
    record found by the second or by the third lookup is updated in place
    and the answer is 200 with [updated: true]; a record found by the
    fourth lookup makes the handler answer 500 without any write; in none
    of these branches is a row appended. *)
Theorem recheck_branches (env : Env) (req : StudentBody) (w : World) :
  validBody req = true ->
  let key := normalizeMobileNumber (MobileNo req) in
  let s1 := others env (trips w) (sheet w) in
  let s2 := others env (S (trips w)) s1 in
  let s3 := others env (S (S (trips w))) s2 in
  let s4 := others env (S (S (S (trips w)))) s3 in
  lookupRows key s1 = None ->
  let result := postStudent env req w in
  (forall found, lookupRows key s2 = Some found ->
     result.1 = Ok {| status := 200; body := BodyUpdated (upserted req found) |}
     /\ log result.2 =
        (log w ++
         [ValuesGet; ValuesGet;
          ValuesUpdate (buildUpdateRange (Js.get found "rowNumber"))
            (rowValues (upserted req found))])%list)
  /\
  (lookupRows key s2 = None ->
   forall found, lookupRows key s3 = Some found ->
     result.1 = Ok {| status := 200; body := BodyUpdated (upserted req found) |}
     /\ log result.2 =
        (log w ++
         [ValuesGet; ValuesGet; ValuesGet;
          ValuesUpdate (buildUpdateRange (Js.get found "rowNumber"))
            (rowValues (upserted req found))])%list)
  /\
  (lookupRows key s2 = None -> lookupRows key s3 = None ->
   forall found, lookupRows key s4 = Some found ->
     result.1 =
       Ok {| status := 500; body := BodyError "Failed to add student" |}
     /\ log result.2 = (log w ++ [ValuesGet; ValuesGet; ValuesGet; ValuesGet])%list
     /\ sheet result.2 = s4).
Proof.
  intros Hv key s1 s2 s3 s4 H1 result.
  pose proof (validBody_inv _ Hv) as (_&Hns&_&Hds&_&Hss&_).
  subst result. rewrite (postStudent_first env req w Hv). cbv zeta.
  cbn [sheet trips reads tripped ticked].
  fold key. fold s1. rewrite H1. fold s2.
  split; [|split].
  - intros found H2. rewrite H2.
    rewrite updateExisting_run by assumption. cbv zeta.
    cbn [fst snd log tripped]. rewrite <- !app_assoc. split; reflexivity.
  - intros H2 found H3. rewrite H2. fold s3. rewrite H3.
    rewrite updateExisting_run by assumption. cbv zeta.
    cbn [fst snd log tripped ticked]. rewrite <- !app_assoc. split; reflexivity.
  - intros H2 H3 found H4. rewrite H2. fold s3. rewrite H3. fold s4. rewrite H4.
    cbn [fst snd log sheet tripped ticked]. rewrite <- !app_assoc.
    repeat split.
Qed.

Lemma recheck_branches_witness :
  validBody sampleBody = true /\
  lookupRows "9876543210" [] = None /\
  lookupRows "9876543210" [plainRow] = Some (mapRowToStudent plainRow 2) /\
  (postStudent lateWriter sampleBody (start [])).1
    = Ok {| status := 500; body := BodyError "Failed to add student" |}.
Proof.
  assert (Hv : validBody sampleBody = true) by reflexivity.
  assert (H1 : lookupRows (normalizeMobileNumber (MobileNo sampleBody))
                 (others lateWriter (trips (start [])) (sheet (start [])))
               = None) by reflexivity.
  split; [exact Hv|]. split; [exact H1|]. split; [reflexivity|].
  destruct (recheck_branches lateWriter sampleBody (start []) Hv H1)
    as (_ & _ & H).
  exact (proj1 (H eq_refl eq_refl (mapRowToStudent plainRow 2) eq_refl)).
Defined.

Section YesNo.

Lemma yesNo_normalizeYesNo (v : Js.Value) : yesNo (normalizeYesNo v).
Proof. apply normalizeYesNo_cases. Qed.

Lemma yesNo_trim (s : string) : yesNo s -> Js.trim s = s.
Proof. intros [-> | ->]; reflexivity. Qed.

Lemma normalizeYesNo_Yes (v : Js.Value) :
  normalizeYesNo v = "Yes" <->
  v = Js.Bool true
  \/ exists s, v = Js.Str s /\ Js.toLowerCase (Js.trim s) = "yes".
Proof.
  split.
  - destruct v as [| |[]| |s|]; cbn [normalizeYesNo]; try discriminate; auto.
    destruct (String.eqb_spec (Js.toLowerCase (Js.trim s)) "yes");
      [eauto | discriminate].
  - intros [-> | (s & -> & Hs)]; cbn [normalizeYesNo]; [reflexivity|].
    rewrite Hs. reflexivity.
Qed.

Lemma elem_of_insert_inv {A} (l : list A) (i : nat) (x y : A) :
  y ∈ <[i := x]> l -> y = x \/ y ∈ l.
Proof.
  revert i. induction l as [|z r IH]; intros i; [intros H; by right|].
  destruct i as [|i]; cbn [insert list_insert].
  - intros [->|H]%elem_of_cons; [by left | right; by apply elem_of_cons; right].
  - intros [->|H]%elem_of_cons; [right; by apply elem_of_cons; left|].
    destruct (IH i H) as [->|H']; [by left | right; by apply elem_of_cons; right].
Qed.

(** Cell [index] of the row written for an object. *)
Lemma cellAt_written (student : Js.Obj) (header : string) (index : nat) :
  HEADERS !! index = Some header -> namedHeader header = true ->
  cellAt (cellText <$> rowValues student) index = storedText student header.
Proof.
  intros Hh Hn. unfold cellAt. rewrite (written_cell _ _ _ Hh Hn). reflexivity.
Qed.

Lemma cellAt_mapRow (row : Row) (n : nat) (header : string) (index : nat) :
  HEADERS !! index = Some header -> namedHeader header = true ->
  Js.get (mapRowToStudent row n) header = Js.Str (cellAt row index).
Proof. intros Hh Hn. apply (get_mapRow _ _ _ _ Hh Hn). Qed.

Lemma yesNoColumns_headers (header : string) (k : nat) :
  (header, k) ∈ yesNoColumns ->
  HEADERS !! k = Some header /\ namedHeader header = true /\
  (header = "Paid" \/ header = "Attempted" \/ header = "RetakeAllowed").
Proof.
  unfold yesNoColumns. rewrite !elem_of_cons, elem_of_nil.
  intros [H|[H|[H|[]]]]; injection H as -> ->; repeat split; auto.
Qed.

Lemma lookup_normalizedUpdatesOf (updates : Js.Obj) (k : string) :
  k = "Paid" \/ k = "Attempted" \/ k = "RetakeAllowed" ->
  normalizedUpdatesOf updates !! k =
  if Js.isUndefined (Js.get updates k) then updates !! k
  else Some (Js.Str (normalizeYesNo (Js.get updates k))).
Proof.
  unfold normalizedUpdatesOf.
  intros [->|[->| ->]]; rewrite !lookup_normalizeField, !get_normalizeField;
    reflexivity.
Qed.

(** A Yes/No field of the object the update builds: normalised when the
    updates carry it, else the one of the record. *)
Lemma get_updated_yesNo key (updates student : Js.Obj) stamp header :
  jsonObject updates ->
  header = "Paid" \/ header = "Attempted" \/ header = "RetakeAllowed" ->
  Js.get (updatedStudentOf key updates student stamp) header =
  match updates !! header with
  | Some v => Js.Str (normalizeYesNo v)
  | None => Js.get student header
  end.
Proof.
  intros Hj Hh.
  rewrite get_updated_other by (destruct Hh as [->|[->| ->]]; congruence).
  rewrite (lookup_normalizedUpdatesOf _ _ Hh). unfold Js.get.
  destruct (updates !! header) as [v|] eqn:E; [|reflexivity].
  destruct v; try reflexivity. exfalso. by apply (Hj header).
Qed.

End YesNo.

(** C10, as the specification words it, fails where a value is carried
    over: an update of the [Paid] flag of a record whose row has no
    [Attempted] and no [RetakeAllowed] cell writes these two back blank. *)
Lemma yesNo_written_counterexample :
  let w :=
    postStudentUpdate sampleEnv (Js.Str "9876543210")
      (Some {[ "Paid" := Js.Str "Yes" ]}) (start [registeredRow]) in
  statusOf w.1 = Some 200%nat /\
  storedField "9876543210" "Paid" (sheet w.2) = Some (Js.Str "Yes") /\
  storedField "9876543210" "Attempted" (sheet w.2) = Some (Js.Str "") /\
  storedField "9876543210" "RetakeAllowed" (sheet w.2) = Some (Js.Str "") /\
  ~ yesNo "".
Proof.
  vm_compute. repeat split. intros [H|H]; discriminate H.
Qed.

(** C10 (amended): [normalizeYesNo] returns exactly "Yes" or "No", and
    "Yes" if and only if its argument is [true] or a string whose trimmed
    lower-case form is "yes"; "true", "TRUE", "1", numbers, [null] and
    [undefined] give "No".  Consequently, under sequential access, a
    [Paid], [Attempted] or [RetakeAllowed] value that comes from the
    request or is set at creation is written as exactly "Yes" or "No":
    the row that [POST /student] (valid body) appends holds the normalised
    [Paid] of the body, [Attempted] "Yes" and [RetakeAllowed] "No"; the
    row it writes over the row found holds the normalised [Paid] of the
    body; and the row that [POST /student/update] (JSON updates, existing
    record) writes over the row found holds, for each of the three fields
    that the updates carry, its normalised value.  A value that is carried
    over is the text of that cell in the row found, trimmed, whatever it
    was. *)
Theorem yesNo_fields :
  (forall v, yesNo (normalizeYesNo v)) /\
  (forall v,
      normalizeYesNo v = "Yes" <->
      v = Js.Bool true
      \/ exists s, v = Js.Str s /\ Js.toLowerCase (Js.trim s) = "yes") /\
  (normalizeYesNo (Js.Str "true") = "No" /\
   normalizeYesNo (Js.Str "TRUE") = "No" /\
   normalizeYesNo (Js.Str "1") = "No" /\
   (forall n, normalizeYesNo (Js.Number n) = "No") /\
   normalizeYesNo Js.Null = "No" /\ normalizeYesNo Js.Undefined = "No") /\
  (forall env req w,
      sequential env -> validBody req = true ->
      let key := normalizeMobileNumber (MobileNo req) in
      let result := postStudent env req w in
      match lookupRows key (sheet w) with
      | None =>
          exists r,
            sheet result.2 = (sheet w ++ [r])%list /\
            cellAt r 4 = normalizeYesNo (Paid req) /\
            cellAt r 6 = "Yes" /\ cellAt r 7 = "No"
      | Some _ =>
          exists i row r,
            findIndex (rowMatches key) (sheet w) = Some i /\
            sheet w !! i = Some row /\
            sheet result.2 = <[i := r]> (sheet w) /\
            cellAt r 4 = normalizeYesNo (Paid req) /\
            cellAt r 6 = Js.trim (cellAt row 6) /\
            cellAt r 7 = Js.trim (cellAt row 7)
      end) /\
  (forall env mobileNo updates student w,
      sequential env -> jsonObject updates ->
      let key := normalizeMobileNumber mobileNo in
      let result := postStudentUpdate env mobileNo (Some updates) w in
      lookupRows key (sheet w) = Some student ->
      (exists remainingHours,
          result.1 = Ok {| status := 409; body := BodyCooldown remainingHours |}
          /\ sheet result.2 = sheet w)
      \/ (exists i row r,
            findIndex (rowMatches key) (sheet w) = Some i /\
            sheet w !! i = Some row /\
            statusOf result.1 = Some 200%nat /\
            sheet result.2 = <[i := r]> (sheet w) /\
            forall header k, (header, k) ∈ yesNoColumns ->
              cellAt r k =
              match updates !! header with
              | Some v => normalizeYesNo v
              | None => Js.trim (cellAt row k)
              end)).
Proof.
  split; [exact yesNo_normalizeYesNo|]. split; [exact normalizeYesNo_Yes|].
  split; [repeat split|]. split.
  - intros env req w Hseq Hv key result.
    destruct (lookupRows key (sheet w)) as [existing|] eqn:Hl.
    + destruct (upsert_existing_run env Hseq req w existing Hv Hl)
        as (i & row & Hi & Hrow & He & Hrun).
      pose proof (get_upserted req existing) as (_ & _ & Hpaid & Hatt & Hret).
      exists i, row, (cellText <$> rowValues (upserted req existing)).
      split; [exact Hi|]. split; [exact Hrow|].
      split; [unfold result; rewrite Hrun; reflexivity|]. split; [|split].
      * rewrite (cellAt_written _ "Paid" 4) by reflexivity.
        rewrite (storedText_Str _ _ _ Hpaid).
        apply yesNo_trim, yesNo_normalizeYesNo.
      * rewrite (cellAt_written _ "Attempted" 6) by reflexivity.
        apply storedText_Str. rewrite Hatt, He.
        apply (cellAt_mapRow row _ "Attempted" 6); reflexivity.
      * rewrite (cellAt_written _ "RetakeAllowed" 7) by reflexivity.
        apply storedText_Str. rewrite Hret, He.
        apply (cellAt_mapRow row _ "RetakeAllowed" 7); reflexivity.
    + destruct (create_run env Hseq req w Hv Hl) as (_ & Hsheet & _).
      pose proof (get_created req (clock env (reads w))
                    (clock env (S (reads w))))
        as (_ & Hpaid & Hatt & Hret & _).
      eexists. split; [exact Hsheet|]. split; [|split].
      * rewrite (cellAt_written _ "Paid" 4) by reflexivity.
        rewrite (storedText_Str _ _ _ Hpaid).
        apply yesNo_trim, yesNo_normalizeYesNo.
      * rewrite (cellAt_written _ "Attempted" 6) by reflexivity.
        rewrite (storedText_Str _ _ _ Hatt). reflexivity.
      * rewrite (cellAt_written _ "RetakeAllowed" 7) by reflexivity.
        rewrite (storedText_Str _ _ _ Hret). reflexivity.
  - intros env mobileNo updates student w Hseq Hj key result Hl.
    assert (Hk : Js.isEmpty key = false) by (eapply lookupRows_nonempty; eauto).
    assert (Hl' : lookupRows key (others env (trips w) (sheet w)) = Some student)
      by (rewrite Hseq; exact Hl).
    destruct (cooldown_world env (retakeOf updates) student
                (tripped ValuesGet (sheet w) w)) as (refused & Hr & Hs & _).
    destruct (cooldown env (retakeOf updates) student
                (tripped ValuesGet (sheet w) w)) as [o w2] eqn:Hc.
    cbn [fst snd] in Hr, Hs. subst o.
    destruct refused as [h|].
    { left. exists h. unfold result.
      rewrite (postStudentUpdate_found env mobileNo updates student w Hl' Hk).
      cbv zeta. rewrite Hseq, Hc. split; [reflexivity | exact Hs]. }
    right.
    destruct (update_accepted env Hseq mobileNo updates student w w2 Hl Hc)
      as (i & row & Hi & Hrow & He & Hrun & _).
    fold key in Hi, Hrun.
    eexists i, row, _. split; [exact Hi|]. split; [exact Hrow|].
    split; [unfold result; rewrite Hrun; reflexivity|].
    split; [unfold result; rewrite Hrun; reflexivity|].
    intros header k Hcol.
    destruct (yesNoColumns_headers _ _ Hcol) as (Hh & Hn & Hthree).
    rewrite (cellAt_written _ header k Hh Hn).
    pose proof (get_updated_yesNo key updates student
                  (if retakeOf updates || approvalOf updates student
                   then Some (istTimestamp (clock env (reads w2))) else None)
                  header Hj Hthree) as Hg.
    destruct (updates !! header) as [v|] eqn:E.
    + rewrite (storedText_Str _ _ _ Hg).
      apply yesNo_trim, yesNo_normalizeYesNo.
    + apply storedText_Str. rewrite Hg, He.
      apply (cellAt_mapRow row _ header k Hh Hn).
Qed.

Lemma yesNo_fields_witness :
  let created := postStudent sampleEnv sampleBody (start []) in
  let updated :=
    postStudentUpdate sampleEnv (Js.Str "9876543210")
      (Some {[ "Paid" := Js.Str " yes " ]}) (start [registeredRow]) in
  (exists r,
      sheet created.2 = [r] /\
      cellAt r 4 = "Yes" /\ cellAt r 6 = "Yes" /\ cellAt r 7 = "No") /\
  (exists r,
      sheet updated.2 = [r] /\ statusOf updated.1 = Some 200%nat /\
      cellAt r 4 = "Yes" /\ cellAt r 6 = "" /\ cellAt r 7 = "").
Proof.
  intros created updated.
  assert (Hs : sequential sampleEnv) by (intros n s; reflexivity).
  assert (Hv : validBody sampleBody = true) by reflexivity.
  assert (Hj : jsonObject {[ "Paid" := Js.Str " yes " ]}).
  { intros k. destruct (decide (k = "Paid")) as [->|Hne].
    - rewrite lookup_singleton_eq. discriminate.
    - rewrite lookup_singleton_ne by congruence. discriminate. }
  assert (Hl : lookupRows (normalizeMobileNumber (Js.Str "9876543210"))
                 (sheet (start [registeredRow]))
               = Some (mapRowToStudent registeredRow 2)) by reflexivity.
  destruct yesNo_fields as (_ & _ & _ & Hpost & Hupdate).
  split.
  - pose proof (Hpost sampleEnv sampleBody (start []) Hs Hv) as H.
    cbv zeta in H.
    change (lookupRows (normalizeMobileNumber (MobileNo sampleBody))
              (sheet (start []))) with (@None Js.Obj) in H.
    destruct H as (r & H1 & H2 & H3 & H4).
    exists r. split; [exact H1|]. split; [exact H2|]. split; assumption.
  - destruct (Hupdate sampleEnv (Js.Str "9876543210")
                {[ "Paid" := Js.Str " yes " ]}
                (mapRowToStudent registeredRow 2) (start [registeredRow])
                Hs Hj Hl)
      as [(h & H1 & _)|(i & row & r & Hi & Hrow & Hst & Hsheet & Hcells)].
    + exfalso.
      assert (Hst : statusOf updated.1 = Some 200%nat)
        by (vm_compute; reflexivity).
      unfold updated in Hst. rewrite H1 in Hst. discriminate Hst.
    + change (Some 0%nat = Some i) in Hi. injection Hi as <-.
      change (Some registeredRow = Some row) in Hrow. injection Hrow as <-.
      exists r. split; [exact Hsheet|]. split; [exact Hst|].
      assert (H4 := Hcells "Paid" 4%nat
                      ltac:(apply elem_of_cons; left; reflexivity)).
      assert (H6 := Hcells "Attempted" 6%nat
                      ltac:(apply elem_of_cons; right;
                            apply elem_of_cons; left; reflexivity)).
      assert (H7 := Hcells "RetakeAllowed" 7%nat
                      ltac:(apply elem_of_cons; right;
                            apply elem_of_cons; right;
                            apply elem_of_cons; left; reflexivity)).
      split; [|split].
      * rewrite H4. vm_compute. reflexivity.
      * rewrite H6. vm_compute. reflexivity.
      * rewrite H7. vm_compute. reflexivity.
Defined.

(** ** Further properties of the helpers *)

Section RowNormalForm.

Lemma trimEnd_idem (s : string) : Js.trimEnd (Js.trimEnd s) = Js.trimEnd s.
Proof.
  induction s as [|c r IH]; [reflexivity|].
  cbn [Js.trimEnd].
  destruct (Js.isSpace c && Js.isEmpty (Js.trimEnd r)) eqn:E; [reflexivity|].
  cbn [Js.trimEnd]. rewrite IH, E. reflexivity.
Qed.

Lemma trimEnd_tail (c : ascii) (r : string) :
  Js.trimEnd (String c r) = String c r -> Js.trimEnd r = r.
Proof.
  cbn [Js.trimEnd]. destruct (Js.isSpace c && Js.isEmpty (Js.trimEnd r));
    [discriminate | congruence].
Qed.

Lemma trimEnd_trimStart (s : string) :
  Js.trimEnd s = s -> Js.trimEnd (Js.trimStart s) = Js.trimStart s.
Proof.
  induction s as [|c r IH]; [reflexivity|]. intros H.
  cbn [Js.trimStart]. destruct (Js.isSpace c); [|exact H].
  apply IH. eapply trimEnd_tail, H.
Qed.

Lemma trimStart_idem (s : string) :
  Js.trimStart (Js.trimStart s) = Js.trimStart s.
Proof.
  induction s as [|c r IH]; [reflexivity|].
  cbn [Js.trimStart]. destruct (Js.isSpace c) eqn:E; [exact IH|].
  cbn [Js.trimStart]. rewrite E. reflexivity.
Qed.

(** Trimming twice is trimming once. *)
Lemma trim_idem (s : string) : Js.trim (Js.trim s) = Js.trim s.
Proof.
  unfold Js.trim.
  rewrite (trimEnd_trimStart (Js.trimEnd s) (trimEnd_idem s)).
  apply trimStart_idem.
Qed.

Lemma get_mapRow_reserved (row : Row) (n : nat) :
  Js.get (mapRowToStudent row n) "_columnJ" = cellOr row 9 /\
  Js.get (mapRowToStudent row n) "_columnK" = cellOr row 10.
Proof. rewrite mapRowToStudent_eq, !get_insert. split; reflexivity. Qed.

Lemma namedCell_mapRow (row : Row) (n : nat) (header : string) (k : nat) :
  HEADERS !! k = Some header -> namedHeader header = true ->
  namedCell (mapRowToStudent row n) header = Js.Str (Js.trim (cellAt row k)).
Proof.
  intros Hh Hn. unfold namedCell. rewrite (get_mapRow _ _ _ _ Hh Hn).
  reflexivity.
Qed.

(** The row written back, cell by cell. *)
Lemma normalRow_eq (row : Row) (n : nat) :
  normalRow row n =
  [ Js.trim (cellAt row 0); Js.trim (cellAt row 1); Js.trim (cellAt row 2);
    Js.trim (cellAt row 3); Js.trim (cellAt row 4); Js.trim (cellAt row 5);
    Js.trim (cellAt row 6); Js.trim (cellAt row 7); Js.trim (cellAt row 8);
    cellAt row 9; cellAt row 10; Js.trim (cellAt row 11) ].
Proof.
  unfold normalRow. rewrite rowValues_eq.
  destruct (get_mapRow_reserved row n) as [-> ->].
  rewrite (namedCell_mapRow row n "Name" 0),
    (namedCell_mapRow row n "MobileNo" 1),
    (namedCell_mapRow row n "District" 2),
    (namedCell_mapRow row n "State" 3),
    (namedCell_mapRow row n "Paid" 4),
    (namedCell_mapRow row n "FeeAmount" 5),
    (namedCell_mapRow row n "Attempted" 6),
    (namedCell_mapRow row n "RetakeAllowed" 7),
    (namedCell_mapRow row n "LastApprovedAt" 8),
    (namedCell_mapRow row n "CreatedAt" 11) by reflexivity.
  reflexivity.
Qed.

End RowNormalForm.

(** X1: reading a row and writing it back gives exactly twelve cells,
    whatever the length of the row read: each named column holds the text
    read, trimmed (blank when the row is too short), and the two reserved
    columns J and K hold the text read, verbatim; [buildRowFromStudent]
    does not throw. *)
Theorem row_read_write (row : Row) (n : nat) :
  buildRowFromStudent (mapRowToStudent row n)
    = Ok (rowValues (mapRowToStudent row n)) /\
  length (normalRow row n) = 12%nat /\
  (forall k, namedColumn k = true ->
     cellAt (normalRow row n) k = Js.trim (cellAt row k)) /\
  cellAt (normalRow row n) 9 = cellAt row 9 /\
  cellAt (normalRow row n) 10 = cellAt row 10.
Proof.
  split; [reflexivity|]. rewrite normalRow_eq.
  split; [reflexivity|]. split; [|split; reflexivity].
  intros k Hk.
  do 12 (destruct k as [|k]; [first [reflexivity | discriminate Hk]|]).
  discriminate Hk.
Qed.

Lemma row_read_write_witness :
  namedColumn 11 = true /\
  cellAt (normalRow paddedRow 2) 11 = Js.trim (cellAt paddedRow 11).
Proof.
  split; [reflexivity|].
  destruct (row_read_write paddedRow 2) as (_ & _ & H & _).
  exact (H 11%nat eq_refl).
Defined.

(** X2: the row written back is a normal form: reading it and writing it
    back again changes nothing. *)
Theorem row_write_idempotent (row : Row) (n m : nat) :
  normalRow (normalRow row n) m = normalRow row n.
Proof.
  rewrite (normalRow_eq (normalRow row n) m), (normalRow_eq row n).
  set (c0 := cellAt row 0). set (c1 := cellAt row 1). set (c2 := cellAt row 2).
  set (c3 := cellAt row 3). set (c4 := cellAt row 4). set (c5 := cellAt row 5).
  set (c6 := cellAt row 6). set (c7 := cellAt row 7). set (c8 := cellAt row 8).
  set (c9 := cellAt row 9). set (c10 := cellAt row 10).
  set (c11 := cellAt row 11).
  cbv [cellAt default lookup list_lookup id].
  rewrite !trim_idem. reflexivity.
Qed.

(** X3: whatever the object, every named column of the row built from it
    is free of surrounding white space, and every row built has twelve
    values. *)
Theorem written_cells_trimmed (student : Js.Obj) (k : nat) :
  namedColumn k = true ->
  length (rowValues student) = 12%nat /\
  Js.trim (cellAt (cellText <$> rowValues student) k)
    = cellAt (cellText <$> rowValues student) k.
Proof.
  intros Hk. split; [reflexivity|].
  unfold namedColumn in Hk.
  destruct (HEADERS !! k) as [header|] eqn:Hh; [|discriminate].
  rewrite (cellAt_written student header k Hh Hk).
  unfold storedText. destruct (Js.get student header); try reflexivity;
    apply trim_idem.
Qed.

Lemma written_cells_trimmed_witness :
  namedColumn 1 = true /\
  Js.trim (cellAt (cellText <$> rowValues (mapRowToStudent paddedRow 2)) 1)
    = cellAt (cellText <$> rowValues (mapRowToStudent paddedRow 2)) 1.
Proof.
  split; [reflexivity|].
  exact (proj2 (written_cells_trimmed (mapRowToStudent paddedRow 2) 1 eq_refl)).
Defined.

Section LookupProperties.

Lemma findIndex_first {A} (p : A -> bool) (l : list A) (i : nat) :
  findIndex p l = Some i <->
  (exists x, l !! i = Some x /\ p x = true)
  /\ (forall j y, (j < i)%nat -> l !! j = Some y -> p y = false).
Proof.
  revert i. induction l as [|z r IH]; intros i.
  - split; [discriminate|]. intros [(x & Hx & _) _]. discriminate Hx.
  - cbn [findIndex]. destruct (p z) eqn:Hz.
    + split.
      * intros [= <-]. split; [exists z; auto|]. intros j y Hj. lia.
      * intros [(x & Hx & Hp) Hmin]. destruct i as [|i]; [reflexivity|].
        rewrite (Hmin 0%nat z) in Hz by (lia || reflexivity). discriminate.
    + split.
      * destruct (findIndex p r) as [k|] eqn:Hk; [|discriminate].
        intros [= <-]. destruct (proj1 (IH k) eq_refl) as [Hex Hmin].
        split; [exact Hex|].
        intros [|j] y Hj Hy.
        -- injection Hy as <-. exact Hz.
        -- apply (Hmin j y); [lia | exact Hy].
      * intros [(x & Hx & Hp) Hmin]. destruct i as [|i].
        -- injection Hx as <-. congruence.
        -- assert (Hi : findIndex p r = Some i).
           { apply IH. split; [exists x; auto|].
             intros j y Hj Hy. apply (Hmin (S j) y); [lia | exact Hy]. }
           rewrite Hi. reflexivity.
Qed.

Lemma findIndex_None {A} (p : A -> bool) (l : list A) :
  findIndex p l = None <-> (forall x, x ∈ l -> p x = false).
Proof.
  induction l as [|z r IH]; cbn [findIndex].
  - split; [intros _ x Hx; by apply elem_of_nil in Hx | reflexivity].
  - destruct (p z) eqn:Hz.
    + split; [discriminate|]. intros H.
      rewrite (H z) in Hz by (apply elem_of_cons; auto). discriminate.
    + destruct (findIndex p r) as [k|] eqn:Hk.
      * split; [discriminate|]. intros H.
        assert (Hn : Some k = @None nat).
        { apply IH. intros x Hx. apply H, elem_of_cons. auto. }
        discriminate Hn.
      * split; [|reflexivity]. intros _ x [->|Hx]%elem_of_cons; [exact Hz|].
        by apply IH.
Qed.

(** What it takes for a row to match a search key. *)
Lemma rowMatches_spec (k : string) (row : Row) :
  rowMatches k row = true <->
  (2 <= length row)%nat /\ Js.stripNonDigits (cellAt row 1) = k /\ k <> "".
Proof.
  unfold rowMatches, cellAt. rewrite normalizeMobileNumber_Str.
  destruct (Nat.ltb_spec (length row) 2) as [Hlt|Hge].
  - split; [discriminate | intros [? _]; lia].
  - destruct (Js.isEmpty (Js.stripNonDigits (default "" (row !! 1%nat)))) eqn:E.
    + split; [discriminate|]. intros (_ & <- & Hne).
      apply isEmpty_true in E. contradiction.
    + apply isEmpty_false in E. rewrite String.eqb_eq.
      split; [intros <-; auto | intros (_ & H & _); exact H].
Qed.

End LookupProperties.

Lemma lookupRows_digits (q q' : string) (s : Sheet) :
  Js.stripNonDigits q = Js.stripNonDigits q' ->
  lookupRows q s = lookupRows q' s.
Proof.
  intros H. unfold lookupRows. rewrite !normalizeMobileNumber_Str, H.
  reflexivity.
Qed.

Lemma trim_nonblank (q : string) :
  Js.isEmpty (Js.trim q) = false -> Js.isEmpty q = false.
Proof. destruct q; [discriminate | reflexivity]. Qed.

(** X4: [GET /student] sees only the digits of its query: two queries that
    are not blank and have the same digits get the same answer from the
    same sheet, so " 98765 43210", "98765-43210" and "9876543210" are one
    key. *)
Theorem getStudent_by_digits (env : Env) (w : World) (q q' : string) :
  Js.isEmpty (Js.trim q) = false -> Js.isEmpty (Js.trim q') = false ->
  Js.stripNonDigits q = Js.stripNonDigits q' ->
  getStudent env (Some q) w = getStudent env (Some q') w.
Proof.
  intros Hq Hq' Hd. unfold getStudent.
  rewrite (trim_nonblank _ Hq), (trim_nonblank _ Hq'), Hq, Hq'. cbn [orb].
  unfold tryCatch. rewrite !bind_run, !findStudentByMobile_run. cbv zeta.
  rewrite (lookupRows_digits (Js.trim q) (Js.trim q')); [reflexivity|].
  rewrite !stripNonDigits_trim. exact Hd.
Qed.

Lemma getStudent_by_digits_witness :
  Js.isEmpty (Js.trim " 98765 43210") = false /\
  Js.isEmpty (Js.trim "98765-43210") = false /\
  Js.stripNonDigits " 98765 43210" = Js.stripNonDigits "98765-43210" /\
  getStudent sampleEnv (Some " 98765 43210") (start [plainRow])
    = getStudent sampleEnv (Some "98765-43210") (start [plainRow]).
Proof.
  split; [reflexivity|]. split; [reflexivity|]. split; [reflexivity|].
  exact (getStudent_by_digits sampleEnv (start [plainRow]) " 98765 43210"
           "98765-43210" eq_refl eq_refl eq_refl).
Defined.

(** X5: the record a lookup returns is the first row, from the top of the
    data range, that has at least two cells and whose MobileNo cell has
    the digits of the query, and at least one; its [rowNumber] is its
    index in the data rows plus 2; every row above it fails that test.
    There is no such row exactly when the lookup returns nothing. *)
Theorem lookup_first_match (q : string) (s : Sheet) :
  (forall student,
      lookupRows q s = Some student <->
      exists i row,
        s !! i = Some row /\
        student = mapRowToStudent row (i + 2) /\
        (2 <= length row)%nat /\
        Js.stripNonDigits (cellAt row 1) = Js.stripNonDigits q /\
        Js.stripNonDigits q <> "" /\
        (forall j above, (j < i)%nat -> s !! j = Some above ->
           (length above < 2)%nat
           \/ Js.stripNonDigits (cellAt above 1) <> Js.stripNonDigits q))
  /\
  (lookupRows q s = None <->
   forall row, row ∈ s ->
     (length row < 2)%nat
     \/ Js.stripNonDigits (cellAt row 1) <> Js.stripNonDigits q
     \/ Js.stripNonDigits q = "").
Proof.
  assert (Hno : forall row,
             rowMatches (Js.stripNonDigits q) row = false <->
             ((length row < 2)%nat
              \/ Js.stripNonDigits (cellAt row 1) <> Js.stripNonDigits q
              \/ Js.stripNonDigits q = "")).
  { intros row. rewrite <- not_true_iff_false, rowMatches_spec.
    split.
    - intros Hn. destruct (Nat.ltb_spec (length row) 2); [auto|].
      destruct (string_dec (Js.stripNonDigits (cellAt row 1))
                  (Js.stripNonDigits q)); [|auto].
      destruct (string_dec (Js.stripNonDigits q) ""); [auto|].
      exfalso. apply Hn. auto.
    - intros [H|[H|H]] (H1 & H2 & H3); [lia | contradiction | contradiction]. }
  split.
  - intros student. split.
    + intros Hl. destruct (lookupRows_inv _ _ _ Hl) as (i & row & Hi & Hrow & _ & He).
      rewrite normalizeMobileNumber_Str in Hi.
      apply findIndex_first in Hi as [(x & Hx & Hp) Hmin].
      rewrite Hrow in Hx. injection Hx as <-.
      apply rowMatches_spec in Hp as (H1 & H2 & H3).
      exists i, row. repeat split; try assumption.
      intros j above Hj Ha. specialize (Hmin j above Hj Ha).
      apply Hno in Hmin as [H|[H|H]]; [auto | auto | contradiction].
    + intros (i & row & Hrow & -> & H1 & H2 & H3 & Hmin).
      apply lookupRows_found; [|exact Hrow].
      rewrite normalizeMobileNumber_Str. apply findIndex_first. split.
      * exists row. split; [exact Hrow|]. by apply rowMatches_spec.
      * intros j above Hj Ha. apply Hno.
        destruct (Hmin j above Hj Ha) as [H|H]; auto.
  - split.
    + intros Hl%lookupRows_None. rewrite normalizeMobileNumber_Str in Hl.
      intros row Hrow. apply Hno. by eapply findIndex_None.
    + intros H. unfold lookupRows. destruct s as [|r0 rest]; [reflexivity|].
      rewrite normalizeMobileNumber_Str.
      assert (Hf : findIndex (rowMatches (Js.stripNonDigits q)) (r0 :: rest)
                   = None).
      { apply findIndex_None. intros row Hrow. apply Hno, H, Hrow. }
      rewrite Hf. reflexivity.
Qed.

Lemma lookup_first_match_witness :
  lookupRows "98765 43210" [registeredRow; plainRow]
    = Some (mapRowToStudent registeredRow 2) /\
  exists i row,
    [registeredRow; plainRow] !! i = Some row /\
    mapRowToStudent registeredRow 2 = mapRowToStudent row (i + 2) /\
    Js.stripNonDigits (cellAt row 1) = Js.stripNonDigits "98765 43210".
Proof.
  assert (Hl : lookupRows "98765 43210" [registeredRow; plainRow]
               = Some (mapRowToStudent registeredRow 2)) by reflexivity.
  split; [exact Hl|].
  destruct (proj1 (proj1 (lookup_first_match "98765 43210"
                            [registeredRow; plainRow]) _) Hl)
    as (i & row & H1 & H2 & _ & H4 & _).
  exists i, row. repeat split; assumption.
Defined.



Section Outcomes.

Variable env : Env.

Lemma trimOf_throw (field : string) (v : Js.Value) (w : World) :
  isString v = false -> trimOf field v w = (Throw (TrimNotAFunction field), w).
Proof. destruct v; try reflexivity. discriminate. Qed.

(** When one of [Name], [District], [State] is not a string, the update of
    the row found throws before it calls the store. *)
Lemma updateExisting_throws req key paid existing w :
  stringFields req = false ->
  exists e, updateExisting env req key paid existing w = (Throw e, w).
Proof.
  unfold stringFields, updateExisting. intros Hs.
  destruct (isString (Name req)) eqn:Hn.
  - rewrite bind_run, (trimOf_run _ _ _ Hn). cbv beta iota.
    destruct (isString (District req)) eqn:Hd.
    + rewrite bind_run, (trimOf_run _ _ _ Hd). cbv beta iota.
      destruct (isString (State req)) eqn:Hst; [discriminate Hs|].
      rewrite bind_run, (trimOf_throw _ _ _ Hst). eauto.
    + rewrite bind_run, (trimOf_throw _ _ _ Hd). eauto.
  - rewrite bind_run, (trimOf_throw _ _ _ Hn). eauto.
Qed.

Lemma validBody_split (req : StudentBody) :
  validBody req =
  negb (missingField req) && negb (feeMissing (FeeAmount req))
  && negb (Js.isEmpty (normalizeMobileNumber (MobileNo req)))
  && stringFields req.
Proof.
  unfold validBody, missingField, stringFields, normalizeMobileNumber.
  destruct (Js.truthy (Name req)), (isString (Name req)),
    (Js.truthy (District req)), (isString (District req)),
    (Js.truthy (State req)), (isString (State req)),
    (Js.isUndefined (Paid req)), (feeMissing (FeeAmount req)),
    (Js.truthy (MobileNo req)); cbn [negb andb orb Js.isEmpty];
    try reflexivity; destruct (Js.isEmpty _); reflexivity.
Qed.


End Outcomes.



Section SheetSteps.

Variable env : Env.
Hypothesis Hseq : sequential env.

Lemma postStudent_invalid_sheet req w :
  validBody req = false -> sheet (postStudent env req w).2 = sheet w.
Proof.
  intros Hv. pose proof (validBody_split req) as Hsplit. rewrite Hv in Hsplit.
  unfold postStudent. fold (missingField req).
  destruct (missingField req) eqn:Hm; [reflexivity|].
  destruct (feeMissing (FeeAmount req)) eqn:Hf; [reflexivity|].
  unfold tryCatch.
  destruct (Js.isEmpty (normalizeMobileNumber (MobileNo req))) eqn:Hk;
    [reflexivity|].
  cbn [negb andb] in Hsplit. symmetry in Hsplit.
  rewrite bind_run, findStudentByMobile_run. cbv zeta.
  destruct (lookupRows _ _) as [e1|].
  { match goal with |- context [updateExisting env req ?k ?p e1 ?w1] =>
      destruct (updateExisting_throws env req k p e1 w1 Hsplit) as (e & ->) end.
    cbn [snd sheet tripped respond mret M_ret]. apply Hseq. }
  rewrite bind_run, findStudentByMobile_run. cbv zeta.
  destruct (lookupRows _ _) as [e2|].
  { match goal with |- context [updateExisting env req ?k ?p e2 ?w2] =>
      destruct (updateExisting_throws env req k p e2 w2 Hsplit) as (e & ->) end.
    unfold respond. cbn [snd sheet tripped mret M_ret]. rewrite !Hseq.
    reflexivity. }
  unfold stringFields in Hsplit.
  destruct (isString (Name req)) eqn:Hn.
  - rewrite bind_run, (trimOf_run _ _ _ Hn). cbv beta iota.
    destruct (isString (District req)) eqn:Hd.
    + rewrite bind_run, (trimOf_run _ _ _ Hd). cbv beta iota.
      destruct (isString (State req)) eqn:Hst; [discriminate Hsplit|].
      rewrite bind_run, (trimOf_throw _ _ _ Hst).
      unfold respond. cbn [snd sheet tripped mret M_ret]. rewrite !Hseq.
      reflexivity.
    + rewrite bind_run, (trimOf_throw _ _ _ Hd).
      unfold respond. cbn [snd sheet tripped mret M_ret]. rewrite !Hseq.
      reflexivity.
  - rewrite bind_run, (trimOf_throw _ _ _ Hn).
    unfold respond. cbn [snd sheet tripped mret M_ret]. rewrite !Hseq.
    reflexivity.
Qed.

(** What [POST /student] does to the sheet, for any body. *)
Lemma postStudent_sheetStep req w :
  sheetStep (normalizeMobileNumber (MobileNo req)) (sheet w)
    (sheet (postStudent env req w).2).
Proof.
  set (key := normalizeMobileNumber (MobileNo req)).
  destruct (validBody req) eqn:Hv;
    [|left; by apply postStudent_invalid_sheet].
  assert (Hd : Js.allChars Js.isDigit key = true)
    by apply normalizeMobileNumber_digits.
  pose proof (validBody_inv _ Hv) as (_&_&_&_&_&_&_&_&Hne&_). fold key in Hne.
  destruct (lookupRows key (sheet w)) as [existing|] eqn:Hl.
  - right. left.
    destruct (upsert_existing_run env Hseq req w existing Hv Hl)
      as (i & row & Hi & Hrow & _ & Hrun).
    rewrite Hrun. cbn [snd sheet tripped].
    exists i, row, (cellText <$> rowValues (upserted req existing)).
    repeat split; try assumption.
    apply rowMatches_written; [apply get_upserted | exact Hd | exact Hne].
  - right. right.
    destruct (create_run env Hseq req w Hv Hl) as (_ & Hsheet & _).
    rewrite Hsheet. eexists. split; [|split; [|reflexivity]].
    + apply lookupRows_None in Hl. unfold key in Hl.
      rewrite normalizeMobileNumber_key in Hl. exact Hl.
    + apply rowMatches_written; [apply get_created | exact Hd | exact Hne].
Qed.

(** What [POST /student/update] does to the sheet, for any request. *)
Lemma postStudentUpdate_sheetStep mobileNo updates w :
  sheetStep (normalizeMobileNumber mobileNo) (sheet w)
    (sheet (postStudentUpdate env mobileNo updates w).2)
  /\ length (sheet (postStudentUpdate env mobileNo updates w).2)
     = length (sheet w).
Proof.
  set (key := normalizeMobileNumber mobileNo).
  destruct updates as [updates|]; [|split; [by left | reflexivity]].
  destruct (Js.isEmpty key) eqn:Hk.
  { unfold postStudentUpdate. destruct (Js.truthy mobileNo);
      [|split; [by left | reflexivity]].
    cbn [negb]. unfold tryCatch. fold key. rewrite Hk.
    split; [by left | reflexivity]. }
  destruct (lookupRows key (sheet w)) as [student|] eqn:Hl.
  - assert (Hl' : lookupRows key (others env (trips w) (sheet w)) = Some student)
      by (rewrite Hseq; exact Hl).
    destruct (cooldown_world env (retakeOf updates) student
                (tripped ValuesGet (sheet w) w)) as (refused & Hr & Hs & _).
    destruct (cooldown env (retakeOf updates) student
                (tripped ValuesGet (sheet w) w)) as [o w2] eqn:Hc.
    cbn [fst snd] in Hr, Hs. subst o.
    destruct refused as [h|].
    + rewrite (postStudentUpdate_found env mobileNo updates student w Hl' Hk).
      cbv zeta. rewrite Hseq, Hc. cbn [snd]. rewrite Hs.
      split; [by left | reflexivity].
    + destruct (update_accepted env Hseq mobileNo updates student w w2 Hl Hc)
        as (i & row & Hi & Hrow & _ & Hrun & _).
      rewrite Hrun. cbn [snd sheet tripped]. split; [|apply length_insert].
      right. left. eexists i, row, _. repeat split; try eassumption.
      apply rowMatches_written;
        [apply get_updated_MobileNo | apply normalizeMobileNumber_digits
        | exact Hk].
  - assert (Hmt : Js.truthy mobileNo = true).
    { subst key. unfold normalizeMobileNumber in Hk.
      destruct (Js.truthy mobileNo); [reflexivity | discriminate]. }
    unfold postStudentUpdate. rewrite Hmt. cbn [negb]. unfold tryCatch.
    fold key. rewrite Hk. rewrite bind_run, findStudentByMobile_run. cbv zeta.
    rewrite Hseq, Hl. cbn [snd sheet tripped respond mret M_ret].
    split; [by left | reflexivity].
Qed.

End SheetSteps.

Section Uniqueness.

Lemma filter_none_length {A} (p : A -> bool) (l : list A) :
  findIndex p l = None -> length (List.filter p l) = 0%nat.
Proof.
  induction l as [|x r IH]; [reflexivity|]. cbn [findIndex List.filter].
  destruct (p x); [discriminate|].
  destruct (findIndex p r); [discriminate|]. intros _. by apply IH.
Qed.

(** Two rows found under one number are found under the same numbers. *)
Lemma rowMatches_same (key k : string) (r r' : Row) :
  rowMatches key r = true -> rowMatches key r' = true ->
  rowMatches k r = rowMatches k r'.
Proof.
  intros (H1 & H2 & H3)%rowMatches_spec (H1' & H2' & H3')%rowMatches_spec.
  destruct (rowMatches k r) eqn:E.
  - apply rowMatches_spec in E as (_ & E & Hk). symmetry.
    apply rowMatches_spec. repeat split; congruence.
  - destruct (rowMatches k r') eqn:E'; [|reflexivity].
    apply rowMatches_spec in E' as (_ & E' & Hk).
    assert (Ht : rowMatches k r = true)
      by (apply rowMatches_spec; repeat split; congruence).
    congruence.
Qed.

Lemma rowMatches_other (key k : string) (r : Row) :
  rowMatches key r = true -> k <> key -> rowMatches k r = false.
Proof.
  intros (H1 & H2 & H3)%rowMatches_spec Hne.
  destruct (rowMatches k r) eqn:E; [|reflexivity].
  apply rowMatches_spec in E as (_ & E & _). congruence.
Qed.

Lemma sheetStep_unique (key : string) (s s' : Sheet) :
  sheetStep key s s' -> uniqueKeys s -> uniqueKeys s'.
Proof.
  intros [->|[(i & row & newRow & Hi & Hrow & Hnew & ->)
             |(newRow & Hnone & Hnew & ->)]] Hu k; [apply Hu| |].
  - unfold countRows.
    rewrite (filter_insert_length _ _ _ row newRow Hrow); [apply Hu|].
    destruct (findIndex_Some _ _ _ Hi) as (x & Hx & Hp).
    rewrite Hrow in Hx. injection Hx as <-.
    apply (rowMatches_same key); assumption.
  - unfold countRows. rewrite filter_snoc_length.
    destruct (string_dec k key) as [->|Hne].
    + rewrite (filter_none_length _ _ Hnone), Hnew. lia.
    + rewrite (rowMatches_other key k newRow Hnew Hne).
      specialize (Hu k). unfold countRows in Hu. lia.
Qed.

End Uniqueness.

(** X9: the uniqueness of the MobileNo key is an invariant under
    sequential access: if no two rows of the sheet can be found under one
    number, the same holds after any [POST /student] call and after any
    [POST /student/update] call, whatever the request. *)
Theorem unique_keys_preserved (env : Env) (w : World) :
  sequential env -> uniqueKeys (sheet w) ->
  (forall req, uniqueKeys (sheet (postStudent env req w).2)) /\
  (forall mobileNo updates,
      uniqueKeys (sheet (postStudentUpdate env mobileNo updates w).2)).
Proof.
  intros Hseq Hu. split.
  - intros req. eapply sheetStep_unique; [|exact Hu].
    by apply postStudent_sheetStep.
  - intros mobileNo updates. eapply sheetStep_unique; [|exact Hu].
    by apply postStudentUpdate_sheetStep.
Qed.

Lemma unique_keys_preserved_witness :
  sequential sampleEnv /\ uniqueKeys [plainRow] /\
  uniqueKeys (sheet (postStudent sampleEnv sampleBody (start [plainRow])).2).
Proof.
  assert (Hs : sequential sampleEnv) by (intros n s; reflexivity).
  assert (Hu : uniqueKeys (sheet (start [plainRow]))).
  { intros k. unfold countRows. cbn [sheet start List.filter].
    destruct (rowMatches k plainRow); cbn [length]; lia. }
  split; [exact Hs|]. split; [exact Hu|].
  exact (proj1 (unique_keys_preserved sampleEnv (start [plainRow]) Hs Hu)
           sampleBody).
Defined.

(** X10: under sequential access a request touches at most the row of its
    own number: every row that cannot be found under the number of the
    request is, after [POST /student] or [POST /student/update], where it
    was and as it was; no row is ever removed, and [POST /student/update]
    never changes the number of rows. *)
Theorem other_rows_untouched (env : Env) (w : World) :
  sequential env ->
  (forall req j row,
      sheet w !! j = Some row ->
      rowMatches (normalizeMobileNumber (MobileNo req)) row = false ->
      sheet (postStudent env req w).2 !! j = Some row) /\
  (forall mobileNo updates j row,
      sheet w !! j = Some row ->
      rowMatches (normalizeMobileNumber mobileNo) row = false ->
      sheet (postStudentUpdate env mobileNo updates w).2 !! j = Some row) /\
  (forall req,
      (length (sheet w) <= length (sheet (postStudent env req w).2))%nat) /\
  (forall mobileNo updates,
      length (sheet (postStudentUpdate env mobileNo updates w).2)
        = length (sheet w)).
Proof.
  intros Hseq.
  assert (Hframe : forall key s s' j row,
             sheetStep key s s' -> s !! j = Some row ->
             rowMatches key row = false -> s' !! j = Some row).
  { intros key s s' j row
      [->|[(i & r & newRow & Hi & Hr & _ & ->)|(newRow & _ & _ & ->)]]
      Hrow Hno; [exact Hrow| |].
    - rewrite list_lookup_insert_ne; [exact Hrow|]. intros ->.
      destruct (findIndex_Some _ _ _ Hi) as (x & Hx & Hp). congruence.
    - rewrite lookup_app_l; [exact Hrow|]. eapply lookup_lt_Some; eauto. }
  split; [|split; [|split]].
  - intros req j row. apply Hframe. by apply postStudent_sheetStep.
  - intros mobileNo updates j row. apply Hframe.
    by apply postStudentUpdate_sheetStep.
  - intros req.
    destruct (postStudent_sheetStep env Hseq req w)
      as [->|[(i & r & newRow & _ & _ & _ & ->)|(newRow & _ & _ & ->)]].
    + lia.
    + rewrite length_insert. lia.
    + rewrite length_app. cbn [length]. lia.
  - intros mobileNo updates. by apply postStudentUpdate_sheetStep.
Qed.

Lemma other_rows_untouched_witness :
  sequential sampleEnv /\
  [registeredRow] !! 0%nat = Some registeredRow /\
  rowMatches (normalizeMobileNumber (Js.Str "1234567890")) registeredRow
    = false /\
  sheet (postStudentUpdate sampleEnv (Js.Str "1234567890")
           (Some {[ "Paid" := Js.Str "Yes" ]}) (start [registeredRow])).2
    !! 0%nat = Some registeredRow.
Proof.
  assert (Hs : sequential sampleEnv) by (intros n s; reflexivity).
  split; [exact Hs|]. split; [reflexivity|]. split; [reflexivity|].
  destruct (other_rows_untouched sampleEnv (start [registeredRow]) Hs)
    as (_ & H & _).
  exact (H (Js.Str "1234567890") (Some {[ "Paid" := Js.Str "Yes" ]}) 0%nat
           registeredRow eq_refl eq_refl).
Defined.

Section UntouchedColumns.

Variables (key : string) (updates : Js.Obj) (row : Row) (n : nat)
  (stamp : option string).

Let student := mapRowToStudent row n.
Let updated := updatedStudentOf key updates student stamp.

Lemma lookup_normalizedUpdatesOf_None (k : string) :
  updates !! k = None -> normalizedUpdatesOf updates !! k = None.
Proof.
  intros Hk. unfold normalizedUpdatesOf. rewrite !lookup_normalizeField.
  unfold Js.get.
  repeat match goal with
         | |- context [decide (?a = k)] =>
             destruct (decide (a = k)) as [<-|?]
         end; rewrite ?lookup_normalizeField; unfold Js.get;
    repeat match goal with
           | |- context [decide (?a = ?b)] => destruct (decide (a = b)); try congruence
           end; rewrite ?Hk; try reflexivity.
Qed.

Lemma get_merged_absent (k : string) :
  k <> "CreatedAt" -> updates !! k = None ->
  Js.get (delete "CreatedAt" (normalizedUpdatesOf updates) ∪ student) k
  = Js.get student k.
Proof.
  intros Hne Hk. rewrite get_merged by exact Hne.
  rewrite (lookup_normalizedUpdatesOf_None k Hk). reflexivity.
Qed.

Ltac peel :=
  repeat first
    [ rewrite get_cond_insert by congruence
    | rewrite get_insert_ne by congruence ].

Lemma get_updated_reserved :
  (updates !! "_columnJ" = None ->
   Js.get updated "_columnJ" = Js.Str (cellAt row 9)) /\
  (updates !! "_columnK" = None ->
   Js.get updated "_columnK" = Js.Str (cellAt row 10)).
Proof.
  destruct (get_mapRow_reserved row n) as [HJ HK]. fold student in HJ, HK.
  unfold updated, updatedStudentOf. cbv zeta. split; intros Hk.
  - destruct stamp; peel.
    all: match goal with
         | |- Js.get (if ?c then _ else ?u) _ = _ =>
             assert (Hu : Js.get u "_columnJ" = Js.Str (cellAt row 9))
         end.
    all: try (peel; rewrite get_merged_absent by (congruence || exact Hk);
              exact HJ).
    all: rewrite ?Hu, ?get_merged_absent by (congruence || exact Hk);
      rewrite ?HJ; match goal with |- Js.get (if ?c then _ else _) _ = _ => destruct c end;
      [rewrite get_insert_eq; reflexivity | exact Hu].
  - destruct stamp; peel.
    all: match goal with
         | |- Js.get (if ?c then _ else ?u) _ = _ =>
             assert (Hu : Js.get u "_columnK" = Js.Str (cellAt row 10))
         end.
    all: try (peel; rewrite get_merged_absent by (congruence || exact Hk);
              exact HK).
    all: rewrite ?Hu, ?get_merged_absent by (congruence || exact Hk);
      rewrite ?HK; match goal with |- Js.get (if ?c then _ else _) _ = _ => destruct c end;
      [rewrite get_insert_eq; reflexivity | exact Hu].
Qed.

Lemma get_updated_FeeAmount :
  updates !! "FeeAmount" = None ->
  Js.get updated "FeeAmount" = Js.Str (cellAt row 5).
Proof.
  intros Hk.
  assert (HF : Js.get student "FeeAmount" = Js.Str (cellAt row 5))
    by (apply (cellAt_mapRow row n "FeeAmount" 5); reflexivity).
  unfold updated, updatedStudentOf. cbv zeta.
  destruct stamp; peel.
  all: match goal with
       | |- Js.get (if ?c then _ else ?u) _ = _ =>
           assert (Hu : Js.get u "FeeAmount" = Js.Str (cellAt row 5))
       end.
  all: try (peel; rewrite get_merged_absent by (congruence || exact Hk);
            exact HF).
  all: rewrite ?Hu, ?get_merged_absent by (congruence || exact Hk);
    rewrite ?HF; match goal with |- Js.get (if ?c then _ else _) _ = _ => destruct c end;
    [rewrite get_insert_eq; reflexivity | exact Hu].
Qed.

Lemma get_updated_plain (header : string) (k : nat) :
  HEADERS !! k = Some header -> namedHeader header = true ->
  header <> "MobileNo" -> header <> "FeeAmount" ->
  header <> "LastApprovedAt" -> header <> "CreatedAt" ->
  updates !! header = None ->
  Js.get updated header = Js.Str (cellAt row k).
Proof.
  intros Hh Hn H1 H2 H3 H4 Hk. unfold updated.
  rewrite get_updated_other
    by (try assumption; intros ->;
        do 12 (destruct k as [|k]; [discriminate Hh|]); discriminate Hh).
  rewrite (lookup_normalizedUpdatesOf_None header Hk).
  apply (cellAt_mapRow row n header k Hh Hn).
Qed.

(** The cells of the row written by an update, for the columns the update
    does not name. *)
Lemma cellAt_updated_absent (k : nat) :
  (k < 12)%nat -> k <> 1%nat -> updates !! columnKey k = None ->
  (k = 8%nat -> stamp = None) ->
  cellAt (cellText <$> rowValues updated) k =
  if namedColumn k then Js.trim (cellAt row k) else cellAt row k.
Proof.
  intros Hlt Hne Hk Hstamp.
  assert (Hplain : forall header j,
             HEADERS !! j = Some header -> namedHeader header = true ->
             Js.get updated header = Js.Str (cellAt row j) ->
             cellAt (cellText <$> rowValues updated) j = Js.trim (cellAt row j)).
  { intros header j Hh Hn Hg. rewrite (cellAt_written _ header j Hh Hn).
    by apply storedText_Str. }
  destruct k as [|[|[|[|[|[|[|[|[|[|[|[|k]]]]]]]]]]]]; try lia;
    try contradiction; cbn [columnKey] in Hk.
  - apply (Hplain "Name"); try reflexivity.
    apply get_updated_plain; (reflexivity || congruence || exact Hk).
  - apply (Hplain "District"); try reflexivity.
    apply get_updated_plain; (reflexivity || congruence || exact Hk).
  - apply (Hplain "State"); try reflexivity.
    apply get_updated_plain; (reflexivity || congruence || exact Hk).
  - apply (Hplain "Paid"); try reflexivity.
    apply get_updated_plain; (reflexivity || congruence || exact Hk).
  - apply (Hplain "FeeAmount"); try reflexivity.
    by apply get_updated_FeeAmount.
  - apply (Hplain "Attempted"); try reflexivity.
    apply get_updated_plain; (reflexivity || congruence || exact Hk).
  - apply (Hplain "RetakeAllowed"); try reflexivity.
    apply get_updated_plain; (reflexivity || congruence || exact Hk).
  - apply (Hplain "LastApprovedAt"); try reflexivity.
    apply get_updated_unstamped; [by apply Hstamp | exact Hk |].
    apply (cellAt_mapRow row n "LastApprovedAt" 8); reflexivity.
  - destruct get_updated_reserved as [HJ _].
    change (namedColumn 9) with false. cbv iota.
    unfold cellAt at 1. rewrite rowValues_eq. cbn [fmap list_fmap].
    change ((?a :: ?b :: ?c :: ?d :: ?e :: ?f :: ?g :: ?h :: ?i :: ?j :: ?r)
              !! 9%nat) with (Some j).
    cbn [default]. rewrite (HJ Hk). reflexivity.
  - destruct get_updated_reserved as [_ HK].
    change (namedColumn 10) with false. cbv iota.
    unfold cellAt at 1. rewrite rowValues_eq. cbn [fmap list_fmap].
    rewrite (HK Hk). reflexivity.
  - apply (Hplain "CreatedAt"); try reflexivity.
    unfold updated. rewrite get_updated_CreatedAt. unfold student.
    rewrite (cellAt_mapRow row n "CreatedAt" 11) by reflexivity. reflexivity.
Qed.

End UntouchedColumns.

(** X11: an accepted [POST /student/update] changes only what it names.
    Under sequential access, when the call answers 200 for a record found
    at row [i], the row written there holds the normalised number in the
    MobileNo column whatever the updates say, and in every other column
    whose key the updates do not carry (and, for LastApprovedAt, when the
    update is neither a retake nor an approval) the text that was there:
    trimmed in the named columns, as it was in the reserved columns J and
    K. *)
Theorem update_untouched_columns (env : Env) (mobileNo : Js.Value)
    (updates student updated : Js.Obj) (w : World) :
  sequential env ->
  let key := normalizeMobileNumber mobileNo in
  let result := postStudentUpdate env mobileNo (Some updates) w in
  lookupRows key (sheet w) = Some student ->
  result.1 = Ok {| status := 200; body := BodyStudent updated |} ->
  exists i row newRow,
    sheet w !! i = Some row /\
    sheet result.2 = <[i := newRow]> (sheet w) /\
    cellAt newRow 1 = key /\
    forall k,
      (k < 12)%nat -> k <> 1%nat -> updates !! columnKey k = None ->
      (k = 8%nat -> retakeOf updates || approvalOf updates student = false) ->
      cellAt newRow k =
      if namedColumn k then Js.trim (cellAt row k) else cellAt row k.
Proof.
  intros Hseq key result Hl H200.
  assert (Hk : Js.isEmpty key = false) by (eapply lookupRows_nonempty; eauto).
  destruct (cooldown_world env (retakeOf updates) student
              (tripped ValuesGet (sheet w) w)) as (refused & Hr & _).
  destruct (cooldown env (retakeOf updates) student
              (tripped ValuesGet (sheet w) w)) as [o w2] eqn:Hc.
  cbn [fst] in Hr. subst o.
  destruct refused as [h|].
  { exfalso. unfold result in H200.
    assert (Hl' : lookupRows key (others env (trips w) (sheet w)) = Some student)
      by (rewrite Hseq; exact Hl).
    rewrite (postStudentUpdate_found env mobileNo updates student w Hl' Hk)
      in H200.
    cbv zeta in H200. rewrite Hseq, Hc in H200. discriminate H200. }
  destruct (update_accepted env Hseq mobileNo updates student w w2 Hl Hc)
    as (i & row & Hi & Hrow & He & Hrun & _).
  fold key in Hrun. unfold result. rewrite Hrun.
  cbn [fst snd sheet tripped].
  eexists i, row, _. split; [exact Hrow|]. split; [reflexivity|]. split.
  - rewrite (cellAt_written _ "MobileNo" 1) by reflexivity.
    rewrite (storedText_Str _ _ key) by apply get_updated_MobileNo.
    apply trim_digits, normalizeMobileNumber_digits.
  - intros k Hlt Hne Habs Hstamp. rewrite He.
    apply cellAt_updated_absent; try assumption.
    intros H8. rewrite <- He. rewrite (Hstamp H8). reflexivity.
Qed.

Lemma update_untouched_columns_witness :
  let result :=
    postStudentUpdate sampleEnv (Js.Str "98765 43210")
      (Some {[ "Paid" := Js.Str "Yes" ]}) (start [registeredRow]) in
  exists i row newRow,
    [registeredRow] !! i = Some row /\
    sheet result.2 = <[i := newRow]> [registeredRow] /\
    cellAt newRow 1 = "9876543210" /\
    cellAt newRow 0 = Js.trim (cellAt row 0).
Proof.
  intros result.
  assert (Hs : sequential sampleEnv) by (intros n s; reflexivity).
  destruct (update_untouched_columns sampleEnv (Js.Str "98765 43210")
              {[ "Paid" := Js.Str "Yes" ]}
              (mapRowToStudent registeredRow 2)
              (updatedStudentOf "9876543210" {[ "Paid" := Js.Str "Yes" ]}
                 (mapRowToStudent registeredRow 2) None)
              (start [registeredRow]) Hs)
    as (i & row & newRow & Hrow & Hsheet & Hkey & Hcells).
  - vm_compute. reflexivity.
  - vm_compute. reflexivity.
  - exists i, row, newRow. split; [exact Hrow|]. split; [exact Hsheet|].
    split; [exact Hkey|].
    apply (Hcells 0%nat); [lia | lia | vm_compute; reflexivity | discriminate].
Defined.

Section Repost.

Variable env : Env.
Hypothesis Hseq : sequential env.

Lemma get_upserted_LastApprovedAt req existing :
  Js.get (upserted req existing) "LastApprovedAt"
  = Js.orElse (Js.get existing "LastApprovedAt") (Js.Str "").
Proof.
  unfold upserted, Js.assign. cbn [foldl fst snd]. rewrite !get_insert.
  reflexivity.
Qed.

(** A field read back from a row that [POST /student] rewrote, when the
    handler carries the field over and the text was already trimmed. *)
Lemma get_rewritten_kept req (new : Js.Obj) (n m : nat) (header x : string)
    (index : nat) :
  HEADERS !! index = Some header -> namedHeader header = true ->
  Js.get new header = Js.Str x -> Js.trim x = x ->
  let existing := mapRowToStudent (cellText <$> rowValues new) n in
  (Js.get (upserted req existing) header = Js.get existing header
   \/ Js.get (upserted req existing) header
      = Js.nullish (Js.get existing header) (Js.Str "")
   \/ Js.get (upserted req existing) header
      = Js.orElse (Js.get existing header) (Js.Str "")) ->
  Js.get (mapRowToStudent (cellText <$> rowValues (upserted req existing)) m)
    header = Js.Str x.
Proof.
  intros Hh Hn Hg Ht existing Hkept.
  assert (He : Js.get existing header = Js.Str x).
  { unfold existing. rewrite (get_written _ _ _ _ Hh Hn).
    rewrite (storedText_Str _ _ x Hg), Ht. reflexivity. }
  rewrite (get_written _ _ _ _ Hh Hn). f_equal.
  rewrite <- Ht. apply storedText_Str.
  destruct Hkept as [-> | [-> | ->]]; rewrite He; [reflexivity..|].
  unfold Js.orElse. cbn [Js.truthy]. destruct (negb (Js.isEmpty x)) eqn:E;
    [reflexivity|].
  apply negb_false_iff, isEmpty_true in E. subst x. reflexivity.
Qed.

End Repost.

(** X12: registering a number twice registers it once.  Under sequential
    access, when [POST /student] creates a record (201) and a second valid
    [POST /student] names the same number, however it is written, the second
    call answers 200 with [updated: true] and appends nothing: the sheet
    has one row more than before the first call and exactly one row for
    the number, and the record found afterwards still has the [CreatedAt]
    and [LastApprovedAt] of its creation (the ISO 8601 notation, at the
    offset +05:30, of the two readings of the clock made then),
    [Attempted] "Yes" and [RetakeAllowed] "No", with the [Paid] flag of
    the second call. *)
Theorem repost_after_create (env : Env) (req req' : StudentBody) (w : World) :
  sequential env ->
  validBody req = true -> validBody req' = true ->
  normalizeMobileNumber (MobileNo req') = normalizeMobileNumber (MobileNo req) ->
  let key := normalizeMobileNumber (MobileNo req) in
  lookupRows key (sheet w) = None ->
  let first := postStudent env req w in
  let second := postStudent env req' first.2 in
  statusOf first.1 = Some 201%nat /\
  statusOf second.1 = Some 200%nat /\ isUpdated second.1 = true /\
  length (sheet second.2) = S (length (sheet w)) /\
  countRows key (sheet second.2) = 1%nat /\
  exists after,
    lookupRows key (sheet second.2) = Some after /\
    Js.get after "CreatedAt"
      = Js.Str (istTimestamp (clock env (S (reads w)))) /\
    Js.get after "LastApprovedAt"
      = Js.Str (istTimestamp (clock env (reads w))) /\
    Js.get after "Attempted" = Js.Str "Yes" /\
    Js.get after "RetakeAllowed" = Js.Str "No" /\
    Js.get after "Paid" = Js.Str (normalizeYesNo (Paid req')) /\
    isTimestampOf (istTimestamp (clock env (S (reads w))))
      (clock env (S (reads w))) /\
    isTimestampOf (istTimestamp (clock env (reads w))) (clock env (reads w)).
Proof.
  intros Hseq Hv Hv' Hsame key Hl first second.
  assert (Hd : Js.allChars Js.isDigit key = true)
    by apply normalizeMobileNumber_digits.
  pose proof (validBody_inv _ Hv) as (_&_&_&_&_&_&_&_&Hne&_). fold key in Hne.
  destruct (create_run env Hseq req w Hv Hl) as (H1 & Hs1 & _ & _).
  set (new := created req (clock env (reads w)) (clock env (S (reads w))))
    in *.
  fold first in H1, Hs1.
  destruct (get_created req (clock env (reads w)) (clock env (S (reads w))))
    as (Gm & _ & Ga & Gr & Gl & Gc). fold new in Gm, Ga, Gr, Gl, Gc.
  fold key in Gm.
  pose proof (lookup_appended key new (sheet w) Hl Gm Hd Hne) as Hl1.
  rewrite <- Hs1 in Hl1.
  set (existing := mapRowToStudent (cellText <$> rowValues new)
                     (length (sheet w) + 2)) in *.
  assert (Hl1' : lookupRows (normalizeMobileNumber (MobileNo req'))
                   (sheet first.2) = Some existing)
    by (rewrite Hsame; exact Hl1).
  destruct (upsert_existing_run env Hseq req' first.2 existing Hv' Hl1')
    as (i & row & Hi & Hrow & _ & Hrun).
  rewrite Hsame in Hi. fold key in Hi.
  fold second in Hrun.
  assert (Hs2 : sheet second.2
                = <[i := cellText <$> rowValues (upserted req' existing)]>
                    (sheet first.2))
    by (rewrite Hrun; reflexivity).
  assert (Hm2 : rowMatches key
                  (cellText <$> rowValues (upserted req' existing)) = true).
  { apply rowMatches_written; [|exact Hd|exact Hne].
    destruct (get_upserted req' existing) as (-> & _). rewrite Hsame.
    reflexivity. }
  split; [rewrite H1; reflexivity|].
  split; [rewrite Hrun; reflexivity|].
  split; [rewrite Hrun; reflexivity|].
  split.
  { rewrite Hs2, length_insert, Hs1, length_app. cbn [length]. lia. }
  split.
  { rewrite Hs2. unfold countRows.
    rewrite (filter_insert_length _ _ _ row _ Hrow).
    - rewrite Hs1, filter_snoc_length.
      rewrite (filter_none_length (rowMatches key) (sheet w)).
      + rewrite (rowMatches_written key new Gm Hd Hne). reflexivity.
      + apply lookupRows_None in Hl. unfold key in Hl.
        rewrite normalizeMobileNumber_key in Hl. exact Hl.
    - destruct (findIndex_Some _ _ _ Hi) as (x & Hx & Hp).
      rewrite Hrow in Hx. injection Hx as <-. rewrite Hp, Hm2. reflexivity. }
  eexists. split.
  { rewrite Hs2.
    apply (lookup_rewritten key (upserted req' existing) (sheet first.2) i row
             Hi Hrow); [|exact Hd|exact Hne].
    destruct (get_upserted req' existing) as (-> & _). rewrite Hsame.
    reflexivity. }
  destruct (get_upserted req' existing) as (_ & Uc & Up & Ua & Ur).
  split; [|split; [|split; [|split; [|split; [|split]]]]];
    try apply istTimestamp_says.
  - apply (get_rewritten_kept req' new _ _ "CreatedAt" _ 11);
      [reflexivity | reflexivity | exact Gc | apply trim_istTimestamp |].
    right. left. exact Uc.
  - apply (get_rewritten_kept req' new _ _ "LastApprovedAt" _ 8);
      [reflexivity | reflexivity | exact Gl | apply trim_istTimestamp |].
    right. right. apply get_upserted_LastApprovedAt.
  - apply (get_rewritten_kept req' new _ _ "Attempted" _ 6);
      [reflexivity | reflexivity | exact Ga | reflexivity |].
    left. exact Ua.
  - apply (get_rewritten_kept req' new _ _ "RetakeAllowed" _ 7);
      [reflexivity | reflexivity | exact Gr | reflexivity |].
    left. exact Ur.
  - rewrite (get_written _ _ "Paid" 4) by reflexivity. f_equal.
    rewrite (storedText_Str _ _ _ Up).
    apply yesNo_trim, yesNo_normalizeYesNo.
Qed.

Lemma repost_after_create_witness :
  let first := postStudent sampleEnv sampleBody (start []) in
  let second := postStudent sampleEnv sampleBody first.2 in
  statusOf first.1 = Some 201%nat /\
  statusOf second.1 = Some 200%nat /\
  length (sheet second.2) = 1%nat.
Proof.
  assert (Hs : sequential sampleEnv) by (intros n s; reflexivity).
  assert (Hv : validBody sampleBody = true) by reflexivity.
  destruct (repost_after_create sampleEnv sampleBody sampleBody (start [])
              Hs Hv Hv eq_refl eq_refl) as (H1 & H2 & _ & H3 & _).
  exact (conj H1 (conj H2 H3)).
Defined.

(** X13: the cooldown has no upper bound of twelve hours.  When a retake
    is asked for a record whose [LastApprovedAt] parses to an instant
    after the clock's reading, [POST /student/update] answers 409 with
    [remainingHours] the time until twelve hours after that instant, in
    hours rounded up, which is more than 12; nothing is written. *)
Theorem retake_future_dated (env : Env) (mobileNo : Js.Value)
    (updates student : Js.Obj) (w : World) (lastApprovedAt : Z) :
  let key := normalizeMobileNumber mobileNo in
  let s1 := others env (trips w) (sheet w) in
  let elapsed := (clock env (reads w) - lastApprovedAt)%Z in
  lookupRows key s1 = Some student ->
  normalizeYesNo (Js.get updates "RetakeAllowed") = "Yes" ->
  parseIsoDate env (Js.get student "LastApprovedAt") = Some lastApprovedAt ->
  (elapsed < 0)%Z ->
  let result := postStudentUpdate env mobileNo (Some updates) w in
  exists remainingHours,
    result.1 = Ok {| status := 409; body := BodyCooldown remainingHours |} /\
    ((remainingHours - 1) * 3600000 < TWELVE_HOURS_MS - elapsed
       <= remainingHours * 3600000)%Z /\
    (12 < remainingHours)%Z /\
    log result.2 = (log w ++ [ValuesGet])%list /\
    sheet result.2 = s1.
Proof.
  intros key s1 elapsed Hl Hyes Hparse Hel result.
  assert (Hk : Js.isEmpty key = false) by (eapply lookupRows_nonempty; eauto).
  subst result.
  rewrite (postStudentUpdate_found env mobileNo updates student w Hl Hk).
  cbv zeta. rewrite cooldown_run, retakeOf_spec, Hyes, Hparse.
  cbn [String.eqb Ascii.eqb Bool.eqb reads tripped].
  fold elapsed.
  assert (H12 : TWELVE_HOURS_MS = (12 * 3600000)%Z) by reflexivity.
  destruct (Z.ltb_spec elapsed TWELVE_HOURS_MS) as [Hlt|Hge]; [|lia].
  exists (ceilDiv (TWELVE_HOURS_MS - elapsed) 3600000).
  pose proof (ceilDiv_bounds (TWELVE_HOURS_MS - elapsed) 3600000 ltac:(lia))
    as Hb.
  split; [reflexivity|]. split; [exact Hb|].
  split; [|split; reflexivity].
  lia.
Qed.

Lemma retake_future_dated_witness :
  (1704429000000 - 1704436200000 < 0)%Z /\
  exists remainingHours,
    (postStudentUpdate
       (alone (fun _ => 1704429000000%Z)
          (fun s =>
             if String.eqb s "2024-01-05T12:00:00.000+05:30"
             then Some 1704436200000%Z else None))
       (Js.Str "9876543210")
       (Some {[ "RetakeAllowed" := Js.Str "Yes" ]})
       (start [[ "Asha"; "9876543210"; "Pune"; "Maharashtra"; "Yes"; "500";
                 "Yes"; "No"; "2024-01-05T12:00:00.000+05:30" ]])).1
      = Ok {| status := 409; body := BodyCooldown remainingHours |} /\
    (12 < remainingHours)%Z.
Proof.
  split; [reflexivity|].
  set (env := alone (fun _ => 1704429000000%Z)
                (fun s =>
                   if String.eqb s "2024-01-05T12:00:00.000+05:30"
                   then Some 1704436200000%Z else None)).
  set (row := [ "Asha"; "9876543210"; "Pune"; "Maharashtra"; "Yes"; "500";
                "Yes"; "No"; "2024-01-05T12:00:00.000+05:30" ]).
  assert (Hl : lookupRows (normalizeMobileNumber (Js.Str "9876543210"))
                 (others env (trips (start [row])) (sheet (start [row])))
               = Some (mapRowToStudent row 2)) by reflexivity.
  assert (Hyes : normalizeYesNo
                   (Js.get {[ "RetakeAllowed" := Js.Str "Yes" ]}
                      "RetakeAllowed") = "Yes")
    by (vm_compute; reflexivity).
  assert (Hparse : parseIsoDate env
                     (Js.get (mapRowToStudent row 2) "LastApprovedAt")
                   = Some 1704436200000%Z)
    by (vm_compute; reflexivity).
  assert (Hel : (clock env (reads (start [row])) - 1704436200000 < 0)%Z)
    by reflexivity.
  destruct (retake_future_dated env (Js.Str "9876543210")
              {[ "RetakeAllowed" := Js.Str "Yes" ]}
              (mapRowToStudent row 2) (start [row]) 1704436200000
              Hl Hyes Hparse Hel)
    as (h & H1 & _ & H3 & _).
  exists h. split; assumption.
Defined.



Lemma istTimestamp_nonempty (now : Z) : Js.isEmpty (istTimestamp now) = false.
Proof.
  apply isEmpty_false. unfold istTimestamp. cbv zeta.
  repeat apply append_nonempty. discriminate.
Qed.

(** X15: creation starts the cooldown.  [POST /student] stamps the new
    record's [LastApprovedAt] with its first reading of the clock; so,
    under sequential access, when the date parser reads that stamp as the
    instant [t] and the next reading of the clock is less than twelve
    hours after [t], a retake asked for the number just created is
    answered 409, and the sheet stays as the creation left it. *)
Theorem creation_starts_cooldown (env : Env) (req : StudentBody)
    (mobileNo : Js.Value) (updates : Js.Obj) (w : World) (t : Z) :
  sequential env ->
  validBody req = true ->
  let key := normalizeMobileNumber (MobileNo req) in
  lookupRows key (sheet w) = None ->
  normalizeMobileNumber mobileNo = key ->
  normalizeYesNo (Js.get updates "RetakeAllowed") = "Yes" ->
  dateParse env (istTimestamp (clock env (reads w))) = Some t ->
  (clock env (S (S (reads w))) - t < TWELVE_HOURS_MS)%Z ->
  let first := postStudent env req w in
  let second := postStudentUpdate env mobileNo (Some updates) first.2 in
  statusOf first.1 = Some 201%nat /\
  exists remainingHours,
    second.1 = Ok {| status := 409; body := BodyCooldown remainingHours |} /\
    ((remainingHours - 1) * 3600000
       < TWELVE_HOURS_MS - (clock env (S (S (reads w))) - t)
       <= remainingHours * 3600000)%Z /\
    sheet second.2 = sheet first.2.
Proof.
  intros Hseq Hv key Hl Hsame Hyes Hparse Hel first second.
  assert (Hd : Js.allChars Js.isDigit key = true)
    by apply normalizeMobileNumber_digits.
  pose proof (validBody_inv _ Hv) as (_&_&_&_&_&_&_&_&Hne&_). fold key in Hne.
  destruct (create_run env Hseq req w Hv Hl) as (H1 & Hs1 & _ & Hr1).
  set (new := created req (clock env (reads w)) (clock env (S (reads w))))
    in *.
  fold first in H1, Hs1, Hr1.
  destruct (get_created req (clock env (reads w)) (clock env (S (reads w))))
    as (Gm & _ & _ & _ & Gl & _). fold new in Gm, Gl. fold key in Gm.
  pose proof (lookup_appended key new (sheet w) Hl Gm Hd Hne) as Hl1.
  rewrite <- Hs1 in Hl1.
  set (student := mapRowToStudent (cellText <$> rowValues new)
                    (length (sheet w) + 2)) in *.
  assert (Hla : Js.get student "LastApprovedAt"
                = Js.Str (istTimestamp (clock env (reads w)))).
  { unfold student. rewrite (get_written _ _ "LastApprovedAt" 8) by reflexivity.
    rewrite (storedText_Str _ _ _ Gl), trim_istTimestamp. reflexivity. }
  split; [rewrite H1; reflexivity|].
  assert (Hl' : lookupRows (normalizeMobileNumber mobileNo)
                  (others env (trips first.2) (sheet first.2)) = Some student)
    by (rewrite Hseq, Hsame; exact Hl1).
  assert (Hk : Js.isEmpty (normalizeMobileNumber mobileNo) = false)
    by (rewrite Hsame; exact Hne).
  unfold second.
  rewrite (postStudentUpdate_found env mobileNo updates student first.2 Hl' Hk).
  cbv zeta. rewrite cooldown_run, retakeOf_spec, Hyes, Hla.
  cbn [String.eqb Ascii.eqb Bool.eqb parseIsoDate].
  rewrite istTimestamp_nonempty, Hparse.
  cbn [reads tripped]. rewrite Hr1.
  destruct (Z.ltb_spec (clock env (S (S (reads w))) - t) TWELVE_HOURS_MS)
    as [Hlt|Hge]; [|lia].
  eexists. split; [reflexivity|]. split.
  - apply ceilDiv_bounds. lia.
  - cbn [snd sheet ticked tripped]. apply Hseq.
Qed.

Lemma creation_starts_cooldown_witness :
  let env :=
    alone (fun _ => 1704436200000%Z)
      (fun s =>
         if String.eqb s "2024-01-05T12:00:00.000+05:30"
         then Some 1704436200000%Z else None) in
  let first := postStudent env sampleBody (start []) in
  statusOf first.1 = Some 201%nat /\
  exists remainingHours,
    (postStudentUpdate env (MobileNo sampleBody)
       (Some {[ "RetakeAllowed" := Js.Str "Yes" ]}) first.2).1
    = Ok {| status := 409; body := BodyCooldown remainingHours |}.
Proof.
  intros env first.
  assert (Hs : sequential env) by (intros n s; reflexivity).
  assert (Hv : validBody sampleBody = true) by reflexivity.
  assert (Hyes : normalizeYesNo
                   (Js.get {[ "RetakeAllowed" := Js.Str "Yes" ]}
                      "RetakeAllowed") = "Yes")
    by (vm_compute; reflexivity).
  assert (Hparse : dateParse env (istTimestamp (clock env (reads (start []))))
                   = Some 1704436200000%Z)
    by (vm_compute; reflexivity).
  assert (Hel : (clock env (S (S (reads (start [])))) - 1704436200000
                 < TWELVE_HOURS_MS)%Z) by reflexivity.
  destruct (creation_starts_cooldown env sampleBody (MobileNo sampleBody)
              {[ "RetakeAllowed" := Js.Str "Yes" ]} (start [])
              1704436200000 Hs Hv eq_refl eq_refl Hyes Hparse Hel)
    as (H1 & h & H2 & _).
  split; [exact H1|]. exists h. exact H2.
Defined.

(** X16: [normalizeMobileNumber] on any JSON value.  The result holds
    digits only and normalising it again changes nothing; a boolean has
    no digits; and a number loses its sign, so [n] and [-n] are the same
    key. *)
Theorem normalizeMobileNumber_values :
  (forall v, Js.allChars Js.isDigit (normalizeMobileNumber v) = true) /\
  (forall v, normalizeMobileNumber (Js.Str (normalizeMobileNumber v))
             = normalizeMobileNumber v) /\
  (forall b, normalizeMobileNumber (Js.Bool b) = "") /\
  (forall n, normalizeMobileNumber (Js.Number (- n))
             = normalizeMobileNumber (Js.Number n)).
Proof.
  split; [exact normalizeMobileNumber_digits|].
  split; [exact normalizeMobileNumber_key|].
  split; [intros [|]; reflexivity|].
  assert (Hneg : forall p,
             Js.numberToString (Z.neg p)
             = String "-" (Js.numberToString (Z.pos p))) by reflexivity.
  intros [|p|p]; [reflexivity| |]; unfold normalizeMobileNumber;
    cbn [Js.truthy Js.toStr].
  - change (- Z.pos p)%Z with (Z.neg p). rewrite Hneg. reflexivity.
  - change (- Z.neg p)%Z with (Z.pos p). rewrite Hneg. reflexivity.
Qed.

Section Listing.

Lemma filter_lookup_inv {A} (p : A -> bool) (l : list A) (j : nat) (x : A) :
  List.filter p l !! j = Some x ->
  exists i, (j <= i)%nat /\ l !! i = Some x /\ p x = true.
Proof.
  revert j. induction l as [|z r IH]; intros j; [discriminate|].
  cbn [List.filter]. destruct (p z) eqn:Hz.
  - destruct j as [|j].
    + intros [= <-]. exists 0%nat. repeat split; [lia | exact Hz].
    + intros H. destruct (IH j H) as (i & Hi & Hx & Hp).
      exists (S i). repeat split; [lia | exact Hx | exact Hp].
  - intros H. destruct (IH j H) as (i & Hi & Hx & Hp).
    exists (S i). repeat split; [lia | exact Hx | exact Hp].
Qed.

Lemma filter_lookup_position {A} (p : A -> bool) (l : list A) (i : nat) (x : A) :
  l !! i = Some x -> p x = true ->
  exists j, (j <= i)%nat /\ List.filter p l !! j = Some x.
Proof.
  revert i. induction l as [|z r IH]; intros i; [discriminate|].
  cbn [List.filter]. destruct i as [|i].
  - intros [= <-] Hp. rewrite Hp. exists 0%nat. split; [lia | reflexivity].
  - intros Hx Hp. destruct (IH i Hx Hp) as (j & Hj & Hf).
    destruct (p z).
    + exists (S j). split; [lia | exact Hf].
    + exists j. split; [lia | exact Hf].
Qed.

Lemma listStudents_lookup (s : Sheet) (j : nat) :
  listStudents s !! j
  = (fun row => mapRowToStudent row (j + 1)) <$> List.filter listed s !! j.
Proof. unfold listStudents. apply list_lookup_imap. Qed.

(** Two readings of one row differ in their row number only. *)
Lemma get_mapRow_number (row : Row) (n m : nat) (k : string) :
  k <> "rowNumber" ->
  Js.get (mapRowToStudent row n) k = Js.get (mapRowToStudent row m) k.
Proof.
  intros Hne. rewrite !mapRowToStudent_eq.
  rewrite !(get_insert_ne _ "rowNumber") by congruence. reflexivity.
Qed.

Lemma listed_spec (row : Row) :
  listed row = true <->
  (2 <= length row)%nat /\ cellAt row 0 <> "" /\ cellAt row 1 <> "".
Proof.
  destruct row as [|a [|b r]].
  - split; [discriminate | intros [H _]; cbn [length] in H; lia].
  - split; [|intros [H _]; cbn [length] in H; lia].
    unfold listed. cbn [length Nat.leb andb]. discriminate.
  - change (listed (a :: b :: r))
      with (negb (Js.isEmpty a) && negb (Js.isEmpty b)).
    change (cellAt (a :: b :: r) 0) with a.
    change (cellAt (a :: b :: r) 1) with b.
    rewrite andb_true_iff, !negb_true_iff, !isEmpty_false.
    cbn [length]. split; [intros [? ?] | intros (_ & ? & ?)];
      repeat split; (assumption || lia).
Qed.

(** A row that a lookup can find is listed when its first cell is not
    empty. *)
Lemma listed_found (key : string) (row : Row) :
  rowMatches key row = true -> cellAt row 0 <> "" -> listed row = true.
Proof.
  intros (Hlen & Hd & Hne)%rowMatches_spec Hname. apply listed_spec.
  split; [exact Hlen|]. split; [exact Hname|].
  intros Hempty. rewrite Hempty in Hd. cbn in Hd. congruence.
Qed.

End Listing.

(** X17: [GET /students] always answers 200 and never writes: it reads
    the sheet once, whatever other clients do.  The list it returns holds
    one record for each row with at least two cells and a non-empty
    first and second cell, in the order of the sheet; the record at
    position [j] of the list has [rowNumber] [j + 1] and is read from a
    row at position [j] or further down the data rows. *)
Theorem getStudents_lists (env : Env) (w : World) :
  let s1 := others env (trips w) (sheet w) in
  let result := getStudents env w in
  result.1 = Ok {| listStatus := 200;
                   listBody := BodyStudents (listStudents s1) |} /\
  sheet result.2 = s1 /\
  log result.2 = (log w ++ [ValuesGet])%list /\
  length (listStudents s1) = length (List.filter listed s1) /\
  forall j student,
    listStudents s1 !! j = Some student ->
    Js.get student "rowNumber" = Js.Number (Z.of_nat (j + 1)) /\
    exists i row,
      (j <= i)%nat /\ s1 !! i = Some row /\ listed row = true /\
      student = mapRowToStudent row (j + 1).
Proof.
  intros s1 result.
  assert (Hrun : result
                 = (Ok {| listStatus := 200;
                          listBody := BodyStudents (listStudents s1) |},
                    tripped ValuesGet s1 w)).
  { unfold result, getStudents, tryCatch. rewrite bind_run.
    unfold valuesGet, roundTrip. cbv zeta. fold s1. unfold id.
    destruct s1 as [|r s]; reflexivity. }
  rewrite Hrun. split; [reflexivity|]. split; [reflexivity|].
  split; [reflexivity|]. split.
  { unfold listStudents. apply length_imap. }
  intros j student Hj. rewrite listStudents_lookup in Hj.
  destruct (List.filter listed s1 !! j) as [row|] eqn:Hrow; [|discriminate].
  injection Hj as <-. split; [apply get_rowNumber|].
  destruct (filter_lookup_inv listed s1 j row Hrow) as (i & Hi & Hx & Hp).
  exists i, row. repeat split; assumption.
Qed.

(** X18: the listing and the lookup number the rows differently.  Every
    record that a lookup finds and whose Name cell is not empty is also
    in the list of [GET /students] for the same sheet, with the same
    fields, except that the lookup reports [rowNumber] [i + 2] for the
    data row at position [i] while the list reports [j + 1] for some
    [j <= i]: the row number of the list is smaller than the row number
    the lookup reports and the updates use. *)
Theorem listing_row_number_differs (q : string) (s : Sheet) (found : Js.Obj) :
  lookupRows q s = Some found ->
  Js.get found "Name" <> Js.Str "" ->
  exists i j student,
    Js.get found "rowNumber" = Js.Number (Z.of_nat (i + 2)) /\
    listStudents s !! j = Some student /\
    Js.get student "rowNumber" = Js.Number (Z.of_nat (j + 1)) /\
    (j + 1 < i + 2)%nat /\
    forall k, k <> "rowNumber" -> Js.get student k = Js.get found k.
Proof.
  intros Hl Hname.
  destruct (lookupRows_inv _ _ _ Hl) as (i & row & Hi & Hrow & _ & He).
  destruct (findIndex_Some _ _ _ Hi) as (x & Hx & Hp).
  rewrite Hrow in Hx. injection Hx as <-.
  assert (Hlisted : listed row = true).
  { apply (listed_found _ row Hp). intros Hempty. apply Hname.
    rewrite He, (cellAt_mapRow row _ "Name" 0) by reflexivity.
    rewrite Hempty. reflexivity. }
  destruct (filter_lookup_position listed s i row Hrow Hlisted)
    as (j & Hj & Hf).
  exists i, j, (mapRowToStudent row (j + 1)).
  split; [rewrite He; apply get_rowNumber|].
  split; [rewrite listStudents_lookup, Hf; reflexivity|].
  split; [apply get_rowNumber|]. split; [lia|].
  intros k Hk. rewrite He. by apply get_mapRow_number.
Qed.

Lemma listing_row_number_differs_witness :
  exists i j student,
    Js.get (mapRowToStudent plainRow 2) "rowNumber"
      = Js.Number (Z.of_nat (i + 2)) /\
    listStudents [plainRow] !! j = Some student /\
    Js.get student "rowNumber" = Js.Number (Z.of_nat (j + 1)) /\
    (j + 1 < i + 2)%nat.
Proof.
  assert (Hl : lookupRows "9876543210" [plainRow]
               = Some (mapRowToStudent plainRow 2)) by reflexivity.
  assert (Hn : Js.get (mapRowToStudent plainRow 2) "Name" <> Js.Str "")
    by (vm_compute; discriminate).
  destruct (listing_row_number_differs "9876543210" [plainRow]
              (mapRowToStudent plainRow 2) Hl Hn)
    as (i & j & student & H1 & H2 & H3 & H4 & _).
  exists i, j, student. repeat split; assumption.
Defined.

(** X19: a name of white space only passes the checks of [POST /student]
    and is stored as an empty Name cell.  Under sequential access, for
    such a body and a number that no row holds, the call answers 201, a
    lookup of the number then finds the record with an empty [Name], and
    the list of [GET /students] for the resulting sheet has no record
    under that number. *)
Theorem blank_name_unlisted (env : Env) (req : StudentBody) (w : World)
    (name : string) :
  sequential env ->
  validBody req = true ->
  Name req = Js.Str name -> Js.trim name = "" ->
  let key := normalizeMobileNumber (MobileNo req) in
  lookupRows key (sheet w) = None ->
  let first := postStudent env req w in
  statusOf first.1 = Some 201%nat /\
  (exists found,
      lookupRows key (sheet first.2) = Some found /\
      Js.get found "Name" = Js.Str "") /\
  forall student,
    student ∈ listStudents (sheet first.2) ->
    normalizeMobileNumber (Js.get student "MobileNo") <> key.
Proof.
  intros Hseq Hv Hname Hblank key Hl first.
  assert (Hd : Js.allChars Js.isDigit key = true)
    by apply normalizeMobileNumber_digits.
  pose proof (validBody_inv _ Hv) as (_&_&_&_&_&_&_&_&Hne&_). fold key in Hne.
  destruct (create_run env Hseq req w Hv Hl) as (H1 & Hs1 & _ & _).
  set (new := created req (clock env (reads w)) (clock env (S (reads w))))
    in *.
  fold first in H1, Hs1.
  destruct (get_created req (clock env (reads w)) (clock env (S (reads w))))
    as (Gm & _). fold new in Gm. fold key in Gm.
  assert (Gn : Js.get new "Name" = Js.Str "").
  { unfold new, created, Js.assign. cbn [foldl fst snd].
    rewrite !get_insert. cbn. rewrite Hname. cbn [Js.toStr].
    rewrite Hblank. reflexivity. }
  split; [rewrite H1; reflexivity|]. split.
  - eexists. split.
    + rewrite Hs1. apply (lookup_appended key new (sheet w) Hl Gm Hd Hne).
    + rewrite (get_written _ _ "Name" 0) by reflexivity.
      rewrite (storedText_Str _ _ _ Gn). reflexivity.
  - intros student Hin.
    apply list_elem_of_lookup_1 in Hin as (j & Hj).
    rewrite listStudents_lookup in Hj.
    destruct (List.filter listed (sheet first.2) !! j) as [row|] eqn:Hrow;
      [|discriminate].
    injection Hj as <-.
    destruct (filter_lookup_inv _ _ _ _ Hrow) as (i & _ & Hx & Hp).
    rewrite (cellAt_mapRow row _ "MobileNo" 1) by reflexivity.
    rewrite normalizeMobileNumber_Str. intros Hkey.
    apply listed_spec in Hp as (Hlen & Hc0 & _).
    assert (Hm : rowMatches key row = true).
    { apply rowMatches_spec. repeat split; [exact Hlen | exact Hkey|].
      by apply isEmpty_false. }
    rewrite Hs1 in Hx. apply lookup_app_Some in Hx as [Hx | [_ Hx]].
    + apply lookupRows_None in Hl. unfold key in Hl.
      rewrite normalizeMobileNumber_key in Hl. fold key in Hl.
      apply findIndex_None with (x := row) in Hl;
        [congruence | by eapply list_elem_of_lookup_2].
    + apply list_lookup_singleton_Some in Hx as [_ <-].
      apply Hc0. rewrite (cellAt_written _ "Name" 0) by reflexivity.
      rewrite (storedText_Str _ _ _ Gn). reflexivity.
Qed.

Lemma blank_name_unlisted_witness :
  let req :=
    {| Name := Js.Str " "; MobileNo := Js.Str "98765 43210";
       District := Js.Str "X"; State := Js.Str "Y";
       Paid := Js.Str "Yes"; FeeAmount := Js.Str "500" |} in
  let first := postStudent sampleEnv req (start []) in
  validBody req = true /\
  statusOf first.1 = Some 201%nat /\
  forall student,
    student ∈ listStudents (sheet first.2) ->
    normalizeMobileNumber (Js.get student "MobileNo") <> "9876543210".
Proof.
  intros req first.
  assert (Hs : sequential sampleEnv) by (intros n s; reflexivity).
  assert (Hv : validBody req = true) by reflexivity.
  destruct (blank_name_unlisted sampleEnv req (start []) " " Hs Hv eq_refl
              eq_refl eq_refl) as (H1 & _ & H3).
  split; [exact Hv|]. split; [exact H1 | exact H3].
Defined.

Section Pages.

Variable env : Env.

(** The three refusals of [POST /student] that precede every call to the
    store. *)
Lemma postStudent_refused req w :
  (missingField req = true ->
   postStudent env req w
   = (Ok {| status := 400;
            body := BodyError
                      "Name, MobileNo, District, State, and Paid are required." |},
      w)) /\
  (missingField req = false -> feeMissing (FeeAmount req) = true ->
   postStudent env req w
   = (Ok {| status := 400; body := BodyError "FeeAmount is required." |}, w)) /\
  (missingField req = false -> feeMissing (FeeAmount req) = false ->
   Js.isEmpty (normalizeMobileNumber (MobileNo req)) = true ->
   postStudent env req w
   = (Ok {| status := 400; body := BodyError "Invalid mobile number." |}, w)).
Proof.
  unfold postStudent. fold (missingField req). split; [|split].
  - intros ->. reflexivity.
  - intros -> ->. reflexivity.
  - intros -> -> Hk. unfold tryCatch. rewrite Hk. reflexivity.
Qed.

(** What a non-empty trimmed field of a form is for the server. *)
Lemma truthy_trimmed (s : string) :
  Js.truthy (Js.Str (Js.trim s)) = negb (Js.isEmpty (Js.trim s)).
Proof. reflexivity. Qed.

End Pages.

(** X20: the form of [src/frontend/src/App.tsx] cannot add a student.
    Its payload has no [FeeAmount], so every body that [handleAddStudent]
    posts is answered 400, "FeeAmount is required.", by [POST /student],
    before any call to the store, whatever the form holds. *)
Theorem form_without_fee_refused (env : Env)
    (form : App.NewStudentFormState) (payload : StudentBody) (w : World) :
  App.handleAddStudent form = Some payload ->
  postStudent env payload w
  = (Ok {| status := 400; body := BodyError "FeeAmount is required." |}, w).
Proof.
  unfold App.handleAddStudent. cbv zeta.
  cbn [Name MobileNo District State Paid FeeAmount].
  destruct (_ || _) eqn:E; [discriminate|]. intros [= <-].
  apply postStudent_refused; [|reflexivity].
  unfold missingField. cbn [Name MobileNo District State Paid FeeAmount].
  rewrite E. reflexivity.
Qed.

Lemma form_without_fee_refused_witness :
  let form :=
    {| App.formName := "Asha"; App.formMobileNo := "9876543210";
       App.formDistrict := "Pune"; App.formState := "Maharashtra";
       App.formPaid := "Yes" |} in
  exists payload,
    App.handleAddStudent form = Some payload /\
    statusOf (postStudent sampleEnv payload (start [])).1 = Some 400%nat.
Proof.
  intros form. eexists. split; [reflexivity|].
  rewrite (form_without_fee_refused sampleEnv form _ (start []) eq_refl).
  reflexivity.
Defined.

(** X21: the form with a fee field ([src/unnamed/part_002]) sends only
    bodies that pass the field checks of [POST /student].  Under
    sequential access every body that its [handleAddStudent] posts is
    answered in one of three ways: 400, "Invalid mobile number.", when
    the number typed has no digit; 200 with [updated: true] when a row
    holds the digits typed; 201 with [created: true] otherwise.  It is
    never answered 500. *)
Theorem form_with_fee_outcomes (env : Env)
    (form : FeePage.NewStudentFormState) (payload : StudentBody) (w : World) :
  sequential env ->
  FeePage.handleAddStudent form = Some payload ->
  let key := Js.stripNonDigits (FeePage.formMobileNo form) in
  let result := postStudent env payload w in
  normalizeMobileNumber (MobileNo payload) = key /\
  ((key = "" /\
    result
    = (Ok {| status := 400; body := BodyError "Invalid mobile number." |}, w))
   \/ (key <> "" /\ validBody payload = true /\
       exists existing,
         lookupRows key (sheet w) = Some existing /\
         statusOf result.1 = Some 200%nat /\ isUpdated result.1 = true)
   \/ (key <> "" /\ validBody payload = true /\
       lookupRows key (sheet w) = None /\
       statusOf result.1 = Some 201%nat /\ isCreated result.1 = true)).
Proof.
  intros Hseq Hform key result. revert Hform.
  unfold FeePage.handleAddStudent.
  cbn [Name MobileNo District State Paid FeeAmount].
  destruct (_ || _) eqn:E; [discriminate|]. intros [= Hp].
  subst result. rewrite <- Hp. clear Hp payload.
  rewrite !truthy_trimmed, !negb_involutive in E.
  apply orb_false_iff in E as [E Hfee]. apply orb_false_iff in E as [E Hst].
  apply orb_false_iff in E as [E Hdi]. apply orb_false_iff in E as [Hna Hmo].
  assert (Hkey : normalizeMobileNumber
                   (Js.Str (Js.trim (FeePage.formMobileNo form))) = key).
  { rewrite normalizeMobileNumber_Str. apply stripNonDigits_trim. }
  cbn [MobileNo]. split; [exact Hkey|].
  set (payload :=
         {| Name := Js.Str (Js.trim (FeePage.formName form));
            MobileNo := Js.Str (Js.trim (FeePage.formMobileNo form));
            District := Js.Str (Js.trim (FeePage.formDistrict form));
            State := Js.Str (Js.trim (FeePage.formState form));
            Paid := Js.Str "Yes";
            FeeAmount := Js.Str (Js.trim (FeePage.formFeeAmount form)) |})
    in *.
  assert (Hmiss : missingField payload = false).
  { unfold missingField, payload.
    cbn [Name MobileNo District State Paid FeeAmount].
    rewrite !truthy_trimmed, Hna, Hmo, Hdi, Hst. reflexivity. }
  assert (Hf : feeMissing (FeeAmount payload) = false) by exact Hfee.
  destruct (Js.isEmpty key) eqn:Hk.
  - left. split; [by apply isEmpty_true|].
    apply postStudent_refused; [exact Hmiss | exact Hf|].
    unfold payload. cbn [MobileNo]. rewrite Hkey. exact Hk.
  - right.
    assert (Hv : validBody payload = true).
    { rewrite validBody_split, Hmiss, Hf. unfold payload at 1.
      cbn [MobileNo]. rewrite Hkey, Hk. reflexivity. }
    assert (Hne : key <> "") by (by apply isEmpty_false).
    destruct (lookupRows key (sheet w)) as [existing|] eqn:Hl.
    + left. split; [exact Hne|]. split; [exact Hv|]. exists existing.
      split; [reflexivity|].
      assert (Hl' : lookupRows (normalizeMobileNumber (MobileNo payload))
                      (sheet w) = Some existing)
        by (unfold payload; cbn [MobileNo]; rewrite Hkey; exact Hl).
      destruct (upsert_existing_run env Hseq payload w existing Hv Hl')
        as (i & row & _ & _ & _ & Hrun).
      rewrite Hrun. split; reflexivity.
    + right. split; [exact Hne|]. split; [exact Hv|]. split; [reflexivity|].
      assert (Hl' : lookupRows (normalizeMobileNumber (MobileNo payload))
                      (sheet w) = None)
        by (unfold payload; cbn [MobileNo]; rewrite Hkey; exact Hl).
      destruct (create_run env Hseq payload w Hv Hl') as (H1 & _).
      rewrite H1. split; reflexivity.
Qed.

Lemma form_with_fee_outcomes_witness :
  let form :=
    {| FeePage.formName := "Asha"; FeePage.formMobileNo := " 98765 43210 ";
       FeePage.formDistrict := "Pune"; FeePage.formState := "Maharashtra";
       FeePage.formPaid := "Yes"; FeePage.formFeeAmount := "500" |} in
  exists payload,
    FeePage.handleAddStudent form = Some payload /\
    normalizeMobileNumber (MobileNo payload) = "9876543210".
Proof.
  intros form. eexists. split; [reflexivity|].
  assert (Hs : sequential sampleEnv) by (intros n s; reflexivity).
  exact (proj1 (form_with_fee_outcomes sampleEnv form _ (start []) Hs
                  eq_refl)).
Defined.

Section Buttons.

Lemma strictEq_true (a b : Js.Value) : Js.strictEq a b = true -> a = b.
Proof. unfold Js.strictEq. apply bool_decide_eq_true. Qed.

(** The buttons, by the cells they look at. *)
Lemma actionButtons_cases (student : Js.Obj) (b : App.Button) :
  b ∈ App.actionButtons (Some student) ->
  (App.id b = "approveUnpaid" /\
   App.updates b = {[ "Paid" := Js.Str "Yes"; "Attempted" := Js.Str "Yes" ]} /\
   Js.get student "Paid" = Js.Str "No" /\
   Js.get student "Attempted" = Js.Str "No")
  \/ (App.id b = "approvePaid" /\
      App.updates b = {[ "Attempted" := Js.Str "Yes" ]} /\
      Js.get student "Paid" = Js.Str "Yes" /\
      Js.get student "Attempted" = Js.Str "No")
  \/ (App.id b = "retake" /\
      App.updates b = {[ "RetakeAllowed" := Js.Str "Yes" ]} /\
      Js.get student "Attempted" = Js.Str "Yes").
Proof.
  unfold App.actionButtons. cbn [List.filter fst].
  destruct (Js.strictEq (Js.get student "Paid") (Js.Str "No")) eqn:Hpn;
    destruct (Js.strictEq (Js.get student "Paid") (Js.Str "Yes")) eqn:Hpy;
    destruct (Js.strictEq (Js.get student "Attempted") (Js.Str "No")) eqn:Han;
    destruct (Js.strictEq (Js.get student "Attempted") (Js.Str "Yes")) eqn:Hay;
    cbn [andb fst snd fmap list_fmap];
    repeat match goal with
           | H : Js.strictEq _ _ = true |- _ => apply strictEq_true in H
           end;
    rewrite ?elem_of_cons, elem_of_nil;
    intros H; repeat destruct H as [H|H]; try contradiction; subst b;
    cbn [App.id App.updates]; auto 10.
Qed.

(** The [MobileNo] of a record that a lookup returns finds that record. *)
Lemma lookup_own_number (q : string) (s : Sheet) (student : Js.Obj) :
  lookupRows q s = Some student ->
  lookupRows (normalizeMobileNumber (Js.get student "MobileNo")) s
  = Some student.
Proof.
  intros Hl.
  destruct (lookupRows_inv _ _ _ Hl) as (i & row & Hi & Hrow & Hm & He).
  apply rowMatches_spec in Hm as Hspec. destruct Hspec as (_ & Hd & _).
  assert (Hk : normalizeMobileNumber (Js.get student "MobileNo")
               = normalizeMobileNumber (Js.Str q)).
  { rewrite He, (cellAt_mapRow row _ "MobileNo" 1) by reflexivity.
    rewrite normalizeMobileNumber_Str. exact Hd. }
  rewrite Hk, He. apply lookupRows_found; [|exact Hrow].
  rewrite normalizeMobileNumber_key. exact Hi.
Qed.

End Buttons.

(** X22: the page shows at most one button for a student, and exactly one
    when the record's [Attempted] is "Yes", or is "No" with [Paid] "Yes"
    or "No"; a record whose [Attempted] is anything else, a blank cell
    for one, gets no button. *)
Theorem actionButtons_at_most_one (student : Js.Obj) :
  (length (App.actionButtons (Some student)) <= 1)%nat /\
  (length (App.actionButtons (Some student)) = 1%nat <->
   Js.get student "Attempted" = Js.Str "Yes"
   \/ (Js.get student "Attempted" = Js.Str "No" /\
       (Js.get student "Paid" = Js.Str "Yes"
        \/ Js.get student "Paid" = Js.Str "No"))).
Proof.
  unfold App.actionButtons. cbn [List.filter fst].
  unfold Js.strictEq.
  destruct (decide (Js.get student "Paid" = Js.Str "No")) as [Hpn|Hpn];
    destruct (decide (Js.get student "Paid" = Js.Str "Yes")) as [Hpy|Hpy];
    destruct (decide (Js.get student "Attempted" = Js.Str "No")) as [Han|Han];
    destruct (decide (Js.get student "Attempted" = Js.Str "Yes")) as [Hay|Hay];
    try congruence;
    repeat match goal with
           | |- context [bool_decide ?P] =>
               first [ rewrite (bool_decide_eq_true_2 P) by assumption
                     | rewrite (bool_decide_eq_false_2 P) by assumption ]
           end;
    cbn [andb fst snd fmap list_fmap length];
    (split; [lia|]); split; try (intros _; auto; fail); try lia;
    intros [?|[? [?|?]]]; congruence.
Qed.

(** X23: what a button of the page does at the server.  Under sequential
    access, when the student on the page is the record a lookup returns,
    the request [handleAction] sends for any button shown finds that same
    record (never 400 or 404).  It is either refused by the cooldown
    check, which happens to the retake button only and leaves the sheet
    as it is, or answered 200 with a record whose [LastApprovedAt] is the
    ISO 8601 notation, at the offset +05:30, of a reading of the clock
    made by this call and whose [Attempted] is "Yes". *)
Theorem button_press_outcome (env : Env) (q : string) (student : Js.Obj)
    (b : App.Button) (w : World) :
  sequential env ->
  lookupRows q (sheet w) = Some student ->
  b ∈ App.actionButtons (Some student) ->
  let request := App.handleAction student b in
  let result := postStudentUpdate env request.1 request.2 w in
  (exists remainingHours,
      result.1 = Ok {| status := 409; body := BodyCooldown remainingHours |} /\
      App.id b = "retake" /\ sheet result.2 = sheet w)
  \/ (exists updated n,
        result.1 = Ok {| status := 200; body := BodyStudent updated |} /\
        (reads w <= n <= S (reads w))%nat /\
        Js.get updated "LastApprovedAt"
          = Js.Str (istTimestamp (clock env n)) /\
        isTimestampOf (istTimestamp (clock env n)) (clock env n) /\
        Js.get updated "Attempted" = Js.Str "Yes").
Proof.
  intros Hseq Hl Hb request result.
  pose proof (lookup_own_number q (sheet w) student Hl) as Hown.
  set (mobileNo := Js.get student "MobileNo") in *.
  set (key := normalizeMobileNumber mobileNo) in *.
  assert (Hk : Js.isEmpty key = false) by (eapply lookupRows_nonempty; eauto).
  assert (Hl' : lookupRows key (others env (trips w) (sheet w)) = Some student)
    by (rewrite Hseq; exact Hown).
  change result
    with (postStudentUpdate env mobileNo (Some (App.updates b)) w).
  set (updates := App.updates b).
  assert (Hrefresh : retakeOf updates || approvalOf updates student = true).
  { rewrite retakeOf_spec, approvalOf_spec. unfold updates.
    destruct (actionButtons_cases student b Hb)
      as [(_ & -> & _ & Ha)|[(_ & -> & _ & Ha)|(_ & -> & _)]];
      rewrite ?Ha; vm_compute; reflexivity. }
  assert (Hattempted :
            match normalizedUpdatesOf updates !! "Attempted" with
            | Some v => v
            | None => Js.get student "Attempted"
            end = Js.Str "Yes").
  { unfold updates.
    destruct (actionButtons_cases student b Hb)
      as [(_ & -> & _)|[(_ & -> & _)|(_ & -> & Ha)]];
      [vm_compute; reflexivity | vm_compute; reflexivity |].
    rewrite lookup_normalizedUpdatesOf by auto.
    replace (Js.get {[ "RetakeAllowed" := Js.Str "Yes" ]} "Attempted")
      with Js.Undefined by (vm_compute; reflexivity).
    cbn [Js.isUndefined].
    replace (({[ "RetakeAllowed" := Js.Str "Yes" ]} : Js.Obj) !! "Attempted")
      with (@None Js.Value) by (vm_compute; reflexivity).
    exact Ha. }
  destruct (cooldown_world env (retakeOf updates) student
              (tripped ValuesGet (sheet w) w))
    as (refused & Hr & Hs & _ & _ & Hreads).
  destruct (cooldown env (retakeOf updates) student
              (tripped ValuesGet (sheet w) w)) as [o w2] eqn:Hc.
  cbn [fst snd] in Hr, Hs, Hreads. subst o.
  cbn [reads tripped] in Hreads.
  destruct refused as [h|].
  - left. exists h.
    rewrite (postStudentUpdate_found env mobileNo updates student w Hl' Hk).
    cbv zeta. rewrite Hseq, Hc. cbn [fst snd].
    split; [reflexivity|]. split; [|exact Hs].
    destruct (actionButtons_cases student b Hb)
      as [(_ & Hu & _)|[(_ & Hu & _)|(Hid & _)]]; [| |exact Hid];
      exfalso; rewrite cooldown_run in Hc;
      assert (Hno : retakeOf updates = false)
        by (unfold updates; rewrite Hu; vm_compute; reflexivity);
      rewrite Hno in Hc; discriminate Hc.
  - right.
    destruct (update_accepted env Hseq mobileNo updates student w w2 Hown Hc)
      as (i & row & _ & _ & _ & Hrun & _).
    fold key in Hrun. rewrite Hrefresh in Hrun. rewrite Hrun.
    eexists _, (reads w2). split; [reflexivity|]. split; [exact Hreads|].
    split; [|split].
    + by apply get_updated_stamped.
    + apply istTimestamp_says.
    + rewrite get_updated_other by congruence. exact Hattempted.
Qed.

Lemma button_press_outcome_witness :
  let student := mapRowToStudent plainRow 2 in
  let b := {| App.id := "retake";
              App.updates := {[ "RetakeAllowed" := Js.Str "Yes" ]} |} in
  let request := App.handleAction student b in
  let result :=
    postStudentUpdate sampleEnv request.1 request.2 (start [plainRow]) in
  b ∈ App.actionButtons (Some student) /\
  ((exists remainingHours,
       result.1 = Ok {| status := 409; body := BodyCooldown remainingHours |})
   \/ (exists updated,
         result.1 = Ok {| status := 200; body := BodyStudent updated |})).
Proof.
  intros student b request result.
  assert (Hs : sequential sampleEnv) by (intros n s; reflexivity).
  assert (Hl : lookupRows "9876543210" (sheet (start [plainRow]))
               = Some student) by reflexivity.
  assert (Hb : b ∈ App.actionButtons (Some student)).
  { replace (App.actionButtons (Some student)) with [b]
      by (vm_compute; reflexivity).
    apply list_elem_of_singleton. reflexivity. }
  split; [exact Hb|].
  destruct (button_press_outcome sampleEnv "9876543210" student b
              (start [plainRow]) Hs Hl Hb)
    as [(h & H1 & _)|(u & n & H1 & _)].
  - left. exists h. exact H1.
  - right. exists u. exact H1.
Defined.

(** X24: [getErrorMessage] never returns an empty message.  For every
    error object the result is truthy; it is a non-empty string, unless
    the error has none of the four known codes and a truthy [message]
    that is not a string, which is then returned as it is. *)
Theorem getErrorMessage_never_empty (error : JsError) :
  Js.truthy (getErrorMessage error) = true /\
  ((exists s, getErrorMessage error = Js.Str s /\ s <> "")
   \/ (getErrorMessage error = message error /\
       isString (message error) = false)).
Proof.
  unfold getErrorMessage.
  repeat match goal with
         | |- context [Js.strictEq ?a ?b] => destruct (Js.strictEq a b)
         end;
    try (split; [reflexivity | left; eexists; split; [reflexivity|discriminate]]).
  destruct (Js.truthy (message error)) eqn:Ht.
  - split; [exact Ht|].
    destruct (message error) as [| |b|n|s|o] eqn:Hm; try (right; by split).
    left. exists s. split; [reflexivity|].
    cbn [Js.truthy] in Ht. apply negb_true_iff in Ht. by apply isEmpty_false.
  - split; [reflexivity | left; eexists; split; [reflexivity|discriminate]].
Qed.

Section Cors.

Lemma endsWithSlash_snoc (o : string) : endsWithSlash (o ++ "/") = true.
Proof.
  induction o as [|c r IH]; [reflexivity|].
  change (String c r ++ "/")%string with (String c (r ++ "/")).
  destruct (r ++ "/")%string eqn:E; [destruct r; discriminate E|].
  exact IH.
Qed.

Lemma sliceLast_snoc (o : string) : sliceLast (o ++ "/") = o.
Proof.
  induction o as [|c r IH]; [reflexivity|].
  change (String c r ++ "/")%string with (String c (r ++ "/")).
  destruct (r ++ "/")%string eqn:E; [destruct r; discriminate E|].
  change (sliceLast (String c (String a s)))
    with (String c (sliceLast (String a s))).
  rewrite IH. reflexivity.
Qed.

End Cors.

(** X25: the list of allowed origins restricts nothing.  The [origin]
    callback of the CORS middleware answers [true] for every origin,
    absent, listed or not; the list only decides whether the origin is
    logged as unlisted, and for that an origin and the same origin with a
    slash appended are the same. *)
Theorem cors_allows_every_origin :
  (forall origin, allowed (corsOrigin origin) = true) /\
  (forall origin,
      unlisted (corsOrigin origin) =
      match origin with
      | Some o => if Js.isEmpty o || isAllowed o then None else Some o
      | None => None
      end) /\
  (forall o, endsWithSlash o = false -> isAllowed (o ++ "/") = isAllowed o).
Proof.
  split; [|split].
  - intros [o|]; [|reflexivity]. unfold corsOrigin.
    destruct (Js.isEmpty o); [reflexivity|].
    destruct (isAllowed o); reflexivity.
  - intros [o|]; [|reflexivity]. unfold corsOrigin.
    destruct (Js.isEmpty o); [reflexivity|].
    destruct (isAllowed o); reflexivity.
  - intros o Ho. unfold isAllowed, normalizedOrigin at 1 3.
    rewrite endsWithSlash_snoc, sliceLast_snoc, Ho. reflexivity.
Qed.

Section Idempotence.

Lemma trim_storedText (o : Js.Obj) (header : string) :
  Js.trim (storedText o header) = storedText o header.
Proof.
  unfold storedText. destruct (Js.get o header); try apply trim_idem;
    reflexivity.
Qed.

(** The text of a value that was read from a trimmed cell. *)
Lemma storedText_of_Str (o : Js.Obj) (header t : string) :
  Js.get o header = Js.Str t -> Js.trim t = t -> storedText o header = t.
Proof. intros Hg Ht. rewrite (storedText_Str _ _ _ Hg). exact Ht. Qed.

Lemma cellAt_reserved (o : Js.Obj) :
  cellAt (cellText <$> rowValues o) 9
    = cellText (Js.nullish (Js.get o "_columnJ") (Js.Str "")) /\
  cellAt (cellText <$> rowValues o) 10
    = cellText (Js.nullish (Js.get o "_columnK") (Js.Str "")).
Proof. rewrite rowValues_eq. split; reflexivity. Qed.

(** A row of twelve cells is the list of its cells. *)
Lemma row_by_cells (r r' : Row) :
  length r = 12%nat -> length r' = 12%nat ->
  (forall k, (k < 12)%nat -> cellAt r k = cellAt r' k) -> r = r'.
Proof.
  intros Hr Hr' Hc. apply list_eq. intros k.
  destruct (Nat.lt_ge_cases k 12) as [Hk|Hk].
  - specialize (Hc k Hk). unfold cellAt in Hc.
    destruct (lookup_lt_is_Some_2 r k ltac:(lia)) as [x Hx].
    destruct (lookup_lt_is_Some_2 r' k ltac:(lia)) as [y Hy].
    rewrite Hx, Hy in Hc |- *. cbn in Hc. congruence.
  - rewrite !lookup_ge_None_2 by lia. reflexivity.
Qed.

Lemma written_length (o : Js.Obj) : length (cellText <$> rowValues o) = 12%nat.
Proof. rewrite length_fmap. apply rowValues_length. Qed.

Lemma get_upserted_req req x :
  Js.get (upserted req x) "Name" = Js.Str (Js.trim (Js.toStr (Name req))) /\
  Js.get (upserted req x) "District"
    = Js.Str (Js.trim (Js.toStr (District req))) /\
  Js.get (upserted req x) "State" = Js.Str (Js.trim (Js.toStr (State req))) /\
  Js.get (upserted req x) "FeeAmount"
    = (if negb (feeMissing (FeeAmount req))
       then Js.Str (Js.trim (Js.toStr (FeeAmount req)))
       else Js.nullish (Js.get x "FeeAmount") (Js.Str "")) /\
  Js.get (upserted req x) "_columnJ"
    = Js.nullish (Js.get x "_columnJ") (Js.Str "") /\
  Js.get (upserted req x) "_columnK"
    = Js.nullish (Js.get x "_columnK") (Js.Str "").
Proof.
  unfold upserted, Js.assign. cbn [foldl fst snd]. rewrite !get_insert.
  repeat split; reflexivity.
Qed.

(** The row [POST /student] writes over the row it wrote for the same body
    is that row again. *)
Lemma upserted_fixed req (o : Js.Obj) (n : nat) :
  feeMissing (FeeAmount req) = false ->
  let r1 := cellText <$> rowValues (upserted req o) in
  cellText <$> rowValues (upserted req (mapRowToStudent r1 n)) = r1.
Proof.
  intros Hf r1. set (e1 := mapRowToStudent r1 n).
  set (u1 := upserted req o). set (u2 := upserted req e1).
  assert (Hread : forall header k,
             HEADERS !! k = Some header -> namedHeader header = true ->
             Js.get e1 header = Js.Str (storedText u1 header)).
  { intros header k Hh Hn. apply (get_written u1 n header k Hh Hn). }
  assert (Hsame : forall header k,
             HEADERS !! k = Some header -> namedHeader header = true ->
             Js.get u2 header = Js.get u1 header ->
             cellAt (cellText <$> rowValues u2) k = cellAt r1 k).
  { intros header k Hh Hn Hg. unfold r1.
    rewrite !(cellAt_written _ header k Hh Hn). unfold storedText.
    rewrite Hg. reflexivity. }
  assert (Hkept : forall header k,
             HEADERS !! k = Some header -> namedHeader header = true ->
             Js.get u2 header = Js.Str (storedText u1 header) ->
             cellAt (cellText <$> rowValues u2) k = cellAt r1 k).
  { intros header k Hh Hn Hg. unfold r1.
    rewrite !(cellAt_written _ header k Hh Hn).
    rewrite (storedText_Str _ _ _ Hg). apply trim_storedText. }
  destruct (get_upserted req e1) as (M2 & C2 & P2 & A2 & R2).
  destruct (get_upserted req o) as (M1 & C1 & P1 & A1 & R1).
  destruct (get_upserted_req req e1) as (N2 & D2 & S2 & F2 & J2 & K2).
  destruct (get_upserted_req req o) as (N1 & D1 & S1 & F1 & J1 & K1).
  fold u1 in M1, C1, P1, A1, R1, N1, D1, S1, F1, J1, K1.
  fold u2 in M2, C2, P2, A2, R2, N2, D2, S2, F2, J2, K2.
  rewrite Hf in F1, F2. cbn [negb] in F1, F2.
  apply row_by_cells; [apply written_length | apply written_length|].
  intros k Hk.
  destruct k as [|[|[|[|[|[|[|[|[|[|[|[|k]]]]]]]]]]]]; try lia.
  - apply (Hsame "Name"); [reflexivity..|congruence].
  - apply (Hsame "MobileNo"); [reflexivity..|congruence].
  - apply (Hsame "District"); [reflexivity..|congruence].
  - apply (Hsame "State"); [reflexivity..|congruence].
  - apply (Hsame "Paid"); [reflexivity..|congruence].
  - apply (Hsame "FeeAmount"); [reflexivity..|congruence].
  - apply (Hkept "Attempted"); [reflexivity..|].
    rewrite A2. apply (Hread "Attempted" 6); reflexivity.
  - apply (Hkept "RetakeAllowed"); [reflexivity..|].
    rewrite R2. apply (Hread "RetakeAllowed" 7); reflexivity.
  - unfold r1. fold u1.
    rewrite !(cellAt_written _ "LastApprovedAt" 8) by reflexivity.
    pose proof (get_upserted_LastApprovedAt req e1) as L2. fold u2 in L2.
    unfold storedText at 1. rewrite L2.
    rewrite (Hread "LastApprovedAt" 8) by reflexivity.
    unfold Js.orElse. cbn [Js.truthy].
    destruct (Js.isEmpty (storedText u1 "LastApprovedAt")) eqn:E;
      cbn [negb Js.toStr].
    + apply isEmpty_true in E. rewrite E. reflexivity.
    + apply trim_storedText.
  - destruct (cellAt_reserved u2) as [-> _]. rewrite J2. unfold e1.
    destruct (get_mapRow_reserved r1 n) as [-> _]. reflexivity.
  - destruct (cellAt_reserved u2) as [_ ->]. rewrite K2. unfold e1.
    destruct (get_mapRow_reserved r1 n) as [_ ->]. reflexivity.
  - apply (Hkept "CreatedAt"); [reflexivity..|].
    rewrite C2, (Hread "CreatedAt" 11) by reflexivity. reflexivity.
Qed.

End Idempotence.

(** X26: re-posting a student is idempotent on the sheet.  Under
    sequential access, when a row holds the number of a valid body, a
    second [POST /student] with the same body answers 200 again and
    leaves the sheet exactly as the first call left it. *)
Theorem upsert_idempotent (env : Env) (req : StudentBody) (w : World)
    (existing : Js.Obj) :
  sequential env ->
  validBody req = true ->
  lookupRows (normalizeMobileNumber (MobileNo req)) (sheet w) = Some existing ->
  let first := postStudent env req w in
  let second := postStudent env req first.2 in
  statusOf first.1 = Some 200%nat /\
  statusOf second.1 = Some 200%nat /\ isUpdated second.1 = true /\
  sheet second.2 = sheet first.2.
Proof.
  intros Hseq Hv Hl first second.
  set (key := normalizeMobileNumber (MobileNo req)) in *.
  assert (Hd : Js.allChars Js.isDigit key = true)
    by apply normalizeMobileNumber_digits.
  pose proof (validBody_inv _ Hv) as (_&_&_&_&_&_&_&Hf&Hne&_). fold key in Hne.
  destruct (upsert_existing_run env Hseq req w existing Hv Hl)
    as (i & row & Hi & Hrow & _ & Hrun1).
  fold key in Hi. fold first in Hrun1.
  set (u1 := upserted req existing) in *.
  set (r1 := cellText <$> rowValues u1) in *.
  assert (Hs1 : sheet first.2 = <[i := r1]> (sheet w))
    by (rewrite Hrun1; reflexivity).
  assert (Hm1 : Js.get u1 "MobileNo" = Js.Str key) by apply get_upserted.
  pose proof (lookup_rewritten key u1 (sheet w) i row Hi Hrow Hm1 Hd Hne)
    as Hl1.
  fold r1 in Hl1. rewrite <- Hs1 in Hl1.
  destruct (upsert_existing_run env Hseq req first.2 _ Hv Hl1)
    as (i' & row' & Hi' & Hrow' & _ & Hrun2).
  fold key in Hi'. fold second in Hrun2.
  assert (Hii : i' = i).
  { rewrite Hs1 in Hi'.
    rewrite (findIndex_insert _ _ _ r1 Hi) in Hi'; [congruence|].
    by apply rowMatches_written. }
  subst i'.
  split; [rewrite Hrun1; reflexivity|].
  split; [rewrite Hrun2; reflexivity|].
  split; [rewrite Hrun2; reflexivity|].
  rewrite Hrun2. cbn [snd sheet tripped].
  pose proof (upserted_fixed req existing (i + 2) Hf) as Hfix.
  cbv zeta in Hfix. fold u1 in Hfix. fold r1 in Hfix. rewrite Hfix.
  rewrite Hs1. apply list_insert_insert_eq.
Qed.

Lemma upsert_idempotent_witness :
  let first := postStudent sampleEnv sampleBody (start [paddedRow]) in
  let second := postStudent sampleEnv sampleBody first.2 in
  statusOf second.1 = Some 200%nat /\ sheet second.2 = sheet first.2.
Proof.
  assert (Hs : sequential sampleEnv) by (intros n s; reflexivity).
  assert (Hv : validBody sampleBody = true) by reflexivity.
  assert (Hl : lookupRows (normalizeMobileNumber (MobileNo sampleBody))
                 (sheet (start [paddedRow]))
               = Some (mapRowToStudent paddedRow 2)) by reflexivity.
  destruct (upsert_idempotent sampleEnv sampleBody (start [paddedRow])
              (mapRowToStudent paddedRow 2) Hs Hv Hl) as (_ & H2 & _ & H4).
  exact (conj H2 H4).
Defined.

Section ReadBack.

Variable env : Env.

(** [GET /student] for a query that is not blank. *)
Lemma getStudent_run (q : string) (w : World) :
  Js.isEmpty (Js.trim q) = false ->
  let s1 := others env (trips w) (sheet w) in
  getStudent env (Some q) w =
  (match lookupRows (Js.trim q) s1 with
   | Some student => Ok {| status := 200; body := BodyStudent student |}
   | None => Ok {| status := 404; body := BodyNotFound |}
   end,
   tripped ValuesGet s1 w).
Proof.
  intros Hb s1. unfold getStudent.
  rewrite (trim_nonblank _ Hb), Hb. cbn [orb]. unfold tryCatch.
  rewrite bind_run, findStudentByMobile_run. cbv zeta. fold s1.
  destruct (lookupRows _ _); reflexivity.
Qed.

(** A query with a digit is not blank. *)
Lemma digits_nonblank (q : string) :
  Js.stripNonDigits q <> "" -> Js.isEmpty (Js.trim q) = false.
Proof.
  intros Hd. apply isEmpty_false. intros Hq. apply Hd.
  rewrite <- stripNonDigits_trim, Hq. reflexivity.
Qed.

End ReadBack.

(** X27: a lookup reads back what an update wrote.  Under sequential
    access, after [POST /student/update] answers 200 with a record,
    [GET /student] for any query with the digits of the number answers 200
    with the record of the same row, and each of its named fields is the
    text of the field in the update's answer: [String(value).trim()], or
    the empty string for [undefined] and [null].  The lookup does not
    change the sheet. *)
Theorem read_your_update (env : Env) (mobileNo : Js.Value)
    (updates student updated : Js.Obj) (w : World) (q : string) :
  sequential env ->
  let key := normalizeMobileNumber mobileNo in
  let result := postStudentUpdate env mobileNo (Some updates) w in
  lookupRows key (sheet w) = Some student ->
  result.1 = Ok {| status := 200; body := BodyStudent updated |} ->
  Js.stripNonDigits q = key ->
  let after := getStudent env (Some q) result.2 in
  exists found,
    after.1 = Ok {| status := 200; body := BodyStudent found |} /\
    Js.get found "rowNumber" = Js.get student "rowNumber" /\
    (forall header k,
        HEADERS !! k = Some header -> namedHeader header = true ->
        Js.get found header = Js.Str (storedText updated header)) /\
    sheet after.2 = sheet result.2.
Proof.
  intros Hseq key result Hl H200 Hq after.
  assert (Hk : Js.isEmpty key = false) by (eapply lookupRows_nonempty; eauto).
  assert (Hd : Js.allChars Js.isDigit key = true)
    by apply normalizeMobileNumber_digits.
  destruct (cooldown_world env (retakeOf updates) student
              (tripped ValuesGet (sheet w) w)) as (refused & Hr & _).
  destruct (cooldown env (retakeOf updates) student
              (tripped ValuesGet (sheet w) w)) as [o w2] eqn:Hc.
  cbn [fst] in Hr. subst o.
  destruct refused as [h|].
  { exfalso. unfold result in H200.
    assert (Hl' : lookupRows key (others env (trips w) (sheet w)) = Some student)
      by (rewrite Hseq; exact Hl).
    rewrite (postStudentUpdate_found env mobileNo updates student w Hl' Hk)
      in H200.
    cbv zeta in H200. rewrite Hseq, Hc in H200. discriminate H200. }
  destruct (update_accepted env Hseq mobileNo updates student w w2 Hl Hc)
    as (i & row & _ & _ & He & Hrun & Hafter).
  fold key in Hrun, Hafter. fold result in Hrun.
  rewrite Hrun in H200. cbn [fst] in H200. injection H200 as Hu.
  rewrite Hu in Hrun, Hafter.
  assert (Hb : Js.isEmpty (Js.trim q) = false).
  { apply digits_nonblank. rewrite Hq. by apply isEmpty_false. }
  unfold after. rewrite (getStudent_run env q result.2 Hb). cbv zeta.
  rewrite Hseq.
  assert (Hlq : lookupRows (Js.trim q) (sheet result.2)
                = lookupRows key (sheet result.2)).
  { apply lookupRows_digits. rewrite stripNonDigits_trim, Hq.
    symmetry. by apply stripNonDigits_fixed. }
  assert (Hsheet : sheet result.2
                   = <[i := cellText <$> rowValues updated]> (sheet w))
    by (rewrite Hrun; reflexivity).
  rewrite Hlq, Hsheet, Hafter. cbn [fst snd sheet tripped]. eexists. split; [reflexivity|].
  split; [rewrite He, !get_rowNumber; reflexivity|].
  split; [|reflexivity].
  intros header k Hh Hn. apply (get_written updated _ header k Hh Hn).
Qed.

Lemma read_your_update_witness :
  let result :=
    postStudentUpdate sampleEnv (Js.Str "9876543210")
      (Some {[ "Paid" := Js.Str " yes " ]}) (start [plainRow]) in
  exists found,
    (getStudent sampleEnv (Some "98765-43210") result.2).1
      = Ok {| status := 200; body := BodyStudent found |} /\
    Js.get found "Paid" = Js.Str "Yes".
Proof.
  intros result.
  assert (Hs : sequential sampleEnv) by (intros n s; reflexivity).
  set (updated := updatedStudentOf "9876543210" {[ "Paid" := Js.Str " yes " ]}
                    (mapRowToStudent plainRow 2) None).
  assert (Hl : lookupRows (normalizeMobileNumber (Js.Str "9876543210"))
                 (sheet (start [plainRow]))
               = Some (mapRowToStudent plainRow 2)) by reflexivity.
  assert (H200 : result.1 = Ok {| status := 200; body := BodyStudent updated |})
    by (vm_compute; reflexivity).
  destruct (read_your_update sampleEnv (Js.Str "9876543210")
              {[ "Paid" := Js.Str " yes " ]} (mapRowToStudent plainRow 2)
              updated (start [plainRow]) "98765-43210" Hs Hl H200 eq_refl)
    as (found & H1 & _ & H3 & _).
  exists found. split; [exact H1|].
  rewrite (H3 "Paid" 4%nat eq_refl eq_refl). vm_compute. reflexivity.
Defined.
